(** * Rainmaker dashboard: scoring and rolling-merge pipeline

    A shallow embedding of the decision logic of [collect.py] (Twitter
    collector, magnitude-policy sentiment, brand score, date-keyed merge)
    and of [scorer.py] (ratio-policy sentiment, engagement score, scoring of
    already-pulled posts), followed by the properties of the specification
    that are checked against it.

    Conventions of the embedding.
    - Python [int] is [Z]; Python [float] is an exact rational [Q]
      (binary64 rounding is not modelled: sums, products and quotients are
      the exact ones, [round] is round-half-to-even on the exact value).
    - Python [str] is [string], one character per position (the dash of
      the alert key is spelled in UTF-8); [str.lower] is a parameter
      [lower] of the sections below, so every statement holds for whatever
      case mapping is used; [ascii_lower] is the instance used in the
      examples.
    - JSON values and dynamically typed dictionary entries are [pyval];
      a [dict] with string keys is a [gmap string pyval].
    - A Python exception is [None] in the [option] monad. *)

From Stdlib Require Import ZArith QArith Qround Qminmax String Ascii List Lia Lqa.
From stdpp Require Import gmap strings list fin_maps option pretty sorting.

Set Warnings "-register-all".

#[local] Open Scope Z_scope.

(** ** Python values and primitives *)

Module Py.

(** JSON-like values: what [json.load] returns and what the dictionaries of
    the pipeline hold. *)
Inductive pyval :=
| PNone
| PBool (b : bool)
| PInt (z : Z)
| PFloat (q : Q)
| PStr (s : string)
| PList (l : list pyval)
| PDict (m : gmap string pyval).

(** Truth value of an object, as tested by [if x] and [not x]. *)
Definition truthy (v : pyval) : bool :=
  match v with
  | PNone => false
  | PBool b => b
  | PInt z => negb (z =? 0)
  | PFloat q => negb (Qeq_bool q 0)
  | PStr s => negb (String.eqb s "")
  | PList l => match l with [] => false | _ => true end
  | PDict m => negb (bool_decide (m = ∅))
  end.

Definition as_str (v : pyval) : option string :=
  match v with PStr s => Some s | _ => None end.

Definition as_dict (v : pyval) : option (gmap string pyval) :=
  match v with PDict m => Some m | _ => None end.

(** A value usable as an operand of [*] and [+] with a number. *)
Definition as_num (v : pyval) : option Q :=
  match v with
  | PInt z => Some (inject_Z z)
  | PFloat q => Some q
  | PBool b => Some (if b then 1%Q else 0%Q)
  | _ => None
  end.

(** [a / b] on integers: true division, [ZeroDivisionError] when [b = 0]. *)
Definition pydiv (a b : Z) : option Q :=
  if b =? 0 then None else Some (inject_Z a / inject_Z b)%Q.

(** [round(x)]: nearest integer, ties to the even one. *)
Definition pyround (q : Q) : Z :=
  let f := Qfloor q in
  match (q - inject_Z f ?= 1 # 2)%Q with
  | Lt => f
  | Gt => f + 1
  | Eq => if Z.even f then f else f + 1
  end.

(** [round(x, n)] for [n >= 0]. *)
Definition pyround_nd (q : Q) (n : nat) : Q :=
  (inject_Z (pyround (q * inject_Z (10 ^ Z.of_nat n))) / inject_Z (10 ^ Z.of_nat n))%Q.

(** [w in s] on strings. *)
Fixpoint contains (w s : string) : bool :=
  String.prefix w s ||
  match s with
  | EmptyString => false
  | String _ s' => contains w s'
  end.

(** [s[:n]]. *)
Definition str_take (n : nat) (s : string) : string := substring 0 n s.

(** [l[-n:]] for [n > 0]. *)
Definition last_n {A} (n : nat) (l : list A) : list A :=
  drop (length l - n) l.

(** [l[:n]]. *)
Definition first_n {A} (n : nat) (l : list A) : list A := take n l.

(** [sorted(l, key=key, reverse=True)]: stable, largest key first. *)
Fixpoint insert_desc {A} (key : A → Q) (x : A) (l : list A) : list A :=
  match l with
  | [] => [x]
  | y :: l' =>
      if Qle_bool (key y) (key x) then x :: y :: l'
      else y :: insert_desc key x l'
  end.

Fixpoint sorted_desc {A} (key : A → Q) (l : list A) : list A :=
  match l with
  | [] => []
  | x :: l' => insert_desc key x (sorted_desc key l')
  end.

(** The ASCII part of [str.lower]. *)
Definition ascii_lower_char (c : ascii) : ascii :=
  let n := nat_of_ascii c in
  if ((65 <=? n)%nat && (n <=? 90)%nat)%bool then ascii_of_nat (n + 32) else c.

Fixpoint ascii_lower (s : string) : string :=
  match s with
  | EmptyString => EmptyString
  | String c s' => String (ascii_lower_char c) (ascii_lower s')
  end.

(** [f"{z:,}"]: decimal digits in groups of three. *)
Definition pad3 (n : N) : string :=
  if (n <? 10)%N then "00" +:+ pretty n
  else if (n <? 100)%N then "0" +:+ pretty n
  else pretty n.

Fixpoint group3 (fuel : nat) (n : N) : string :=
  match fuel with
  | O => pretty n
  | S fuel' =>
      if (n <? 1000)%N then pretty n
      else group3 fuel' (n / 1000)%N +:+ "," +:+ pad3 (n mod 1000)%N
  end.

Definition format_comma (z : Z) : string :=
  let body := group3 (N.size_nat (Z.abs_N z)) (Z.abs_N z) in
  if z <? 0 then "-" +:+ body else body.

(** [f"{q:.2f}"]. *)
Definition pad2 (n : N) : string :=
  if (n <? 10)%N then "0" +:+ pretty n else pretty n.

Definition format_2f (q : Q) : string :=
  let h := Z.abs_N (pyround (q * 100)) in
  let body := pretty (h / 100)%N +:+ "." +:+ pad2 (h mod 100)%N in
  if Qle_bool 0 q then body else "-" +:+ body.

(** [x < y] on floats. *)
Definition Qltb (x y : Q) : bool := negb (Qle_bool y x).

(** State of a JSON file on disk, as seen by [exists()] followed by
    [json.load]: missing, present but not decodable, or decoded to [a]. *)
Inductive file_state (A : Type) :=
| Absent
| Unparseable
| Parsed (a : A).
Arguments Absent {A}.
Arguments Unparseable {A}.
Arguments Parsed {A} a.

End Py.

Import Py.

(** ** collect.py *)

Module Collect.

Definition POSITIVE_WORDS : gset string := list_to_set [
  "great"; "amazing"; "excellent"; "love"; "brilliant"; "innovative"; "solve";
  "solving"; "solution"; "hero"; "impressive"; "breakthrough"; "future";
  "real deal"; "incredible"; "fantastic"; "support"; "proud"; "exciting";
  "hope"; "helpful"; "progress"; "success"; "positive"; "good"; "awesome";
  "transformative"; "revolutionary"; "game changer"; "life saving"
]%string.

Definition NEGATIVE_WORDS : gset string := list_to_set [
  "scam"; "fraud"; "dangerous"; "flood"; "drought"; "blame"; "held accountable";
  "conspiracy"; "hoax"; "unproven"; "destroy"; "damage"; "harm"; "risk";
  "lawsuit"; "corrupt"; "chemtrail"; "poison"; "terrible"; "awful"; "worst";
  "reckless"; "irresponsible"; "fake"; "lie"; "lies"; "grift"; "grifter";
  "catastrophe"; "disaster"; "toxic"; "threat"; "threatening"
]%string.

(** A tweet as returned by the search endpoint; [None] is a missing key. *)
Record tweet := {
  tw_id : string;
  tw_text : option string;
  tw_public_metrics : option (gmap string Z);
  tw_author_id : option string;
  tw_created_at : option string
}.

(** An entry of [users_map]; [followers_count] sits under
    ["public_metrics"] in the source and defaults to 0 at either level. *)
Record user := {
  u_username : option string;
  u_followers_count : option Z
}.

(** The dictionary built by [score_tweets] for each tweet. *)
Record scored_tweet := {
  t_id : string;
  t_text : string;
  t_username : string;
  t_author_id : string;
  t_created_at : string;
  t_sentiment : string;
  t_confidence : Q;
  t_reach : Z;
  t_metrics : gmap string Z;
  t_follower_count : Z
}.

(** The persisted [data.json], as far as [build_dashboard_json] reads it;
    [None] is a missing key. Entries of the two lists are dictionaries. *)
Record document := {
  doc_scores : option (list (gmap string pyval));
  doc_topMentions : option (list (gmap string pyval));
  doc_riskAlerts : option (list (gmap string pyval));
  doc_accountProfiles : option pyval;
  doc_aggregate : option pyval
}.

Record meta := {
  lastUpdated : string;
  targets : list string;
  keywords : list string
}.

(** The dictionary returned by [build_dashboard_json]. *)
Record dashboard := {
  d_meta : meta;
  d_scores : list (gmap string pyval);
  d_riskAlerts : list (gmap string pyval);
  d_accountProfiles : pyval;
  d_aggregate : pyval;
  d_topMentions : list (gmap string pyval)
}.

(** [sum(1 for t in l if t["sentiment"] == label)] *)
Definition count_label (label : string) (l : list scored_tweet) : Z :=
  Z.of_nat (length (filter (λ t, t_sentiment t = label) l)).

(** [sum(t["reach"] for t in l)] *)
Definition sum_reach (l : list scored_tweet) : Z :=
  foldr (λ t acc, t_reach t + acc) 0 l.

Definition compute_brand_score (scored_tweets : list scored_tweet) : option Z :=
  match scored_tweets with
  | [] => Some 50
  | _ =>
      let total := Z.of_nat (length scored_tweets) in
      let pos := count_label "positive" scored_tweets in
      let neg := count_label "negative" scored_tweets in
      let total_reach :=
        let s := sum_reach scored_tweets in if s =? 0 then 1 else s in
      let pos_reach :=
        sum_reach (filter (λ t, t_sentiment t = "positive"%string) scored_tweets) in
      let neg_reach :=
        sum_reach (filter (λ t, t_sentiment t = "negative"%string) scored_tweets) in
      c ← pydiv (pos - neg) total;
      r ← pydiv (pos_reach - neg_reach) total_reach;
      let count_score := (c * 50 + 50)%Q in
      let reach_score := (r * 50 + 50)%Q in
      let score := (count_score * 0.4 + reach_score * 0.6)%Q in
      Some (Z.max 0 (Z.min 100 (pyround score)))
  end.

Definition conspiracy_keywords : list string :=
  ["chemtrail"; "weather control"; "government"; "conspiracy"; "hoax";
   "geo-engineer"; "haarp"]%string.

(** [round(n / total * 100) if total else 0] *)
Definition percent (n total : Z) : option Z :=
  if total =? 0 then Some 0
  else q ← pydiv n total; Some (pyround (q * 100)).

(** The entry appended to the score series. *)
Definition score_entry (today : string) (brand_score pos neg neu total : Z)
  : option (gmap string pyval) :=
  positive ← percent pos total;
  negative ← percent neg total;
  neutral ← percent neu total;
  Some (<["date" := PStr today]> (<["score" := PInt brand_score]>
       (<["positive" := PInt positive]> (<["negative" := PInt negative]>
       (<["neutral" := PInt neutral]> (<["totalTweets" := PInt total]> ∅)))))).

(** [s.get("date") == today] *)
Definition has_date (today : string) (s : gmap string pyval) : bool :=
  match s !! "date" with
  | Some (PStr d) => String.eqb d today
  | _ => false
  end.

(** [r.get("post") == post] *)
Definition has_post (post : string) (r : gmap string pyval) : bool :=
  match r !! "post" with
  | Some (PStr p) => String.eqb p post
  | _ => false
  end.

(** [existing = {"scores": [], "topMentions": []}] *)
Definition empty_document : document := {|
  doc_scores := Some [];
  doc_topMentions := Some [];
  doc_riskAlerts := None;
  doc_accountProfiles := None;
  doc_aggregate := None
|}.

(** Lines 203-208: the default survives a missing file and, through the
    bare [except], a file that cannot be read or decoded. *)
Definition load_existing (data_file : file_state document) : document :=
  match data_file with
  | Parsed existing => existing
  | Absent | Unparseable => empty_document
  end.

(** [replies / likes if likes > 0 else 0] *)
Definition reply_like_ratio (t : scored_tweet) : option Q :=
  let replies := default 0 (t_metrics t !! "reply_count") in
  let likes := default 0 (t_metrics t !! "like_count") in
  if 0 <? likes then pydiv replies likes else Some 0%Q.

(** The deduplication key [alert["post"]]. *)
Definition alert_post (t : scored_tweet) : string :=
  t_username t +:+ " — " +:+ str_take 10 (t_created_at t).

(** [t["created_at"][:10] if t["created_at"] else today] *)
Definition date_or_today (today : string) (t : scored_tweet) : string :=
  if String.eqb (t_created_at t) "" then today else str_take 10 (t_created_at t).

Definition make_alert (today : string) (t : scored_tweet) (ratio : Q)
    (has_conspiracy : bool) : gmap string pyval :=
  let likes := default 0 (t_metrics t !! "like_count") in
  <["severity" := PStr (if Qltb 0.25 ratio || has_conspiracy then "HIGH" else "MEDIUM")]>
  (<["type" := PStr "auto_detected"]>
  (<["post" := PStr (alert_post t)]>
  (<["text" := PStr (str_take 200 (t_text t))]>
  (<["metrics" := PDict (PInt <$> t_metrics t)]>
  (<["replyLikeRatio" := if 0 <? likes then PFloat (pyround_nd ratio 3) else PInt 0]>
  (<["reason" := PStr ("Reply:like ratio " +:+ format_2f ratio +:+ ". Reach "
                       +:+ format_comma (t_reach t) +:+ "."
                       +:+ (if has_conspiracy then " Conspiracy keywords detected." else ""))]>
  (<["date" := PStr (date_or_today today t)]> ∅))))))).

(** [risk_alerts.append(alert)] unless an entry already has its post key. *)
Definition append_alert (risk_alerts : list (gmap string pyval)) (post : string)
    (alert : gmap string pyval) : list (gmap string pyval) :=
  if existsb (has_post post) risk_alerts then risk_alerts
  else risk_alerts ++ [alert].

Definition top_mention (today : string) (t : scored_tweet) : gmap string pyval :=
  <["user" := PStr (t_username t)]>
  (<["text" := PStr (str_take 280 (t_text t))]>
  (<["sentiment" := PStr (t_sentiment t)]>
  (<["reach" := PInt (t_reach t)]>
  (<["date" := PStr (date_or_today today t)]> ∅)))).

(** What the next run reads back after [json.dumps(dashboard)] is written. *)
Definition written (d : dashboard) : document := {|
  doc_scores := Some (d_scores d);
  doc_topMentions := Some (d_topMentions d);
  doc_riskAlerts := Some (d_riskAlerts d);
  doc_accountProfiles := Some (d_accountProfiles d);
  doc_aggregate := Some (d_aggregate d)
|}.

Section WithLower.

Variable lower : string → string.

Definition score_sentiment (text : string) : string * Q :=
  let text_lower := lower text in
  let pos_count :=
    Z.of_nat (size (filter (λ w, contains w text_lower = true) POSITIVE_WORDS)) in
  let neg_count :=
    Z.of_nat (size (filter (λ w, contains w text_lower = true) NEGATIVE_WORDS)) in
  if neg_count <? pos_count then
    ("positive"%string, Qmin (0.5 + inject_Z pos_count * 0.15) 0.95)
  else if pos_count <? neg_count then
    ("negative"%string, Qmin (0.5 + inject_Z neg_count * 0.15) 0.95)
  else ("neutral"%string, 0.5%Q).

Definition score_tweet (users_map : gmap string user) (t : tweet) : scored_tweet :=
  let text := default ""%string (tw_text t) in
  let '(label, confidence) := score_sentiment text in
  let metrics := default ∅ (tw_public_metrics t) in
  let author_id := default ""%string (tw_author_id t) in
  let user := users_map !! author_id in
  let username := default "unknown"%string (user ≫= u_username) in
  let follower_count := default 0 (user ≫= u_followers_count) in
  let reach :=
    default 0 (metrics !! "retweet_count") * 10 +
    default 0 (metrics !! "like_count") * 2 +
    default 0 (metrics !! "reply_count") * 5 +
    default 0 (metrics !! "quote_count") * 8 +
    follower_count in
  {| t_id := tw_id t;
     t_text := text;
     t_username := "@" +:+ username;
     t_author_id := author_id;
     t_created_at := default ""%string (tw_created_at t);
     t_sentiment := label;
     t_confidence := pyround_nd confidence 2;
     t_reach := reach;
     t_metrics := metrics;
     t_follower_count := follower_count |}.

Definition score_tweets (tweets : list tweet) (users_map : gmap string user)
  : list scored_tweet :=
  map (score_tweet users_map) tweets.

(** The alert raised for one tweet, if any (lines 225-243). *)
Definition detect_alert (today : string) (t : scored_tweet)
  : option (option (gmap string pyval)) :=
  ratio ← reply_like_ratio t;
  let text_lower := lower (t_text t) in
  let has_conspiracy := existsb (λ kw, contains kw text_lower) conspiracy_keywords in
  if Qltb 0.15 ratio
     || (bool_decide (t_sentiment t = "negative"%string) && (50000 <? t_reach t))
     || has_conspiracy
  then Some (Some (make_alert today t ratio has_conspiracy))
  else Some None.

(** The loop over [scored_tweets] of lines 224-246. *)
Fixpoint scan_alerts (today : string) (scored_tweets : list scored_tweet)
    (risk_alerts : list (gmap string pyval)) : option (list (gmap string pyval)) :=
  match scored_tweets with
  | [] => Some risk_alerts
  | t :: rest =>
      a ← detect_alert today t;
      scan_alerts today rest
        (match a with
         | Some alert => append_alert risk_alerts (alert_post t) alert
         | None => risk_alerts
         end)
  end.

(** [now] and [today] are the two readings of the clock; [data_file] is
    the state of [DATA_FILE]. *)
Definition build_dashboard_json (scored_tweets : list scored_tweet)
    (brand_score : Z) (now today : string) (data_file : file_state document)
  : option dashboard :=
  let total := Z.of_nat (length scored_tweets) in
  let pos := count_label "positive" scored_tweets in
  let neg := count_label "negative" scored_tweets in
  let neu := total - pos - neg in
  let top_mentions :=
    first_n 20 (sorted_desc (λ t, inject_Z (t_reach t)) scored_tweets) in
  let existing := load_existing data_file in
  entry ← score_entry today brand_score pos neg neu total;
  let scores :=
    filter (λ s, has_date today s = false) (default [] (doc_scores existing))
    ++ [entry] in
  risk_alerts ← scan_alerts today scored_tweets (default [] (doc_riskAlerts existing));
  Some {|
    d_meta := {| lastUpdated := now;
                 targets := ["@rainmakercorp"; "@ADoricko"]%string;
                 keywords := ["rain maker"; "rainmaker corp"; "cloud seeding";
                              "weather modification"]%string |};
    d_scores := last_n 90 scores;
    d_riskAlerts := last_n 50 risk_alerts;
    d_accountProfiles := default (PDict ∅) (doc_accountProfiles existing);
    d_aggregate := default (PDict ∅) (doc_aggregate existing);
    d_topMentions := map (top_mention today) top_mentions
  |}.

(** [main] past the collection step, on the state of [DATA_FILE]: nothing
    is written when no tweet was collected. *)
Definition main (tweets : list tweet) (users_map : gmap string user)
    (now today : string) (data_file : file_state document)
  : option (file_state document) :=
  match tweets with
  | [] => Some data_file
  | _ =>
      let scored := score_tweets tweets users_map in
      brand_score ← compute_brand_score scored;
      dashboard ← build_dashboard_json scored brand_score now today data_file;
      Some (Parsed (written dashboard))
  end.

End WithLower.

End Collect.

(** ** scorer.py *)

Module Scorer.

Definition RISK_KEYWORDS : gmap string (list string) :=
  <["negative" := ["scam"; "fraud"; "lawsuit"; "complaint"; "ripped off"; "terrible";
                   "sued"; "criminal"; "ponzi"; "ripoff"; "avoid"; "worst"; "fake"]%string]>
  (<["positive" := ["love"; "recommend"; "amazing"; "best"; "great"; "excellent";
                    "incredible"; "fantastic"; "impressed"; "helpful"; "brilliant"]%string]> ∅).

(** In insertion order, which is the order [.items()] yields. *)
Definition ENGAGEMENT_WEIGHTS : list (string * Q) :=
  [("likes", 1); ("retweets", 3); ("reposts", 3); ("replies", 5); ("views", 0.001)]%Q%string.

(** The values a [for x in v] loop visits. *)
Definition iter_values (v : pyval) : option (list pyval) :=
  match v with
  | PList l => Some l
  | PStr s => Some ((λ c, PStr (String c EmptyString)) <$> list_ascii_of_string s)
  | PDict m => Some ((λ kv, PStr kv.1) <$> map_to_list m)
  | _ => None
  end.

(** The strings a loop over [v] visits; risk signals, risk keywords and
    topics are strings in every document of the pipeline, and an element of
    another type is treated as a failure. *)
Definition iter_strs (v : pyval) : option (list string) :=
  l ← iter_values v; mapM as_str l.

(** [p.get("engagement_score", 0)] as a sort key. *)
Definition engagement_key (p : gmap string pyval) : Q :=
  match p !! "engagement_score" with
  | Some v => default 0%Q (as_num v)
  | None => 0%Q
  end.

Definition score_engagement (metrics : gmap string pyval) : option Q :=
  total ← foldl (λ acc kw,
                   total ← acc;
                   v ← as_num (default (PInt 0) (metrics !! kw.1));
                   Some (total + v * kw.2)%Q)
                (Some 0%Q) ENGAGEMENT_WEIGHTS;
  Some (pyround_nd total 2).

Definition score_reach (author_followers : Z) : Q :=
  if 100000 <=? author_followers then 3%Q
  else if 10000 <=? author_followers then 2%Q
  else if 1000 <=? author_followers then 1.5%Q
  else 1%Q.

Section WithLower.

Variable lower : string → string.

(** [score_sentiment] with the two keyword lists it reads from
    [RISK_KEYWORDS] made explicit. *)
Definition score_sentiment_with (positive negative : list string) (text : string)
  : option (string * Q) :=
  let text_lower := lower text in
  let pos := Z.of_nat (length (filter (λ kw, contains kw text_lower = true) positive)) in
  let neg := Z.of_nat (length (filter (λ kw, contains kw text_lower = true) negative)) in
  let total := pos + neg in
  if total =? 0 then Some ("neutral"%string, 0%Q)
  else
    score ← pydiv (pos - neg) total;
    if Qltb 0.2 score then Some ("positive"%string, score)
    else if Qltb score (-0.2) then Some ("negative"%string, score)
    else Some ("mixed"%string, score).

Definition score_sentiment (text : string) : option (string * Q) :=
  score_sentiment_with (RISK_KEYWORDS !!! "positive") (RISK_KEYWORDS !!! "negative") text.

Definition detect_risk (text : string) : list string :=
  let text_lower := lower text in
  filter (λ kw, contains kw text_lower = true) (RISK_KEYWORDS !!! "negative").

Definition score_existing_post (post : gmap string pyval)
  : option (gmap string pyval) :=
  text ← as_str (default (PStr "") (post !! "content"));
  metrics ← as_dict (default (PDict ∅) (post !! "metrics"));
  '(sentiment_label, sentiment_score) ← score_sentiment text;
  let risks := detect_risk text in
  engagement ← score_engagement metrics;
  Some (<["risk_flag" := default (PBool (bool_decide (0 < length risks)%nat))
                                 (post !! "risk_flag")]>
       (<["risk_keywords" := PList (PStr <$> risks)]>
       (<["engagement_score" := PFloat engagement]>
       (<["sentiment" := if negb (truthy (default PNone (post !! "sentiment")))
                         then PStr sentiment_label
                         else default PNone (post !! "sentiment")]> post)))).

(** The risk signals gathered from the flagged posts (lines 130-133). *)
Fixpoint gather_risks (scored_posts : list (gmap string pyval))
    (all_risks : gset string) : option (gset string) :=
  match scored_posts with
  | [] => Some all_risks
  | p :: rest =>
      if truthy (default PNone (p !! "risk_flag")) then
        kws ← iter_strs (default (PList []) (p !! "risk_keywords"));
        topics ← iter_strs (default (PList []) (p !! "topics"));
        gather_risks rest (all_risks ∪ list_to_set kws ∪ list_to_set topics)
      else gather_risks rest all_risks
  end.

(** [pull_file] is the state of [pull_path]: [open] fails on a missing
    file and [json.load] on one that does not decode, and neither
    exception is caught. The order of [list(all_risks)] is that of
    [elements]. *)
Definition process_existing (pull_file : file_state pyval)
  : option (gmap string pyval) :=
  loaded ← match pull_file with
           | Parsed v => Some v
           | Absent | Unparseable => None
           end;
  data ← as_dict loaded;
  posts ← iter_values (default (PList []) (data !! "recentPosts"));
  scored_posts ← mapM (λ p, post ← as_dict p; score_existing_post post) posts;
  let scored_posts := sorted_desc engagement_key scored_posts in
  let data := <["recentPosts" := PList (PDict <$> scored_posts)]> data in
  signals ← iter_strs (default (PList []) (data !! "riskSignals"));
  all_risks ← gather_risks scored_posts (list_to_set signals);
  Some (<["riskSignals" := PList (PStr <$> elements all_risks)]> data).

(** The first block of [main]: score the existing pull if the file is
    there, else start from the empty shape. *)
Definition main_load (pull_file : file_state pyval) : option (gmap string pyval) :=
  match pull_file with
  | Absent => Some (<["recentPosts" := PList []]> (<["accounts" := PDict ∅]> ∅))
  | _ => process_existing pull_file
  end.

End WithLower.

End Scorer.

(** ** collect.py: token and collection *)

Module Collector.

Import Collect.

(** What [twitter_search] returns on success, as far as [collect_all]
    reads it: the users under ["includes"]["users"], each with its ["id"],
    and the tweets under ["data"]; [None] is a missing key. *)
Record search_result := {
  sr_users : option (list (string * user));
  sr_data : option (list tweet)
}.

Definition dq : string := String "034"%char EmptyString.

Definition queries : list string :=
  ["@rainmakercorp -is:retweet";
   "@ADoricko -is:retweet";
   dq +:+ "rain maker" +:+ dq +:+ " OR " +:+ dq +:+ "rainmaker corp" +:+ dq
      +:+ " OR " +:+ dq +:+ "cloud seeding" +:+ dq +:+ " -is:retweet"]%string.

(** One turn of the loop over the queries (lines 73-90); a tweet is kept
    with the query put under its ["_query"] key. [search] is
    [twitter_search], [None] being its failure value. *)
Definition collect_step (search : string → option search_result)
    (acc : list (string * tweet) * gmap string user) (query : string)
  : list (string * tweet) * gmap string user :=
  match search query with
  | None => acc
  | Some result =>
      let users_map :=
        foldl (λ m u, <[u.1 := u.2]> m) acc.2 (default [] (sr_users result)) in
      let all_tweets :=
        acc.1 ++ ((λ t, (query, t)) <$> default [] (sr_data result)) in
      (all_tweets, users_map)
  end.

(** The loop of lines 93-98. *)
Fixpoint dedupe (seen : gset string) (all_tweets : list (string * tweet))
  : list (string * tweet) :=
  match all_tweets with
  | [] => []
  | t :: rest =>
      if decide (tw_id t.2 ∈ seen) then dedupe seen rest
      else t :: dedupe ({[tw_id t.2]} ∪ seen) rest
  end.

Definition collect_all (search : string → option search_result)
  : list (string * tweet) * gmap string user :=
  let acc := foldl (collect_step search) ([], ∅) queries in
  (dedupe ∅ acc.1, acc.2).

(** [line.split("=", 1)[1]] for a line that contains ["="]; the empty
    string stands in for the [IndexError] of a line without one. *)
Fixpoint after_equals (line : string) : string :=
  match line with
  | EmptyString => EmptyString
  | String c rest => if Ascii.eqb c "=" then rest else after_equals rest
  end.

(** The ASCII part of [str.strip]. *)
Definition is_space (c : ascii) : bool :=
  let n := nat_of_ascii c in
  ((9 <=? n)%nat && (n <=? 13)%nat) || ((28 <=? n)%nat && (n <=? 32)%nat).

Fixpoint lstrip (s : string) : string :=
  match s with
  | EmptyString => EmptyString
  | String c rest => if is_space c then lstrip rest else s
  end.

Definition ascii_strip (s : string) : string :=
  String.rev (lstrip (String.rev (lstrip s))).

Section WithStrip.

Variable strip : string → string.

(** [env_file] is the list of lines of [.env] when the file exists and
    [environ] the value of the environment variable when it is set; the
    result [None] is Python's [None]. *)
Definition load_token (env_file : option (list string)) (environ : option string)
  : option string :=
  match env_file ≫= List.find (String.prefix "TWITTER_BEARER_TOKEN=") with
  | Some line => Some (strip (after_equals line))
  | None => environ
  end.

(** Lines 29-32: the module goes on only with a truthy token. *)
Definition token_accepted (env_file : option (list string)) (environ : option string)
  : bool :=
  match load_token env_file environ with
  | Some token => negb (String.eqb token "")
  | None => false
  end.

End WithStrip.

End Collector.

(** ** scorer.py: raw mentions *)

Module Mentions.

Import Scorer.

(** [score_reach] on a dynamically typed follower count. *)
Definition score_reach_of (author_followers : pyval) : option Q :=
  followers ← as_num author_followers;
  Some (if Qle_bool 100000 followers then 3%Q
        else if Qle_bool 10000 followers then 2%Q
        else if Qle_bool 1000 followers then 1.5%Q
        else 1%Q).

(** [v[:10]]: strings and lists can be sliced. *)
Definition slice10 (v : pyval) : option pyval :=
  match v with
  | PStr s => Some (PStr (str_take 10 s))
  | PList l => Some (PList (take 10 l))
  | _ => None
  end.

Definition as_list (v : pyval) : option (list pyval) :=
  match v with PList l => Some l | _ => None end.

(** The post appended for one scored mention (lines 142-158). *)
Definition mention_post (m : gmap string pyval) : option (gmap string pyval) :=
  date ← (if truthy (default PNone (m !! "timestamp"))
          then slice10 (default (PStr "") (m !! "timestamp"))
          else Some (PStr ""));
  Some (<["account" := default (PStr "") (m !! "author")]>
       (<["date" := date]>
       (<["content" := default (PStr "") (m !! "text")]>
       (<["metrics" := PDict (<["replies" := default (PInt 0) (m !! "replies")]>
                             (<["reposts" := default (PInt 0) (m !! "retweets")]>
                             (<["likes" := default (PInt 0) (m !! "likes")]> ∅)))]>
       (<["sentiment" := default (PStr "neutral") (m !! "sentiment")]>
       (<["engagement_score" := default (PInt 0) (m !! "engagement_score")]>
       (<["risk_flag" := default (PBool false) (m !! "risk_flag")]>
       (<["risk_keywords" := default (PList []) (m !! "risk_keywords")]>
       (<["topics" := PList []]>
       (<["source" := PStr "mention"]>
       (<["url" := default (PStr "") (m !! "url")]> ∅))))))))))).

(** The loop of lines 141-159:
    [existing.setdefault("recentPosts", []).append(post)]. *)
Fixpoint append_posts (existing : gmap string pyval)
    (scored_mentions : list (gmap string pyval)) : option (gmap string pyval) :=
  match scored_mentions with
  | [] => Some existing
  | m :: rest =>
      post ← mention_post m;
      posts ← as_list (default (PList []) (existing !! "recentPosts"));
      append_posts (<["recentPosts" := PList (posts ++ [PDict post])]> existing) rest
  end.

(** [posts.sort(key=lambda p: p.get("engagement_score", 0), reverse=True)].
    Every element must be a dictionary for the key to be computed; keys
    are compared only when there are at least two of them, and then they
    are taken to be numbers (keys of another type are treated as a
    failure). *)
Definition sort_posts (posts : list pyval) : option (list pyval) :=
  dicts ← mapM as_dict posts;
  if bool_decide (length dicts ≤ 1)%nat
     || forallb (λ p, bool_decide (is_Some (as_num (default (PInt 0)
                                                     (p !! "engagement_score")))))
                dicts
  then Some (PDict <$> sorted_desc engagement_key dicts)
  else None.

Definition merge_mentions (existing : gmap string pyval)
    (scored_mentions : list (gmap string pyval)) (now : string)
  : option (gmap string pyval) :=
  existing ← append_posts existing scored_mentions;
  posts ← existing !! "recentPosts";
  posts ← as_list posts;
  sorted ← sort_posts posts;
  Some (<["pulled_at" := PStr now]> (<["recentPosts" := PList sorted]> existing)).

Section WithLower.

Variable lower : string → string.

Definition score_mention (mention : gmap string pyval)
  : option (gmap string pyval) :=
  text ← as_str (default (PStr "") (mention !! "text"));
  '(sentiment_label, sentiment_score) ← score_sentiment lower text;
  let risks := detect_risk lower text in
  engagement ← score_engagement
    (<["likes" := default (PInt 0) (mention !! "likes")]>
    (<["retweets" := default (PInt 0) (mention !! "retweets")]>
    (<["replies" := default (PInt 0) (mention !! "replies")]> ∅)));
  reach ← score_reach_of (default (PInt 0) (mention !! "author_followers"));
  let composite := pyround_nd (engagement * reach) 2 in
  Some (<["sentiment" := PStr sentiment_label]>
       (<["sentiment_score" := PFloat (pyround_nd sentiment_score 3)]>
       (<["engagement_score" := PFloat engagement]>
       (<["reach_multiplier" := PFloat reach]>
       (<["composite_score" := PFloat composite]>
       (<["risk_keywords" := PList (PStr <$> risks)]>
       (<["risk_flag" := PBool (bool_decide (0 < length risks)%nat)]> mention))))))).

(** [raw_file] is the state of [raw_path]; as in [process_existing], a
    missing or undecodable file is an uncaught exception. *)
Definition ingest_raw (raw_file : file_state pyval)
  : option (list (gmap string pyval)) :=
  loaded ← match raw_file with
           | Parsed v => Some v
           | Absent | Unparseable => None
           end;
  data ← as_dict loaded;
  mentions ← iter_values (default (PList []) (data !! "mentions"));
  mapM (λ m, mention ← as_dict m; score_mention mention) mentions.

(** [main] up to the dictionary it writes: [raw_files] is [None] when the
    raw directory is missing, else the files matching [*.json] in name
    order, each with the clock reading of its merge. *)
Definition main (pull_file : file_state pyval)
    (raw_files : option (list (file_state pyval * string)))
  : option (gmap string pyval) :=
  data ← main_load lower pull_file;
  foldl (λ acc raw,
           data ← acc;
           scored ← ingest_raw raw.1;
           merge_mentions data scored raw.2)
        (Some data) (default [] raw_files).

End WithLower.

End Mentions.

(** ** The specification's formulas

    Definitions written from the wording of the specification, to be
    compared with the functions above. *)

Module Spec.

Import Collect.

(** count_score = (pos - neg) / total * 50 + 50 *)
Definition count_score (batch : list scored_tweet) : Q :=
  (inject_Z (count_label "positive" batch - count_label "negative" batch)
   / inject_Z (Z.of_nat (length batch)) * 50 + 50)%Q.

(** reach_score = (pos_reach - neg_reach) / max(total_reach, 1) * 50 + 50 *)
Definition reach_score (batch : list scored_tweet) : Q :=
  (inject_Z (sum_reach (filter (λ t, t_sentiment t = "positive"%string) batch)
             - sum_reach (filter (λ t, t_sentiment t = "negative"%string) batch))
   / inject_Z (Z.max (sum_reach batch) 1) * 50 + 50)%Q.

(** final = round(count_score * 0.4 + reach_score * 0.6), clamped to [0, 100] *)
Definition brand_score (batch : list scored_tweet) : Z :=
  Z.max 0 (Z.min 100 (pyround (count_score batch * 0.4 + reach_score batch * 0.6)%Q)).

(** percentage = round(count / total * 100), and 0 when total = 0 *)
Definition percentage (count total : Z) : Z :=
  if total =? 0 then 0 else pyround (inject_Z count / inject_Z total * 100)%Q.

(** The calendar dates of a score series, in order. *)
Definition entry_dates (series : list (gmap string pyval)) : list string :=
  omap (λ s, match s !! "date" with Some (PStr d) => Some d | _ => None end) series.

(** The deduplication keys of a list of alerts, in order. *)
Definition alert_keys (alerts : list (gmap string pyval)) : list string :=
  omap (λ r, match r !! "post" with Some (PStr p) => Some p | _ => None end) alerts.

(** The DailyScore of a batch: date, brand index, the three percentages
    and the total mention count. *)
Definition daily_score (today : string) (brand : Z) (batch : list scored_tweet)
  : gmap string pyval :=
  let total := Z.of_nat (length batch) in
  let pos := count_label "positive" batch in
  let neg := count_label "negative" batch in
  <["date" := PStr today]> (<["score" := PInt brand]>
  (<["positive" := PInt (percentage pos total)]>
  (<["negative" := PInt (percentage neg total)]>
  (<["neutral" := PInt (percentage (total - pos - neg) total)]>
  (<["totalTweets" := PInt total]> ∅))))).

(** Score-series update: remove any entry dated today, append the new
    entry, retain the most recent 90. *)
Definition updated_series (today : string) (e : gmap string pyval)
    (series : list (gmap string pyval)) : list (gmap string pyval) :=
  last_n 90 (filter (λ s, has_date today s = false) series ++ [e]).

(** The keywords of a set that occur in a lower-cased text. *)
Definition matching (kws : gset string) (text_lower : string) : gset string :=
  filter (λ w, contains w text_lower = true) kws.

(** How many entries of a keyword list occur in a lower-cased text. *)
Definition hits (kws : list string) (text_lower : string) : Z :=
  Z.of_nat (length (filter (λ w, contains w text_lower = true) kws)).

(** polarity = (pos - neg) / (pos + neg) *)
Definition polarity (pos neg : Z) : Q :=
  (inject_Z (pos - neg) / inject_Z (pos + neg))%Q.

(** Engagement: the weighted sum of the recognised interaction counts, a
    missing count being 0, rounded to two decimals. *)
Definition weighted_sum (counts : gmap string Z) : Q :=
  (0 + inject_Z (default 0%Z (counts !! "likes")) * 1
     + inject_Z (default 0%Z (counts !! "retweets")) * 3
     + inject_Z (default 0%Z (counts !! "reposts")) * 3
     + inject_Z (default 0%Z (counts !! "replies")) * 5
     + inject_Z (default 0%Z (counts !! "views")) * 0.001)%Q.

Definition engagement (counts : gmap string Z) : Q :=
  pyround_nd (weighted_sum counts) 2.

End Spec.

(** ** Sample inputs *)

Module Samples.

Import Collect.

(** A scored tweet with the given label and reach. *)
Definition labelled (label : string) (reach : Z) : scored_tweet :=
  {| t_id := ""; t_text := ""; t_username := "@a"; t_author_id := "";
     t_created_at := ""; t_sentiment := label; t_confidence := 0.5;
     t_reach := reach; t_metrics := ∅; t_follower_count := 0 |}.

(** The batch of the specification's example: reaches 100, 50 and 10. *)
Definition batch3 : list scored_tweet :=
  [labelled "positive" 100; labelled "negative" 50; labelled "neutral" 10].

(** A persisted score entry for [date]. *)
Definition day_entry (date : string) (score : Z) : gmap string pyval :=
  <["date" := PStr date]> (<["score" := PInt score]>
  (<["positive" := PInt 50]> (<["negative" := PInt 25]>
  (<["neutral" := PInt 25]> (<["totalTweets" := PInt 4]> ∅))))).

(** A persisted alert with the given post key. *)
Definition old_alert (post : string) : gmap string pyval :=
  <["severity" := PStr "MEDIUM"]> (<["post" := PStr post]> ∅).

(** A persisted dashboard with two days of scores, one alert and an
    opaque account-profile blob. *)
Definition doc2 : document := {|
  doc_scores := Some [day_entry "2026-01-01" 40; day_entry "2026-01-02" 45];
  doc_topMentions := Some [];
  doc_riskAlerts := Some [old_alert "@a — 2026-01-01"];
  doc_accountProfiles := Some (PDict (<["rainmakercorp" := PInt 7]> ∅));
  doc_aggregate := None
|}.

(** A scored tweet of author [username] created at [created_at], with
    the given label, reach, likes and replies. *)
Definition tweet_of (username created_at label : string) (reach likes replies : Z)
  : scored_tweet :=
  {| t_id := ""; t_text := "cloud seeding again"; t_username := username;
     t_author_id := ""; t_created_at := created_at; t_sentiment := label;
     t_confidence := 0.5; t_reach := reach;
     t_metrics := <["like_count" := likes]> (<["reply_count" := replies]> ∅);
     t_follower_count := 0 |}.

(** Three tweets that each raise an alert: the first repeats the key of
    the persisted alert, the other two share a new key. *)
Definition batch_alerts : list scored_tweet :=
  [tweet_of "@a" "2026-01-01T08:00:00Z" "neutral" 10 10 5;
   tweet_of "@b" "2026-01-02T09:00:00Z" "negative" 60000 10 0;
   tweet_of "@b" "2026-01-02T17:30:00Z" "neutral" 10 4 2].

Definition text_positive : string := "This is AMAZING and a total breakthrough".
Definition text_negative : string := "total scam, lawsuit incoming".
Definition text_plain : string := "weather today is mild".

Definition text_mixed : string := "I love the idea, but the rollout was terrible".
Definition text_praise : string := "Great team, would recommend".
Definition text_complaint : string := "Total SCAM, avoid".

(** Interaction counts with one key the scorer does not know. *)
Definition counts4 : gmap string Z :=
  <["likes" := 10]> (<["replies" := 2]> (<["views" := 1500]> (<["bookmarks" := 4]> ∅))).

(** A post of the initial pull that already carries a sentiment and a
    risk flag. *)
Definition post_flagged : gmap string pyval :=
  <["content" := PStr "This is a SCAM, avoid"]>
  (<["metrics" := PDict (<["likes" := PInt 3]> (<["replies" := PInt 1]> ∅))]>
  (<["sentiment" := PStr "positive"]>
  (<["risk_flag" := PBool false]>
  (<["engagement_score" := PFloat 99]> ∅)))).

(** A post of the initial pull with neither sentiment nor risk flag. *)
Definition post_plain : gmap string pyval :=
  <["content" := PStr "Great team, would recommend"]>
  (<["metrics" := PDict (<["likes" := PInt 2]> ∅)]> ∅).

End Samples.

(** ** More sample inputs *)

Module MoreSamples.

Import Collect.

(** A tweet of author ["u1"] with 4 retweets, 10 likes and 3 replies. *)
Definition raw_tweet : tweet :=
  {| tw_id := "1001"; tw_text := Some "Cloud seeding is a SCAM"%string;
     tw_public_metrics :=
       Some (<["retweet_count" := 4]> (<["like_count" := 10]>
            (<["reply_count" := 3]> ∅)));
     tw_author_id := Some "u1"%string;
     tw_created_at := Some "2026-01-02T09:00:00Z"%string |}.

(** A tweet with nothing but an id. *)
Definition bare_tweet : tweet :=
  {| tw_id := "1002"; tw_text := None; tw_public_metrics := None;
     tw_author_id := None; tw_created_at := None |}.

Definition users1 : gmap string user :=
  <["u1" := {| u_username := Some "bob"%string; u_followers_count := Some 250 |}]> ∅.

(** Two positive tweets and one neutral one. *)
Definition batch_up : list scored_tweet :=
  [Samples.labelled "positive" 40; Samples.labelled "neutral" 5;
   Samples.labelled "positive" 0].

(** Two negative tweets and one positive one of small reach. *)
Definition batch_down : list scored_tweet :=
  [Samples.labelled "negative" 40; Samples.labelled "positive" 5;
   Samples.labelled "negative" 10].

Definition batch_fans : list scored_tweet :=
  [Samples.labelled "positive" 10; Samples.labelled "positive" 0].

Definition batch_critics : list scored_tweet :=
  [Samples.labelled "negative" 0; Samples.labelled "negative" 0].

Definition batch_bystanders : list scored_tweet :=
  [Samples.labelled "neutral" 7; Samples.labelled "mixed" 3].

(** A search that answers the first query with two tweets, fails on the
    second and answers the third with one tweet already seen and a new
    one. *)
Definition search1 (query : string) : option Collector.search_result :=
  if String.eqb query "@rainmakercorp -is:retweet" then
    Some {| Collector.sr_users :=
              Some [("u1"%string,
                     {| u_username := Some "bob"%string;
                        u_followers_count := Some 250 |})];
            Collector.sr_data := Some [raw_tweet; bare_tweet] |}
  else if String.eqb query "@ADoricko -is:retweet" then None
  else
    Some {| Collector.sr_users := None;
            Collector.sr_data :=
              Some [raw_tweet;
                    {| tw_id := "1003"; tw_text := Some "hope"%string;
                       tw_public_metrics := None; tw_author_id := Some "u2"%string;
                       tw_created_at := None |}] |}.

(** A search for which every query fails. *)
Definition search_down (query : string) : option Collector.search_result := None.

(** Lines of a [.env] file before and after the token line. *)
Definition env_head : list string := ["# keys"; "OTHER=1"]%string.
Definition env_tail : list string := ["X=2"]%string.

(** A raw mention that arrives with a sentiment and a view count. *)
Definition mention_risky : gmap string pyval :=
  <["text" := PStr "Total SCAM, this is fraud"]>
  (<["author" := PStr "alice"]>
  (<["timestamp" := PStr "2026-02-03T10:00:00Z"]>
  (<["likes" := PInt 10]> (<["retweets" := PInt 2]> (<["replies" := PInt 1]>
  (<["views" := PInt 99999]>
  (<["author_followers" := PInt 25000]>
  (<["sentiment" := PStr "positive"]> ∅)))))))).

(** A raw mention with a text only. *)
Definition mention_quiet : gmap string pyval :=
  <["text" := PStr "Great work, impressive"]> ∅.

(** A decoded raw file with the two mentions, and one without the
    mentions key. *)
Definition raw_two : file_state pyval :=
  Parsed (PDict (<["mentions" := PList [PDict mention_risky; PDict mention_quiet]]> ∅)).

Definition raw_none : file_state pyval := Parsed (PDict ∅).

(** A decoded [initial-pull.json] with two posts and one risk signal. *)
Definition pull_two : gmap string pyval :=
  <["recentPosts" := PList [PDict Samples.post_plain; PDict Samples.post_flagged]]>
  (<["riskSignals" := PList [PStr "lawsuit"]]>
  (<["accounts" := PDict ∅]> ∅)).

(** A document without the posts key. *)
Definition no_posts : gmap string pyval := <["accounts" := PDict ∅]> ∅.

End MoreSamples.

(** ** Readings of a scored tweet *)

Module Readings.

Import Collect.

(** [metrics.get("like_count", 0)] and [metrics.get("reply_count", 0)] *)
Definition likes_of (t : scored_tweet) : Z := default 0 (t_metrics t !! "like_count").
Definition replies_of (t : scored_tweet) : Z := default 0 (t_metrics t !! "reply_count").

(** Some conspiracy keyword occurs in the lower-cased text. *)
Definition mentions_conspiracy (lower : string → string) (t : scored_tweet) : Prop :=
  ∃ kw, kw ∈ conspiracy_keywords ∧ contains kw (lower (t_text t)) = true.

(** [data.get("recentPosts", [])] when it is a list. *)
Definition posts_of (data : gmap string pyval) : list pyval :=
  default [] (data !! "recentPosts" ≫= Mentions.as_list).

(** The mentions a decoded raw file holds. *)
Definition mentions_of (raw_file : file_state pyval) : list pyval :=
  match raw_file with
  | Parsed (PDict data) =>
      default [] (Scorer.iter_values (default (PList []) (data !! "mentions")))
  | _ => []
  end.

End Readings.

(** * Properties *)

(** ** Rounding and division *)

Section Rounding.

#[local] Open Scope Q_scope.



Lemma pyround_floor_cases (q : Q) :
  pyround q = Qfloor q ∨ pyround q = (Qfloor q + 1)%Z.
Proof.
  unfold pyround.
  destruct (q - inject_Z (Qfloor q) ?= 1 # 2); [destruct (Z.even _) | |]; auto.
Qed.

Lemma pyround_comp (q q' : Q) : q == q' → pyround q = pyround q'.
Proof.
  intros E. unfold pyround.
  rewrite (Qfloor_comp _ _ E).
  assert (q - inject_Z (Qfloor q') == q' - inject_Z (Qfloor q')) as E' by (rewrite E; reflexivity).
  rewrite (Qcompare_comp _ _ E' (1 # 2) (1 # 2) (Qeq_refl _)).
  reflexivity.
Qed.

(** [round] is monotone. *)
Lemma pyround_mono (q q' : Q) : q <= q' → (pyround q <= pyround q')%Z.
Proof.
  intros Hle.
  pose proof (Qfloor_resp_le _ _ Hle) as Hf.
  destruct (Z.eq_dec (Qfloor q) (Qfloor q')) as [E | N].
  - unfold pyround. rewrite <- E.
    destruct (Qcompare_spec (q - inject_Z (Qfloor q)) (1 # 2)) as [He | Hl | Hg];
      destruct (Qcompare_spec (q' - inject_Z (Qfloor q)) (1 # 2)) as [He' | Hl' | Hg'];
      try destruct (Z.even (Qfloor q)); try lia; exfalso; lra.
  - destruct (pyround_floor_cases q) as [-> | ->];
      destruct (pyround_floor_cases q') as [-> | ->]; lia.
Qed.

Lemma pyround_inject_Z (n : Z) : pyround (inject_Z n) = n.
Proof.
  unfold pyround. rewrite Qfloor_Z.
  destruct (Qcompare_spec (inject_Z n - inject_Z n) (1 # 2)) as [H | H | H];
    [exfalso; lra | reflexivity | exfalso; lra].
Qed.

Lemma pyround_nonneg (q : Q) : 0 <= q → (0 <= pyround q)%Z.
Proof.
  intros H. change 0%Z with (pyround (inject_Z 0)) at 1.
  apply pyround_mono. exact H.
Qed.

Lemma pyround_nd_nonneg (q : Q) (n : nat) : 0 <= q → 0 <= pyround_nd q n.
Proof.
  intros H. unfold pyround_nd.
  assert (0 < 10 ^ Z.of_nat n)%Z as Hp by (apply Z.pow_pos_nonneg; lia).
  assert (0 < inject_Z (10 ^ Z.of_nat n)) as HpQ.
  { change 0 with (inject_Z 0). rewrite <- Zlt_Qlt. exact Hp. }
  apply Qle_shift_div_l; [exact HpQ |].
  rewrite Qmult_0_l. change 0 with (inject_Z 0). rewrite <- Zle_Qle.
  apply pyround_nonneg. apply Qmult_le_0_compat; lra.
Qed.

Lemma pyround_nd_mono (q q' : Q) (n : nat) :
  q <= q' → pyround_nd q n <= pyround_nd q' n.
Proof.
  intros H. unfold pyround_nd.
  assert (0 < 10 ^ Z.of_nat n)%Z as Hp by (apply Z.pow_pos_nonneg; lia).
  assert (0 < inject_Z (10 ^ Z.of_nat n)) as HpQ.
  { change 0 with (inject_Z 0). rewrite <- Zlt_Qlt. exact Hp. }
  apply Qmult_le_compat_r.
  - rewrite <- Zle_Qle. apply pyround_mono.
    apply Qmult_le_compat_r; [exact H | lra].
  - apply Qlt_le_weak, Qinv_lt_0_compat, HpQ.
Qed.

Lemma pyround_nd_comp (q q' : Q) (n : nat) : q == q' → pyround_nd q n = pyround_nd q' n.
Proof.
  intros E. unfold pyround_nd.
  set (k := inject_Z (10 ^ Z.of_nat n)).
  rewrite (pyround_comp (q * k) (q' * k)); [reflexivity | rewrite E; reflexivity].
Qed.

Lemma inject_Z_nonzero (z : Z) : z ≠ 0%Z → ¬ inject_Z z == 0.
Proof.
  intros Hz E. apply Hz. unfold Qeq in E. simpl in E. lia.
Qed.

Lemma pydiv_Some (a b : Z) : b ≠ 0%Z → pydiv a b = Some (inject_Z a / inject_Z b).
Proof.
  intros H. unfold pydiv. destruct (Z.eqb_spec b 0); [contradiction | reflexivity].
Qed.

End Rounding.

(** ** The primitives on sample values *)

Module Primitives.

Example pyround_ties :
  pyround (5 # 2) = 2 ∧ pyround (7 # 2) = 4 ∧ pyround (-5 # 2) = -2 ∧
  pyround 2.6 = 3 ∧ pyround (-1 # 3) = 0.
Proof. repeat split. Qed.

Example format_samples :
  format_comma 1234567 = "1,234,567"%string ∧ format_comma 999 = "999"%string ∧
  format_comma 50000 = "50,000"%string ∧ format_comma (-1200) = "-1,200"%string ∧
  format_2f 0.125 = "0.12"%string ∧ format_2f (1 # 3) = "0.33"%string ∧
  format_2f 0 = "0.00"%string ∧ format_2f 12.5 = "12.50"%string.
Proof. vm_compute. repeat split. Qed.

Example slices :
  last_n 2 [1; 2; 3] = [2; 3] ∧ last_n 5 [1; 2; 3] = [1; 2; 3] ∧
  first_n 2 [1; 2; 3] = [1; 2] ∧
  str_take 10 "2026-01-02T09:00:00Z" = "2026-01-02"%string ∧
  str_take 10 "" = ""%string.
Proof. repeat split. Qed.

(** Equal keys keep the order of the input. *)
Example sorted_desc_stable :
  sorted_desc (λ p : Z * string, inject_Z p.1)
    [(1, "a"); (3, "b"); (1, "c"); (3, "d"); (2, "e")]%string
  = [(3, "b"); (3, "d"); (2, "e"); (1, "a"); (1, "c")]%string.
Proof. reflexivity. Qed.

Example contains_samples :
  contains "scam" "total scam, lawsuit incoming" = true ∧
  contains "lie" "it relies on rain" = true ∧
  contains "hoax" "weather today is mild" = false ∧
  contains "" "" = true.
Proof. repeat split. Qed.

Example truthy_samples :
  truthy (PStr "") = false ∧ truthy (PStr "neutral") = true ∧
  truthy PNone = false ∧ truthy (PBool false) = false ∧
  truthy (PInt 0) = false ∧ truthy (PList []) = false ∧ truthy (PDict ∅) = false.
Proof. repeat split. Qed.

End Primitives.

(** ** Brand score *)

Module BrandScore.

Import Collect Samples.

Lemma sum_reach_nonneg (l : list scored_tweet) :
  Forall (λ t, 0 <= t_reach t) l → 0 <= sum_reach l.
Proof.
  induction 1 as [| t l Ht _ IH]; simpl in *; lia.
Qed.

(** On a non-empty batch neither division fails. *)
Lemma compute_brand_score_nonempty (batch : list scored_tweet) :
  batch ≠ [] →
  compute_brand_score batch =
    Some (Z.max 0 (Z.min 100 (pyround
      ((inject_Z (count_label "positive" batch - count_label "negative" batch)
        / inject_Z (Z.of_nat (length batch)) * 50 + 50) * 0.4
       + (inject_Z (sum_reach (filter (λ t, t_sentiment t = "positive"%string) batch)
                    - sum_reach (filter (λ t, t_sentiment t = "negative"%string) batch))
          / inject_Z (if sum_reach batch =? 0 then 1 else sum_reach batch) * 50 + 50)
         * 0.6)%Q))).
Proof.
  intros Hne. destruct batch as [| t rest]; [contradiction |].
  unfold compute_brand_score.
  set (batch := t :: rest).
  rewrite (pydiv_Some _ (Z.of_nat (length batch)))
    by (subst batch; simpl length; lia).
  rewrite pydiv_Some by (destruct (Z.eqb_spec (sum_reach batch) 0); lia).
  reflexivity.
Qed.

Example brand_score_batch3 : compute_brand_score batch3 = Some 59.
Proof. vm_compute. reflexivity. Qed.



End BrandScore.

(** ** Lists: tail retention and keyed projections *)

Section Lists.

Context {A B : Type}.

Lemma last_n_length (n : nat) (l : list A) : (length (last_n n l) ≤ n)%nat.
Proof. unfold last_n. rewrite length_drop. lia. Qed.

Lemma last_n_all (n : nat) (l : list A) : (length l ≤ n)%nat → last_n n l = l.
Proof.
  intros H. unfold last_n. replace (length l - n)%nat with 0%nat by lia.
  reflexivity.
Qed.

Lemma last_n_sublist (n : nat) (l : list A) : last_n n l `sublist_of` l.
Proof. apply sublist_drop. Qed.

(** Appending one element and keeping the last [n] keeps that element. *)
Lemma last_n_snoc (n : nat) (l : list A) (x : A) :
  (0 < n)%nat → last_n n (l ++ [x]) = last_n (n - 1) l ++ [x].
Proof.
  intros Hn. unfold last_n. rewrite length_app. simpl.
  rewrite drop_app_le by lia. do 2 f_equal. lia.
Qed.

Lemma filter_none (P : A → Prop) `{!∀ x, Decision (P x)} (l : list A) :
  (∀ x, x ∈ l → ¬ P x) → filter P l = [].
Proof.
  induction l as [| x l IH]; intros Hl; [reflexivity |].
  rewrite filter_cons_False by (apply Hl; left).
  apply IH. intros y Hy. apply Hl. by right.
Qed.

Lemma omap_sublist (f : A → option B) (l1 l2 : list A) :
  l1 `sublist_of` l2 → omap f l1 `sublist_of` omap f l2.
Proof.
  induction 1 as [| x l1 l2 _ IH | x l1 l2 _ IH]; simpl.
  - constructor.
  - destruct (f x); [by constructor | exact IH].
  - destruct (f x); [by apply sublist_cons | exact IH].
Qed.

Lemma omap_NoDup_sublist (f : A → option B) (l1 l2 : list A) :
  l1 `sublist_of` l2 → NoDup (omap f l2) → NoDup (omap f l1).
Proof.
  intros Hs Hn. eapply sublist_NoDup; [exact Hn | by apply omap_sublist].
Qed.

End Lists.

(** ** The date-keyed merge *)

Module Merge.

Import Collect Samples.

(** Reading a key of a dictionary literal. *)
Ltac dict_lookup :=
  rewrite ?lookup_insert_ne by discriminate; apply lookup_insert_eq.

Lemma percent_spec (n total : Z) : percent n total = Some (Spec.percentage n total).
Proof.
  unfold percent, Spec.percentage.
  destruct (Z.eqb_spec total 0) as [E | N]; [reflexivity |].
  rewrite pydiv_Some by exact N. reflexivity.
Qed.

Lemma score_entry_spec (today : string) (brand pos neg neu total : Z) :
  score_entry today brand pos neg neu total =
    Some (<["date" := PStr today]> (<["score" := PInt brand]>
         (<["positive" := PInt (Spec.percentage pos total)]>
         (<["negative" := PInt (Spec.percentage neg total)]>
         (<["neutral" := PInt (Spec.percentage neu total)]>
         (<["totalTweets" := PInt total]> ∅)))))).
Proof.
  unfold score_entry. rewrite !percent_spec. reflexivity.
Qed.

Lemma reply_like_ratio_total (t : scored_tweet) : is_Some (reply_like_ratio t).
Proof.
  unfold reply_like_ratio.
  destruct (Z.ltb_spec 0 (default 0 (t_metrics t !! "like_count"))) as [H | H].
  - rewrite pydiv_Some by lia. eauto.
  - eauto.
Qed.

Section WithLower.

Variable lower : string → string.

Lemma detect_alert_total (today : string) (t : scored_tweet) :
  is_Some (detect_alert lower today t).
Proof.
  unfold detect_alert.
  destruct (reply_like_ratio_total t) as [ratio ->]. simpl.
  destruct (_ || _); eauto.
Qed.

Lemma scan_alerts_total (today : string) (batch : list scored_tweet)
    (risk_alerts : list (gmap string pyval)) :
  is_Some (scan_alerts lower today batch risk_alerts).
Proof.
  revert risk_alerts.
  induction batch as [| t rest IH]; intros risk_alerts; simpl.
  - eauto.
  - destruct (detect_alert_total today t) as [a ->]. simpl. apply IH.
Qed.

(** The merge never fails, and its result is the record below. *)
Lemma build_dashboard_json_unfold (batch : list scored_tweet) (brand : Z)
    (now today : string) (data_file : file_state document) :
  ∃ alerts,
    scan_alerts lower today batch
      (default [] (doc_riskAlerts (load_existing data_file))) = Some alerts ∧
    build_dashboard_json lower batch brand now today data_file =
      Some {|
        d_meta := {| lastUpdated := now;
                     targets := ["@rainmakercorp"; "@ADoricko"]%string;
                     keywords := ["rain maker"; "rainmaker corp"; "cloud seeding";
                                  "weather modification"]%string |};
        d_scores :=
          Spec.updated_series today (Spec.daily_score today brand batch)
            (default [] (doc_scores (load_existing data_file)));
        d_riskAlerts := last_n 50 alerts;
        d_accountProfiles :=
          default (PDict ∅) (doc_accountProfiles (load_existing data_file));
        d_aggregate := default (PDict ∅) (doc_aggregate (load_existing data_file));
        d_topMentions :=
          map (top_mention today)
              (first_n 20 (sorted_desc (λ t, inject_Z (t_reach t)) batch))
      |}.
Proof.
  destruct (scan_alerts_total today batch
              (default [] (doc_riskAlerts (load_existing data_file)))) as [alerts Ha].
  exists alerts. split; [exact Ha |].
  unfold build_dashboard_json.
  rewrite score_entry_spec. cbn [mbind option_bind].
  rewrite Ha. reflexivity.
Qed.

(** *** Score series *)

Lemma has_date_true (today : string) (s : gmap string pyval) :
  has_date today s = true ↔ s !! "date" = Some (PStr today).
Proof.
  unfold has_date.
  destruct (s !! "date") as [[| | | | d | |] |]; try (split; [discriminate | congruence]).
  rewrite String.eqb_eq. split; congruence.
Qed.

Lemma entry_dates_kept (today : string) (series : list (gmap string pyval)) :
  today ∉ Spec.entry_dates (filter (λ s, has_date today s = false) series).
Proof.
  unfold Spec.entry_dates. rewrite list_elem_of_omap.
  intros (s & Hin & Hd).
  apply list_elem_of_filter in Hin as [Hf _].
  assert (has_date today s = true) as Ht.
  { apply has_date_true. destruct (s !! "date") as [[| | | | d | |] |]; congruence. }
  congruence.
Qed.

Lemma daily_score_date (today : string) (brand : Z) (batch : list scored_tweet) :
  Spec.daily_score today brand batch !! "date" = Some (PStr today).
Proof. apply lookup_insert_eq. Qed.

Lemma updated_series_NoDup (today : string) (e : gmap string pyval)
    (series : list (gmap string pyval)) :
  e !! "date" = Some (PStr today) →
  NoDup (Spec.entry_dates series) →
  NoDup (Spec.entry_dates (Spec.updated_series today e series)).
Proof.
  intros He Hnd. unfold Spec.updated_series.
  eapply omap_NoDup_sublist; [apply last_n_sublist |].
  fold (Spec.entry_dates (filter (λ s, has_date today s = false) series ++ [e])).
  unfold Spec.entry_dates. rewrite omap_app. simpl. rewrite He.
  apply NoDup_app. split; [| split].
  - eapply omap_NoDup_sublist; [apply sublist_filter | exact Hnd].
  - intros d Hd Hd'. apply list_elem_of_singleton in Hd'. subst d.
    exact (entry_dates_kept today series Hd).
  - apply NoDup_singleton.
Qed.

Lemma updated_series_today (today : string) (e : gmap string pyval)
    (series : list (gmap string pyval)) :
  e !! "date" = Some (PStr today) →
  filter (λ s, has_date today s = true) (Spec.updated_series today e series) = [e].
Proof.
  intros He. unfold Spec.updated_series.
  rewrite last_n_snoc by lia. rewrite filter_app.
  assert (has_date today e = true) as Ht by (by apply has_date_true).
  rewrite (filter_cons_True _ e []) by exact Ht. rewrite filter_nil.
  assert (filter (λ s, has_date today s = true)
            (last_n (90 - 1) (filter (λ s, has_date today s = false) series)) = []) as ->;
    [| reflexivity].
  apply filter_none. intros s Hs.
  pose proof (elem_of_sublist _ _ _ Hs (last_n_sublist _ _)) as Hs'.
  apply list_elem_of_filter in Hs' as [Hf _]. congruence.
Qed.

(** C2. If every calendar date occurs at most once in the persisted
    series, one merge leaves the series with today's old entries removed,
    the new entry appended and the last 90 kept, still with every date at
    most once; a second merge for the same date leaves exactly one entry
    for that date, the one of the second run. *)
Theorem score_series_replace_not_duplicate
    (batch batch2 : list scored_tweet) (brand brand2 : Z)
    (now now2 today : string) (data_file : file_state document) :
  NoDup (Spec.entry_dates (default [] (doc_scores (load_existing data_file)))) →
  ∃ d d2,
    build_dashboard_json lower batch brand now today data_file = Some d ∧
    d_scores d =
      last_n 90 (filter (λ s, has_date today s = false)
                   (default [] (doc_scores (load_existing data_file)))
                 ++ [Spec.daily_score today brand batch]) ∧
    NoDup (Spec.entry_dates (d_scores d)) ∧
    build_dashboard_json lower batch2 brand2 now2 today (Parsed (written d)) = Some d2 ∧
    filter (λ s, has_date today s = true) (d_scores d2)
      = [Spec.daily_score today brand2 batch2] ∧
    NoDup (Spec.entry_dates (d_scores d2)).
Proof.
  intros Hnd.
  destruct (build_dashboard_json_unfold batch brand now today data_file)
    as (alerts & _ & Hd).
  match type of Hd with _ = Some ?r => set (d := r) in * end.
  destruct (build_dashboard_json_unfold batch2 brand2 now2 today (Parsed (written d)))
    as (alerts2 & _ & Hd2).
  assert (NoDup (Spec.entry_dates (d_scores d))) as Hnd1.
  { apply updated_series_NoDup; [apply daily_score_date | exact Hnd]. }
  exists d. eexists.
  split; [exact Hd |]. split; [reflexivity |]. split; [exact Hnd1 |].
  split; [exact Hd2 |]. split.
  - apply updated_series_today, daily_score_date.
  - apply updated_series_NoDup; [apply daily_score_date | exact Hnd1].
Qed.

(** *** Risk alerts *)

Lemma has_post_true (p : string) (r : gmap string pyval) :
  has_post p r = true ↔ r !! "post" = Some (PStr p).
Proof.
  unfold has_post.
  destruct (r !! "post") as [[| | | | q | |] |]; try (split; [discriminate | congruence]).
  rewrite String.eqb_eq. split; congruence.
Qed.

Lemma existsb_has_post (p : string) (l : list (gmap string pyval)) :
  existsb (has_post p) l = true ↔ p ∈ Spec.alert_keys l.
Proof.
  rewrite existsb_exists. unfold Spec.alert_keys. rewrite list_elem_of_omap.
  split.
  - intros (r & Hin & Hr). exists r. split; [by apply list_elem_of_In |].
    apply has_post_true in Hr. by rewrite Hr.
  - intros (r & Hin & Hr). exists r. split; [by apply list_elem_of_In |].
    apply has_post_true. destruct (r !! "post") as [[| | | | q | |] |]; congruence.
Qed.

Lemma append_alert_known (l : list (gmap string pyval)) (p : string)
    (a : gmap string pyval) :
  p ∈ Spec.alert_keys l → append_alert l p a = l.
Proof.
  intros H. unfold append_alert.
  apply existsb_has_post in H. by rewrite H.
Qed.

Lemma append_alert_fresh (l : list (gmap string pyval)) (p : string)
    (a : gmap string pyval) :
  p ∉ Spec.alert_keys l → append_alert l p a = l ++ [a].
Proof.
  intros H. unfold append_alert.
  destruct (existsb (has_post p) l) eqn:E; [| reflexivity].
  apply existsb_has_post in E. contradiction.
Qed.

Lemma make_alert_post (today : string) (t : scored_tweet) (ratio : Q) (hc : bool) :
  make_alert today t ratio hc !! "post" = Some (PStr (alert_post t)).
Proof.
  unfold make_alert. dict_lookup.
Qed.

Lemma detect_alert_post (today : string) (t : scored_tweet) (a : gmap string pyval) :
  detect_alert lower today t = Some (Some a) →
  a !! "post" = Some (PStr (alert_post t)).
Proof.
  unfold detect_alert.
  destruct (reply_like_ratio t) as [ratio |]; [| discriminate]. simpl.
  destruct (_ || _); intros [= <-]. apply make_alert_post.
Qed.

Lemma length_append (u v : string) :
  String.length (u +:+ v) = (String.length u + String.length v)%nat.
Proof.
  induction u as [| c u IH]; [reflexivity |].
  change (String c u +:+ v) with (String c (u +:+ v)). simpl. by rewrite IH.
Qed.

Lemma append_inj_length (u u' v v' : string) :
  String.length v = String.length v' → u +:+ v = u' +:+ v' → u = u' ∧ v = v'.
Proof.
  intros Hlen. revert u'.
  induction u as [| c u IH]; intros [| c' u'] H.
  - by split.
  - change ("" +:+ v) with v in H. subst v. rewrite length_append in Hlen.
    simpl in Hlen. lia.
  - change ("" +:+ v') with v' in H. subst v'. rewrite length_append in Hlen.
    simpl in Hlen. lia.
  - change (String c (u +:+ v) = String c' (u' +:+ v')) in H.
    injection H as -> H. destruct (IH u' H) as [-> ->]. by split.
Qed.

(** The post key stands for the pair of the author and the date part of
    [created_at]: equal pairs give equal keys, and equal keys give equal
    pairs when the two date parts have the same length (ten characters for
    a timestamp, none when it is missing). *)
Lemma alert_post_pair (t t' : scored_tweet) :
  String.length (str_take 10 (t_created_at t))
  = String.length (str_take 10 (t_created_at t')) →
  alert_post t = alert_post t' ↔
  t_username t = t_username t' ∧
  str_take 10 (t_created_at t) = str_take 10 (t_created_at t').
Proof.
  intros Hlen. unfold alert_post. split.
  - intros H. apply append_inj_length in H as [Hu Hd].
    + split; [exact Hu |].
      apply (append_inj_length _ _ _ _ Hlen) in Hd as [_ Hd]. exact Hd.
    + rewrite !length_append. by rewrite Hlen.
  - by intros [-> ->].
Qed.

Lemma alert_keys_snoc (l : list (gmap string pyval)) (a : gmap string pyval)
    (p : string) :
  a !! "post" = Some (PStr p) → Spec.alert_keys (l ++ [a]) = Spec.alert_keys l ++ [p].
Proof.
  intros Ha. unfold Spec.alert_keys. rewrite omap_app. simpl. by rewrite Ha.
Qed.

(** What the loop over the batch does to the alert list: the prior list
    stays as a prefix, each appended alert was raised by a tweet of the
    batch under a key not seen before, keys stay pairwise distinct, and
    the key of every raised alert ends up in the list. *)
Lemma scan_alerts_spec (today : string) (batch : list scored_tweet)
    (prior merged : list (gmap string pyval)) :
  scan_alerts lower today batch prior = Some merged →
  ∃ added,
    merged = prior ++ added ∧
    (∀ a, a ∈ added →
       ∃ t, t ∈ batch ∧ detect_alert lower today t = Some (Some a) ∧
            a !! "post" = Some (PStr (alert_post t)) ∧
            alert_post t ∉ Spec.alert_keys prior) ∧
    (NoDup (Spec.alert_keys prior) → NoDup (Spec.alert_keys merged)) ∧
    (∀ t a, t ∈ batch → detect_alert lower today t = Some (Some a) →
       alert_post t ∈ Spec.alert_keys merged).
Proof.
  revert prior.
  induction batch as [| t rest IH]; intros prior; simpl.
  - intros [= <-]. exists []. rewrite app_nil_r.
    split; [reflexivity |]. split; [intros a Ha; inversion Ha |].
    split; [auto |]. intros t a Ht. inversion Ht.
  - destruct (detect_alert lower today t) as [[alert |] |] eqn:Hdet; simpl;
      [| | discriminate].
    + pose proof (detect_alert_post today t alert Hdet) as Hpost.
      destruct (decide (alert_post t ∈ Spec.alert_keys prior)) as [Hin | Hnin].
      * rewrite append_alert_known by exact Hin.
        intros Hscan. destruct (IH prior Hscan) as (added & -> & Hadd & Hnd & Hall).
        exists added. split; [reflexivity |]. split; [| split; [exact Hnd |]].
        -- intros a Ha. destruct (Hadd a Ha) as (t' & Ht' & H').
           exists t'. split; [by right | exact H'].
        -- intros t' a Ht' Hd'. apply elem_of_cons in Ht' as [-> | Ht'].
           ++ unfold Spec.alert_keys. rewrite omap_app. apply elem_of_app. by left.
           ++ by apply (Hall t' a).
      * rewrite append_alert_fresh by exact Hnin.
        intros Hscan.
        destruct (IH (prior ++ [alert]) Hscan) as (added & -> & Hadd & Hnd & Hall).
        exists (alert :: added). split; [by rewrite <- app_assoc |].
        split; [| split].
        -- intros a Ha. apply elem_of_cons in Ha as [-> | Ha].
           ++ exists t. split; [by left |]. by repeat split.
           ++ destruct (Hadd a Ha) as (t' & Ht' & Hd' & Hp' & Hn').
              exists t'. split; [by right |]. repeat split; try done.
              intros Hk. apply Hn'. rewrite (alert_keys_snoc _ _ _ Hpost).
              apply elem_of_app. by left.
        -- intros Hprior. apply Hnd. rewrite (alert_keys_snoc _ _ _ Hpost).
           apply NoDup_app. split; [exact Hprior |]. split; [| apply NoDup_singleton].
           intros k Hk Hk'. apply list_elem_of_singleton in Hk'. by subst k.
        -- intros t' a Ht' Hd'. apply elem_of_cons in Ht' as [-> | Ht'].
           ++ unfold Spec.alert_keys. rewrite omap_app. apply elem_of_app. left.
              fold (Spec.alert_keys (prior ++ [alert])).
              rewrite (alert_keys_snoc _ _ _ Hpost). apply elem_of_app. right.
              by apply list_elem_of_singleton.
           ++ by apply (Hall t' a).
    + intros Hscan. destruct (IH prior Hscan) as (added & -> & Hadd & Hnd & Hall).
      exists added. split; [reflexivity |]. split; [| split; [exact Hnd |]].
      * intros a Ha. destruct (Hadd a Ha) as (t' & Ht' & H').
        exists t'. split; [by right | exact H'].
      * intros t' a Ht' Hd'. apply elem_of_cons in Ht' as [-> | Ht'].
        -- congruence.
        -- by apply (Hall t' a).
Qed.

(** C3. If the persisted alerts have pairwise distinct keys, the merged
    list is the last 50 of the persisted list followed by the alerts
    appended in this run; each appended alert carries a key that was not
    in the persisted list, an alert whose key is already present leaves
    the list as it was, keys remain pairwise distinct and the result has
    at most 50 entries. *)
Theorem risk_alerts_dedup_and_cap
    (batch : list scored_tweet) (brand : Z) (now today : string)
    (data_file : file_state document) :
  NoDup (Spec.alert_keys (default [] (doc_riskAlerts (load_existing data_file)))) →
  ∃ d added,
    build_dashboard_json lower batch brand now today data_file = Some d ∧
    d_riskAlerts d =
      last_n 50 (default [] (doc_riskAlerts (load_existing data_file)) ++ added) ∧
    (∀ a, a ∈ added →
       ∃ t, t ∈ batch ∧ detect_alert lower today t = Some (Some a) ∧
            a !! "post" = Some (PStr (alert_post t)) ∧
            alert_post t ∉ Spec.alert_keys
              (default [] (doc_riskAlerts (load_existing data_file)))) ∧
    (∀ l p a, p ∈ Spec.alert_keys l → append_alert l p a = l) ∧
    NoDup (Spec.alert_keys
             (default [] (doc_riskAlerts (load_existing data_file)) ++ added)) ∧
    NoDup (Spec.alert_keys (d_riskAlerts d)) ∧
    (length (d_riskAlerts d) ≤ 50)%nat.
Proof.
  intros Hnd.
  destruct (build_dashboard_json_unfold batch brand now today data_file)
    as (alerts & Hscan & Hd).
  destruct (scan_alerts_spec today batch _ alerts Hscan)
    as (added & -> & Hadd & Hkeys & _).
  eexists _, added. split; [exact Hd |]. simpl.
  split; [reflexivity |]. split; [exact Hadd |].
  split; [exact append_alert_known |].
  split; [exact (Hkeys Hnd) |]. split.
  - eapply omap_NoDup_sublist; [apply last_n_sublist | exact (Hkeys Hnd)].
  - apply last_n_length.
Qed.

(** *** Percentages *)




(** *** Empty batch *)

(** C8, as the code has it. On an empty batch the merge still updates the
    score series: entries dated today are removed and an entry with
    [totalTweets = 0] and all percentages 0 is appended, the last 90 being
    kept; the alert list is only truncated, the top mentions are empty,
    [accountProfiles] and [aggregate] are the persisted values (an empty
    dictionary when the key is missing), and [compute_brand_score] returns
    50. *)
Theorem empty_batch_merge (brand : Z) (now today : string)
    (data_file : file_state document) :
  ∃ d,
    build_dashboard_json lower [] brand now today data_file = Some d ∧
    d_scores d =
      last_n 90
        (filter (λ s, has_date today s = false)
           (default [] (doc_scores (load_existing data_file)))
         ++ [<["date" := PStr today]> (<["score" := PInt brand]>
             (<["positive" := PInt 0]> (<["negative" := PInt 0]>
             (<["neutral" := PInt 0]> (<["totalTweets" := PInt 0]> ∅)))))]) ∧
    d_riskAlerts d = last_n 50 (default [] (doc_riskAlerts (load_existing data_file))) ∧
    d_topMentions d = [] ∧
    d_accountProfiles d
      = default (PDict ∅) (doc_accountProfiles (load_existing data_file)) ∧
    d_aggregate d = default (PDict ∅) (doc_aggregate (load_existing data_file)) ∧
    compute_brand_score [] = Some 50.
Proof.
  destruct (build_dashboard_json_unfold [] brand now today data_file)
    as (alerts & Hscan & Hd).
  simpl in Hscan. injection Hscan as <-.
  eexists. split; [exact Hd |]. simpl. by repeat split.
Qed.

(** In [main] the merge is not reached when nothing was collected: the
    file is left as it is. *)
Lemma main_no_tweets (users_map : gmap string user) (now today : string)
    (data_file : file_state document) :
  main lower [] users_map now today data_file = Some data_file.
Proof. reflexivity. Qed.

End WithLower.

Lemma score_series_replace_not_duplicate_witness :
  NoDup (Spec.entry_dates (default [] (doc_scores (load_existing (Parsed doc2))))) ∧
  ∃ d d2,
    build_dashboard_json ascii_lower batch3 59 "t1" "2026-01-02" (Parsed doc2) = Some d ∧
    d_scores d =
      last_n 90 (filter (λ s, has_date "2026-01-02" s = false)
                   (default [] (doc_scores (load_existing (Parsed doc2))))
                 ++ [Spec.daily_score "2026-01-02" 59 batch3]) ∧
    NoDup (Spec.entry_dates (d_scores d)) ∧
    build_dashboard_json ascii_lower batch_alerts 47 "t2" "2026-01-02" (Parsed (written d))
      = Some d2 ∧
    filter (λ s, has_date "2026-01-02" s = true) (d_scores d2)
      = [Spec.daily_score "2026-01-02" 47 batch_alerts] ∧
    NoDup (Spec.entry_dates (d_scores d2)).
Proof.
  assert (NoDup (Spec.entry_dates
            (default [] (doc_scores (load_existing (Parsed doc2)))))) as Hnd.
  { apply (bool_decide_unpack _). vm_compute. exact I. }
  split; [exact Hnd |].
  exact (score_series_replace_not_duplicate ascii_lower batch3 batch_alerts 59 47
           "t1" "t2" "2026-01-02" (Parsed doc2) Hnd).
Defined.


Lemma risk_alerts_dedup_and_cap_witness :
  NoDup (Spec.alert_keys (default [] (doc_riskAlerts (load_existing (Parsed doc2))))) ∧
  ∃ d added,
    build_dashboard_json ascii_lower batch_alerts 47 "t1" "2026-01-02" (Parsed doc2)
      = Some d ∧
    d_riskAlerts d =
      last_n 50 (default [] (doc_riskAlerts (load_existing (Parsed doc2))) ++ added) ∧
    (∀ a, a ∈ added →
       ∃ t, t ∈ batch_alerts ∧
            detect_alert ascii_lower "2026-01-02" t = Some (Some a) ∧
            a !! "post" = Some (PStr (alert_post t)) ∧
            alert_post t ∉ Spec.alert_keys
              (default [] (doc_riskAlerts (load_existing (Parsed doc2))))) ∧
    (∀ l p a, p ∈ Spec.alert_keys l → append_alert l p a = l) ∧
    NoDup (Spec.alert_keys
             (default [] (doc_riskAlerts (load_existing (Parsed doc2))) ++ added)) ∧
    NoDup (Spec.alert_keys (d_riskAlerts d)) ∧
    (length (d_riskAlerts d) ≤ 50)%nat.
Proof.
  assert (NoDup (Spec.alert_keys
            (default [] (doc_riskAlerts (load_existing (Parsed doc2)))))) as Hnd.
  { apply (bool_decide_unpack _). vm_compute. exact I. }
  split; [exact Hnd |].
  exact (risk_alerts_dedup_and_cap ascii_lower batch_alerts 47 "t1" "2026-01-02"
           (Parsed doc2) Hnd).
Defined.

(** The sample batch raises three alerts and one is appended: the first
    repeats a persisted key and the third the key of the second. *)
Example batch_alerts_keys :
  (d_riskAlerts <$> build_dashboard_json ascii_lower batch_alerts 47 "t1"
                      "2026-01-02" (Parsed doc2)) ≫= (λ l, Some (Spec.alert_keys l))
  = Some ["@a — 2026-01-01"; "@b — 2026-01-02"]%string.
Proof. vm_compute. reflexivity. Qed.


(** The claim that an empty batch leaves the score series alone fails:
    with two persisted days and an empty batch on a third day the series
    has three entries. *)
Lemma empty_batch_no_update_counterexample :
  ∃ d,
    build_dashboard_json ascii_lower [] 50 "t1" "2026-01-03" (Parsed doc2) = Some d ∧
    length (d_scores d) = 3%nat ∧
    length (default [] (doc_scores doc2)) = 2%nat ∧
    d_scores d ≠ default [] (doc_scores doc2).
Proof.
  destruct (build_dashboard_json_unfold ascii_lower [] 50 "t1" "2026-01-03" (Parsed doc2))
    as (alerts & _ & Hd).
  eexists. split; [exact Hd |].
  split; [vm_compute; reflexivity |]. split; [reflexivity |].
  intros E. apply (f_equal length) in E. vm_compute in E. discriminate.
Qed.

End Merge.

(** ** Sentiment classifiers *)

Module Sentiment.

(** [contains] is the substring relation. *)
Lemma append_cons (c : ascii) (u v : string) :
  (String c u +:+ v) = String c (u +:+ v).
Proof. reflexivity. Qed.

Lemma prefix_cons (c c' : ascii) (w s : string) :
  String.prefix (String c w) (String c' s)
  = if Ascii.ascii_dec c c' then String.prefix w s else false.
Proof. reflexivity. Qed.

Lemma prefix_spec (w s : string) :
  String.prefix w s = true ↔ ∃ post, s = w +:+ post.
Proof.
  revert s. induction w as [| c w IH]; intros s.
  - split; [intros _; by exists s | intros _; by destruct s].
  - destruct s as [| c' s].
    + split; [discriminate | intros [post H]; discriminate].
    + rewrite prefix_cons. destruct (Ascii.ascii_dec c c') as [-> | Hne].
      * rewrite IH. split; intros [post H]; exists post.
        -- rewrite append_cons. by rewrite H.
        -- rewrite append_cons in H. by injection H.
      * split; [discriminate |]. intros [post H].
        rewrite append_cons in H. injection H as Hc _. congruence.
Qed.

Lemma contains_cons (w : string) (c : ascii) (s : string) :
  contains w (String c s) = String.prefix w (String c s) || contains w s.
Proof. reflexivity. Qed.

Lemma contains_spec (w s : string) :
  contains w s = true ↔ ∃ pre post, s = pre +:+ (w +:+ post).
Proof.
  induction s as [| c s IH].
  - change (contains w "") with (String.prefix w "" || false).
    rewrite orb_false_r, prefix_spec. split.
    + intros [post H]. by exists EmptyString, post.
    + intros ([| c pre] & post & H); [by exists post | discriminate].
  - rewrite contains_cons, orb_true_iff, prefix_spec, IH. split.
    + intros [[post H] | (pre & post & H)].
      * by exists EmptyString, post.
      * exists (String c pre), post. rewrite append_cons. by rewrite H.
    + intros ([| c' pre] & post & H).
      * left. by exists post.
      * right. rewrite append_cons in H. injection H as -> ->. by exists pre, post.
Qed.

Section Magnitude.

Import Collect.

Variable lower : string → string.

(** C4. With [p] and [n] the numbers of distinct positive and negative
    keywords occurring in the lower-cased text, [score_sentiment] returns
    positive with confidence min(0.5 + 0.15 p, 0.95) when [p > n], negative
    with confidence min(0.5 + 0.15 n, 0.95) when [n > p], and neutral with
    confidence 0.5 otherwise; a text in which no keyword occurs is neutral
    with confidence 0.5. *)
Theorem score_sentiment_magnitude (text : string) :
  (Z.of_nat (size (Spec.matching NEGATIVE_WORDS (lower text)))
   < Z.of_nat (size (Spec.matching POSITIVE_WORDS (lower text))) →
   score_sentiment lower text =
     ("positive"%string,
      Qmin (0.5 + inject_Z (Z.of_nat (size (Spec.matching POSITIVE_WORDS (lower text))))
                  * 0.15) 0.95)) ∧
  (Z.of_nat (size (Spec.matching POSITIVE_WORDS (lower text)))
   < Z.of_nat (size (Spec.matching NEGATIVE_WORDS (lower text))) →
   score_sentiment lower text =
     ("negative"%string,
      Qmin (0.5 + inject_Z (Z.of_nat (size (Spec.matching NEGATIVE_WORDS (lower text))))
                  * 0.15) 0.95)) ∧
  (Z.of_nat (size (Spec.matching POSITIVE_WORDS (lower text)))
   = Z.of_nat (size (Spec.matching NEGATIVE_WORDS (lower text))) →
   score_sentiment lower text = ("neutral"%string, 0.5%Q)) ∧
  (set_Forall (λ w, contains w (lower text) = false) (POSITIVE_WORDS ∪ NEGATIVE_WORDS) →
   score_sentiment lower text = ("neutral"%string, 0.5%Q)).
Proof.
  unfold score_sentiment, Spec.matching.
  set (p := Z.of_nat (size (filter _ POSITIVE_WORDS))).
  set (n := Z.of_nat (size (filter _ NEGATIVE_WORDS))).
  split; [| split; [| split]].
  - intros H. by destruct (Z.ltb_spec n p); [| lia].
  - intros H. destruct (Z.ltb_spec n p); [lia |]. by destruct (Z.ltb_spec p n); [| lia].
  - intros H. destruct (Z.ltb_spec n p); [lia |]. by destruct (Z.ltb_spec p n); [lia |].
  - intros Hnone.
    assert (∀ X : gset string, X ⊆ POSITIVE_WORDS ∪ NEGATIVE_WORDS →
              filter (λ w, contains w (lower text) = true) X = ∅) as Hempty.
    { intros X HX. apply set_eq. intros w. rewrite elem_of_filter.
      split; [| set_solver]. intros [Hw Hin].
      rewrite (Hnone w (HX w Hin)) in Hw. discriminate. }
    subst p n.
    rewrite (Hempty POSITIVE_WORDS) by apply union_subseteq_l.
    rewrite (Hempty NEGATIVE_WORDS) by apply union_subseteq_r.
    reflexivity.
Qed.

End Magnitude.

Section Ratio.

Import Scorer.

Variable lower : string → string.

Lemma Qltb_lt (x y : Q) : Qltb x y = true ↔ (x < y)%Q.
Proof.
  unfold Qltb. rewrite negb_true_iff, <- not_true_iff_false, Qle_bool_iff.
  split; [apply Qnot_le_lt | apply Qlt_not_le].
Qed.

Lemma hits_nonneg (kws : list string) (s : string) : 0 <= Spec.hits kws s.
Proof. unfold Spec.hits. lia. Qed.

(** The count does not depend on the order of the keyword list. *)
Lemma hits_Permutation (kws kws' : list string) (s : string) :
  kws ≡ₚ kws' → Spec.hits kws s = Spec.hits kws' s.
Proof.
  intros H. unfold Spec.hits. by rewrite H.
Qed.

(** The classifier as a function of the two counts. *)
Lemma score_sentiment_with_cases (positive negative : list string) (text : string) :
  score_sentiment_with lower positive negative text =
    if Spec.hits positive (lower text) + Spec.hits negative (lower text) =? 0
    then Some ("neutral"%string, 0%Q)
    else
      let score := Spec.polarity (Spec.hits positive (lower text))
                                 (Spec.hits negative (lower text)) in
      if Qltb 0.2 score then Some ("positive"%string, score)
      else if Qltb score (-0.2) then Some ("negative"%string, score)
      else Some ("mixed"%string, score).
Proof.
  unfold score_sentiment_with, Spec.hits, Spec.polarity.
  set (pos := Z.of_nat (length (filter _ positive))).
  set (neg := Z.of_nat (length (filter _ negative))).
  destruct (Z.eqb_spec (pos + neg) 0) as [E | N]; [reflexivity |].
  rewrite pydiv_Some by exact N. reflexivity.
Qed.

(** C5. With [pos] and [neg] the numbers of positive and negative keywords
    occurring in the lower-cased text, [score_sentiment] returns
    (neutral, 0) exactly when both are 0; otherwise it returns the polarity
    (pos - neg) / (pos + neg) with label positive above 0.2, negative below
    -0.2 and mixed in between. The label is always one of the four, and the
    result depends on the keyword lists only through their contents. *)
Theorem score_sentiment_ratio (text : string) :
  (score_sentiment lower text = Some ("neutral"%string, 0%Q) ↔
   Spec.hits (RISK_KEYWORDS !!! "positive") (lower text) = 0 ∧
   Spec.hits (RISK_KEYWORDS !!! "negative") (lower text) = 0) ∧
  (0 < Spec.hits (RISK_KEYWORDS !!! "positive") (lower text)
       + Spec.hits (RISK_KEYWORDS !!! "negative") (lower text) →
   (0.2 < Spec.polarity (Spec.hits (RISK_KEYWORDS !!! "positive") (lower text))
                        (Spec.hits (RISK_KEYWORDS !!! "negative") (lower text)) →
    score_sentiment lower text =
      Some ("positive"%string,
            Spec.polarity (Spec.hits (RISK_KEYWORDS !!! "positive") (lower text))
                          (Spec.hits (RISK_KEYWORDS !!! "negative") (lower text))))%Q ∧
   (Spec.polarity (Spec.hits (RISK_KEYWORDS !!! "positive") (lower text))
                  (Spec.hits (RISK_KEYWORDS !!! "negative") (lower text)) < -0.2 →
    score_sentiment lower text =
      Some ("negative"%string,
            Spec.polarity (Spec.hits (RISK_KEYWORDS !!! "positive") (lower text))
                          (Spec.hits (RISK_KEYWORDS !!! "negative") (lower text))))%Q ∧
   (-0.2 <= Spec.polarity (Spec.hits (RISK_KEYWORDS !!! "positive") (lower text))
                          (Spec.hits (RISK_KEYWORDS !!! "negative") (lower text)) <= 0.2 →
    score_sentiment lower text =
      Some ("mixed"%string,
            Spec.polarity (Spec.hits (RISK_KEYWORDS !!! "positive") (lower text))
                          (Spec.hits (RISK_KEYWORDS !!! "negative") (lower text))))%Q) ∧
  (∃ label score,
     score_sentiment lower text = Some (label, score) ∧
     label ∈ ["positive"; "negative"; "neutral"; "mixed"]%string) ∧
  (∀ positive negative,
     positive ≡ₚ RISK_KEYWORDS !!! "positive" →
     negative ≡ₚ RISK_KEYWORDS !!! "negative" →
     score_sentiment_with lower positive negative text = score_sentiment lower text).
Proof.
  unfold score_sentiment. rewrite score_sentiment_with_cases.
  set (pos := Spec.hits (RISK_KEYWORDS !!! "positive") (lower text)).
  set (neg := Spec.hits (RISK_KEYWORDS !!! "negative") (lower text)).
  pose proof (hits_nonneg (RISK_KEYWORDS !!! "positive") (lower text)) as Hp.
  pose proof (hits_nonneg (RISK_KEYWORDS !!! "negative") (lower text)) as Hn.
  fold pos in Hp. fold neg in Hn. cbv zeta.
  split; [| split; [| split]].
  - destruct (Z.eqb_spec (pos + neg) 0) as [E | N].
    + split; [lia | reflexivity].
    + split; [| lia].
      destruct (Qltb 0.2 _); [discriminate |].
      destruct (Qltb _ (-0.2)); discriminate.
  - intros Hpos. destruct (Z.eqb_spec (pos + neg) 0) as [E | _]; [lia |].
    split; [| split].
    + intros H. apply Qltb_lt in H. by rewrite H.
    + intros H.
      destruct (Qltb 0.2 _) eqn:E1; [apply Qltb_lt in E1; exfalso; lra |].
      apply Qltb_lt in H. by rewrite H.
    + intros [H1 H2].
      destruct (Qltb 0.2 _) eqn:E1; [apply Qltb_lt in E1; exfalso; lra |].
      destruct (Qltb _ (-0.2)) eqn:E2; [apply Qltb_lt in E2; exfalso; lra |].
      reflexivity.
  - destruct (Z.eqb_spec (pos + neg) 0) as [E | _].
    + eexists _, _. split; [reflexivity |]. set_solver.
    + destruct (Qltb 0.2 _); [| destruct (Qltb _ (-0.2))];
        (eexists _, _; split; [reflexivity | set_solver]).
  - intros positive negative HP HN.
    rewrite score_sentiment_with_cases.
    rewrite (hits_Permutation _ _ _ HP), (hits_Permutation _ _ _ HN).
    reflexivity.
Qed.

End Ratio.

Import Collect Samples.

Lemma score_sentiment_magnitude_witness :
  (Z.of_nat (size (Spec.matching NEGATIVE_WORDS (ascii_lower text_positive)))
   < Z.of_nat (size (Spec.matching POSITIVE_WORDS (ascii_lower text_positive))) ∧
   score_sentiment ascii_lower text_positive =
     ("positive"%string,
      Qmin (0.5 + inject_Z (Z.of_nat (size (Spec.matching POSITIVE_WORDS
                                             (ascii_lower text_positive)))) * 0.15)
           0.95)) ∧
  (Z.of_nat (size (Spec.matching POSITIVE_WORDS (ascii_lower text_negative)))
   < Z.of_nat (size (Spec.matching NEGATIVE_WORDS (ascii_lower text_negative))) ∧
   score_sentiment ascii_lower text_negative =
     ("negative"%string,
      Qmin (0.5 + inject_Z (Z.of_nat (size (Spec.matching NEGATIVE_WORDS
                                             (ascii_lower text_negative)))) * 0.15)
           0.95)) ∧
  (set_Forall (λ w, contains w (ascii_lower text_plain) = false)
     (POSITIVE_WORDS ∪ NEGATIVE_WORDS) ∧
   Z.of_nat (size (Spec.matching POSITIVE_WORDS (ascii_lower text_plain)))
   = Z.of_nat (size (Spec.matching NEGATIVE_WORDS (ascii_lower text_plain))) ∧
   score_sentiment ascii_lower text_plain = ("neutral"%string, 0.5%Q)).
Proof.
  assert (Z.of_nat (size (Spec.matching NEGATIVE_WORDS (ascii_lower text_positive)))
          < Z.of_nat (size (Spec.matching POSITIVE_WORDS (ascii_lower text_positive))))
    as H1 by (vm_compute; reflexivity).
  assert (Z.of_nat (size (Spec.matching POSITIVE_WORDS (ascii_lower text_negative)))
          < Z.of_nat (size (Spec.matching NEGATIVE_WORDS (ascii_lower text_negative))))
    as H2 by (vm_compute; reflexivity).
  assert (Z.of_nat (size (Spec.matching POSITIVE_WORDS (ascii_lower text_plain)))
          = Z.of_nat (size (Spec.matching NEGATIVE_WORDS (ascii_lower text_plain))))
    as H3 by (vm_compute; reflexivity).
  assert (set_Forall (λ w, contains w (ascii_lower text_plain) = false)
            (POSITIVE_WORDS ∪ NEGATIVE_WORDS)) as H4
    by (apply (bool_decide_unpack _); vm_compute; exact I).
  split; [split; [exact H1 |] | split; [split; [exact H2 |] | split; [exact H4 | split; [exact H3 |]]]].
  - exact (proj1 (score_sentiment_magnitude ascii_lower text_positive) H1).
  - exact (proj1 (proj2 (score_sentiment_magnitude ascii_lower text_negative)) H2).
  - exact (proj2 (proj2 (proj2 (score_sentiment_magnitude ascii_lower text_plain))) H4).
Defined.

Example score_sentiment_samples :
  (score_sentiment ascii_lower text_positive).1 = "positive"%string ∧
  ((score_sentiment ascii_lower text_positive).2 == 0.8)%Q ∧
  (score_sentiment ascii_lower text_negative).1 = "negative"%string ∧
  ((score_sentiment ascii_lower text_negative).2 == 0.8)%Q ∧
  score_sentiment ascii_lower text_plain = ("neutral"%string, 0.5%Q).
Proof. vm_compute. auto. Qed.

Lemma score_sentiment_ratio_witness :
  (0 < Spec.hits (Scorer.RISK_KEYWORDS !!! "positive") (ascii_lower text_praise)
       + Spec.hits (Scorer.RISK_KEYWORDS !!! "negative") (ascii_lower text_praise) ∧
   (0.2 < Spec.polarity 2 0)%Q ∧
   Scorer.score_sentiment ascii_lower text_praise
     = Some ("positive"%string, Spec.polarity 2 0)) ∧
  ((Spec.polarity 0 2 < -0.2)%Q ∧
   Scorer.score_sentiment ascii_lower text_complaint
     = Some ("negative"%string, Spec.polarity 0 2)) ∧
  ((-0.2 <= Spec.polarity 1 1 <= 0.2)%Q ∧
   Scorer.score_sentiment ascii_lower text_mixed
     = Some ("mixed"%string, Spec.polarity 1 1)) ∧
  (Scorer.score_sentiment ascii_lower text_plain = Some ("neutral"%string, 0%Q)) ∧
  (reverse (Scorer.RISK_KEYWORDS !!! "positive") ≡ₚ Scorer.RISK_KEYWORDS !!! "positive" ∧
   reverse (Scorer.RISK_KEYWORDS !!! "negative") ≡ₚ Scorer.RISK_KEYWORDS !!! "negative" ∧
   Scorer.score_sentiment_with ascii_lower
     (reverse (Scorer.RISK_KEYWORDS !!! "positive"))
     (reverse (Scorer.RISK_KEYWORDS !!! "negative")) text_mixed
   = Scorer.score_sentiment ascii_lower text_mixed).
Proof.
  assert (0 < Spec.hits (Scorer.RISK_KEYWORDS !!! "positive") (ascii_lower text_praise)
              + Spec.hits (Scorer.RISK_KEYWORDS !!! "negative") (ascii_lower text_praise))
    as Hpraise by (vm_compute; reflexivity).
  assert (0 < Spec.hits (Scorer.RISK_KEYWORDS !!! "positive") (ascii_lower text_complaint)
              + Spec.hits (Scorer.RISK_KEYWORDS !!! "negative") (ascii_lower text_complaint))
    as Hcomplaint by (vm_compute; reflexivity).
  assert (0 < Spec.hits (Scorer.RISK_KEYWORDS !!! "positive") (ascii_lower text_mixed)
              + Spec.hits (Scorer.RISK_KEYWORDS !!! "negative") (ascii_lower text_mixed))
    as Hmixed by (vm_compute; reflexivity).
  assert (0.2 < Spec.polarity 2 0)%Q as Hhigh by (vm_compute; reflexivity).
  assert (Spec.polarity 0 2 < -0.2)%Q as Hlow by (vm_compute; reflexivity).
  assert (-0.2 <= Spec.polarity 1 1 <= 0.2)%Q as Hmid
    by (split; vm_compute; discriminate).
  pose proof (reverse_Permutation (Scorer.RISK_KEYWORDS !!! "positive")) as HP.
  pose proof (reverse_Permutation (Scorer.RISK_KEYWORDS !!! "negative")) as HN.
  split; [split; [exact Hpraise | split; [exact Hhigh |]] |].
  { exact (proj1 (proj1 (proj2 (score_sentiment_ratio ascii_lower text_praise))
                    Hpraise) Hhigh). }
  split; [split; [exact Hlow |] |].
  { exact (proj1 (proj2 (proj1 (proj2 (score_sentiment_ratio ascii_lower text_complaint))
                           Hcomplaint)) Hlow). }
  split; [split; [exact Hmid |] |].
  { exact (proj2 (proj2 (proj1 (proj2 (score_sentiment_ratio ascii_lower text_mixed))
                           Hmixed)) Hmid). }
  split.
  { apply (proj1 (score_sentiment_ratio ascii_lower text_plain)).
    split; vm_compute; reflexivity. }
  split; [exact HP | split; [exact HN |]].
  exact (proj2 (proj2 (proj2 (score_sentiment_ratio ascii_lower text_mixed))) _ _ HP HN).
Defined.

End Sentiment.

(** ** Engagement and already-pulled posts *)

Module Posts.

Import Scorer Samples.

Lemma as_num_count (o : option Z) :
  as_num (default (PInt 0) (PInt <$> o)) = Some (inject_Z (default 0 o)).
Proof. by destruct o. Qed.

(** On integer counts [score_engagement] does not fail and is the
    specification's rounded weighted sum. *)
Lemma score_engagement_counts (counts : gmap string Z) :
  score_engagement (PInt <$> counts) = Some (Spec.engagement counts).
Proof.
  unfold score_engagement, ENGAGEMENT_WEIGHTS, Spec.engagement, Spec.weighted_sum.
  cbn [foldl fst snd].
  rewrite !lookup_fmap, !as_num_count. reflexivity.
Qed.

(** Only the five recognised keys are read. *)
Lemma score_engagement_ext (metrics metrics' : gmap string pyval) :
  Forall (λ k, metrics !! k = metrics' !! k) (ENGAGEMENT_WEIGHTS.*1) →
  score_engagement metrics = score_engagement metrics'.
Proof.
  unfold score_engagement, ENGAGEMENT_WEIGHTS. cbn [fmap list_fmap foldl fst snd].
  intros H. repeat (apply Forall_cons in H as [-> H]). reflexivity.
Qed.

Lemma count_nonneg (counts : gmap string Z) (k : string) :
  map_Forall (λ _ v, 0 <= v) counts → 0 <= default 0 (counts !! k).
Proof.
  intros H. destruct (counts !! k) as [v |] eqn:E; simpl; [| lia].
  exact (H k v E).
Qed.

Lemma weighted_sum_nonneg (counts : gmap string Z) :
  map_Forall (λ _ v, 0 <= v) counts → (0 <= Spec.weighted_sum counts)%Q.
Proof.
  intros H. unfold Spec.weighted_sum.
  pose proof (count_nonneg counts "likes" H) as H1.
  pose proof (count_nonneg counts "retweets" H) as H2.
  pose proof (count_nonneg counts "reposts" H) as H3.
  pose proof (count_nonneg counts "replies" H) as H4.
  pose proof (count_nonneg counts "views" H) as H5.
  rewrite Zle_Qle in H1, H2, H3, H4, H5.
  change (inject_Z 0) with 0%Q in *. lra.
Qed.

Lemma weighted_sum_mono (counts : gmap string Z) (k : string) (v' : Z) :
  k ∈ ENGAGEMENT_WEIGHTS.*1 →
  default 0 (counts !! k) <= v' →
  (Spec.weighted_sum counts <= Spec.weighted_sum (<[k := v']> counts))%Q.
Proof.
  intros Hk Hle. rewrite Zle_Qle in Hle.
  unfold ENGAGEMENT_WEIGHTS in Hk. cbn [fmap list_fmap fst] in Hk.
  unfold Spec.weighted_sum.
  repeat (apply elem_of_cons in Hk as [-> | Hk]); [.. | by apply elem_of_nil in Hk];
    rewrite lookup_insert_eq, !lookup_insert_ne by discriminate;
    cbn [default from_option id]; lra.
Qed.

Lemma weighted_sum_missing (counts : gmap string Z) (k : string) :
  counts !! k = None → Spec.weighted_sum (<[k := 0]> counts) = Spec.weighted_sum counts.
Proof.
  intros Hk.
  assert (∀ k', default 0 (<[k := 0]> counts !! k') = default 0 (counts !! k')) as E.
  { intros k'. destruct (decide (k = k')) as [<- | Hne].
    - by rewrite lookup_insert_eq, Hk.
    - by rewrite lookup_insert_ne. }
  unfold Spec.weighted_sum. by rewrite !E.
Qed.

(** C9. On non-negative interaction counts the engagement score is
    defined and not negative; raising one recognised count does not lower
    it; a key outside the weight table has no effect whatever its value;
    and a missing key counts as 0. *)
Theorem score_engagement_nonneg_monotone (counts : gmap string Z) :
  map_Forall (λ _ v, 0 <= v) counts →
  ∃ q,
    score_engagement (PInt <$> counts) = Some q ∧
    (0 <= q)%Q ∧
    (∀ k v', k ∈ ENGAGEMENT_WEIGHTS.*1 → default 0 (counts !! k) <= v' →
       ∃ q', score_engagement (PInt <$> <[k := v']> counts) = Some q' ∧ (q <= q')%Q) ∧
    (∀ k v, k ∉ ENGAGEMENT_WEIGHTS.*1 →
       score_engagement (<[k := v]> (PInt <$> counts)) = Some q) ∧
    (∀ k, counts !! k = None →
       score_engagement (PInt <$> <[k := 0]> counts) = Some q).
Proof.
  intros Hnn. exists (Spec.engagement counts).
  split; [apply score_engagement_counts |].
  split; [apply pyround_nd_nonneg, weighted_sum_nonneg, Hnn |].
  split; [| split].
  - intros k v' Hk Hle. exists (Spec.engagement (<[k := v']> counts)).
    split; [apply score_engagement_counts |].
    apply pyround_nd_mono, weighted_sum_mono; assumption.
  - intros k v Hk. rewrite <- score_engagement_counts.
    apply score_engagement_ext. apply Forall_forall. intros k' Hk'.
    apply lookup_insert_ne. intros ->. contradiction.
  - intros k Hk. rewrite score_engagement_counts.
    unfold Spec.engagement. by rewrite weighted_sum_missing.
Qed.

Lemma score_engagement_nonneg_monotone_witness :
  map_Forall (λ _ v, 0 <= v) counts4 ∧
  ∃ q,
    score_engagement (PInt <$> counts4) = Some q ∧
    (0 <= q)%Q ∧
    (∀ k v', k ∈ ENGAGEMENT_WEIGHTS.*1 → default 0 (counts4 !! k) <= v' →
       ∃ q', score_engagement (PInt <$> <[k := v']> counts4) = Some q' ∧ (q <= q')%Q) ∧
    (∀ k v, k ∉ ENGAGEMENT_WEIGHTS.*1 →
       score_engagement (<[k := v]> (PInt <$> counts4)) = Some q) ∧
    (∀ k, counts4 !! k = None →
       score_engagement (PInt <$> <[k := 0]> counts4) = Some q).
Proof.
  assert (map_Forall (λ _ v, 0 <= v) counts4) as H
    by (apply (bool_decide_unpack _); vm_compute; exact I).
  split; [exact H |].
  exact (score_engagement_nonneg_monotone counts4 H).
Defined.

(** 10 likes, 2 replies and 1500 views score 10 + 10 + 1.5. *)
Example score_engagement_counts4 :
  ∃ q, score_engagement (PInt <$> counts4) = Some q ∧ (q == 21.5)%Q.
Proof. eexists. split; [vm_compute; reflexivity | reflexivity]. Qed.

Section ExistingPost.

Variable lower : string → string.

Lemma score_sentiment_total (text : string) : is_Some (score_sentiment lower text).
Proof.
  unfold score_sentiment. rewrite Sentiment.score_sentiment_with_cases.
  destruct (_ =? 0); [eauto |]. cbv zeta.
  destruct (Qltb 0.2 _); [eauto |]. destruct (Qltb _ (-0.2)); eauto.
Qed.

(** A post whose content is a string (or missing) and whose metrics are a
    dictionary of numbers (or missing) is scored without an exception. *)
Lemma score_existing_post_total (post : gmap string pyval) (text : string)
    (metrics : gmap string pyval) :
  as_str (default (PStr "") (post !! "content")) = Some text →
  as_dict (default (PDict ∅) (post !! "metrics")) = Some metrics →
  is_Some (score_engagement metrics) →
  is_Some (score_existing_post lower post).
Proof.
  intros Ht Hm [e He]. unfold score_existing_post.
  rewrite Ht, Hm. cbn [mbind option_bind].
  destruct (score_sentiment_total text) as [[label score] ->]. cbn [mbind option_bind].
  rewrite He. cbn [mbind option_bind]. eauto.
Qed.

(** C10. In the post returned by [score_existing_post], a truthy
    ["sentiment"] of the input is kept in place of the classifier's label
    and a present ["risk_flag"] is kept whatever it is, while
    ["risk_keywords"] and ["engagement_score"] are the values computed
    from the content and the metrics; without a truthy sentiment the label
    is the classifier's, and without a risk flag it is whether a risk
    keyword was found. *)
Theorem score_existing_post_keeps (post out : gmap string pyval) :
  score_existing_post lower post = Some out →
  (∀ v, post !! "sentiment" = Some v → truthy v = true →
        out !! "sentiment" = Some v) ∧
  (∀ v, post !! "risk_flag" = Some v → out !! "risk_flag" = Some v) ∧
  ∃ text metrics label score engagement,
    as_str (default (PStr "") (post !! "content")) = Some text ∧
    as_dict (default (PDict ∅) (post !! "metrics")) = Some metrics ∧
    score_sentiment lower text = Some (label, score) ∧
    score_engagement metrics = Some engagement ∧
    out !! "risk_keywords" = Some (PList (PStr <$> detect_risk lower text)) ∧
    out !! "engagement_score" = Some (PFloat engagement) ∧
    (truthy (default PNone (post !! "sentiment")) = false →
     out !! "sentiment" = Some (PStr label)) ∧
    (post !! "risk_flag" = None →
     out !! "risk_flag"
       = Some (PBool (bool_decide (0 < length (detect_risk lower text))%nat))).
Proof.
  unfold score_existing_post.
  destruct (as_str _) as [text |] eqn:Ht; [| discriminate]. cbn [mbind option_bind].
  destruct (as_dict _) as [metrics |] eqn:Hm; [| discriminate]. cbn [mbind option_bind].
  destruct (score_sentiment lower text) as [[label score] |] eqn:Hs; [| discriminate].
  cbn [mbind option_bind].
  destruct (score_engagement metrics) as [engagement |] eqn:He; [| discriminate].
  cbn [mbind option_bind]. intros [= <-].
  split; [| split].
  - intros v Hv Htruthy.
    rewrite !lookup_insert_ne by discriminate. rewrite lookup_insert_eq.
    by rewrite Hv; simpl; rewrite Htruthy.
  - intros v Hv. rewrite lookup_insert_eq. by rewrite Hv.
  - exists text, metrics, label, score, engagement.
    split; [reflexivity |]. split; [reflexivity |]. split; [exact Hs |].
    split; [exact He |].
    split; [by rewrite lookup_insert_ne by discriminate; rewrite lookup_insert_eq |].
    split; [by rewrite !lookup_insert_ne by discriminate; rewrite lookup_insert_eq |].
    split.
    + intros Hf. rewrite !lookup_insert_ne by discriminate. rewrite lookup_insert_eq.
      by rewrite Hf.
    + intros Hn. rewrite lookup_insert_eq. by rewrite Hn.
Qed.

End ExistingPost.

Lemma score_existing_post_keeps_witness :
  (∃ out,
     score_existing_post ascii_lower post_flagged = Some out ∧
     post_flagged !! "sentiment" = Some (PStr "positive") ∧
     truthy (PStr "positive") = true ∧
     out !! "sentiment" = Some (PStr "positive") ∧
     post_flagged !! "risk_flag" = Some (PBool false) ∧
     out !! "risk_flag" = Some (PBool false)) ∧
  (∃ out,
     score_existing_post ascii_lower post_plain = Some out ∧
     truthy (default PNone (post_plain !! "sentiment")) = false ∧
     post_plain !! "risk_flag" = None ∧
     out !! "sentiment" = Some (PStr "positive") ∧
     out !! "risk_flag" = Some (PBool false)).
Proof.
  split.
  - destruct (score_existing_post ascii_lower post_flagged) as [out |] eqn:E;
      [| vm_compute in E; discriminate].
    assert (post_flagged !! "sentiment" = Some (PStr "positive")) as Hs by reflexivity.
    assert (truthy (PStr "positive") = true) as Ht by reflexivity.
    assert (post_flagged !! "risk_flag" = Some (PBool false)) as Hr by reflexivity.
    exists out. split; [reflexivity |].
    split; [exact Hs |]. split; [exact Ht |].
    destruct (score_existing_post_keeps ascii_lower post_flagged out E)
      as (Hsent & Hflag & _).
    split; [exact (Hsent _ Hs Ht) |]. split; [exact Hr |]. exact (Hflag _ Hr).
  - destruct (score_existing_post ascii_lower post_plain) as [out |] eqn:E;
      [| vm_compute in E; discriminate].
    assert (truthy (default PNone (post_plain !! "sentiment")) = false) as Hf
      by reflexivity.
    assert (post_plain !! "risk_flag" = None) as Hn by reflexivity.
    exists out. split; [reflexivity |]. split; [exact Hf |]. split; [exact Hn |].
    destruct (score_existing_post_keeps ascii_lower post_plain out E)
      as (_ & _ & text & metrics & label & score & engagement
          & Htext & _ & Hlabel & _ & _ & _ & Hsent & Hflag).
    injection Htext as <-.
    assert (label = "positive"%string) as <-
      by (vm_compute in Hlabel; injection Hlabel as <- _; reflexivity).
    split; [exact (Hsent Hf) |]. exact (Hflag Hn).
Defined.

(** The flagged sample: the content says scam and avoid, yet the stored
    sentiment and risk flag survive; keywords and engagement are fresh. *)
Example score_existing_post_flagged :
  ∃ out e,
    score_existing_post ascii_lower post_flagged = Some out ∧
    out !! "sentiment" = Some (PStr "positive") ∧
    out !! "risk_flag" = Some (PBool false) ∧
    out !! "risk_keywords" = Some (PList [PStr "scam"; PStr "avoid"]) ∧
    out !! "engagement_score" = Some (PFloat e) ∧ (e == 8)%Q.
Proof.
  eexists _, _. split; [vm_compute; reflexivity |].
  repeat split; vm_compute; reflexivity.
Qed.

End Posts.

(** ** Loading the persisted state *)

Module Loading.

Section WithLower.

Variable lower : string → string.

(** [build_dashboard_json] starts from the empty shape when the file is
    missing and when it cannot be decoded, and goes on to return a
    dashboard. *)
Lemma dashboard_load_tolerant (batch : list Collect.scored_tweet) (brand : Z)
    (now today : string) (data_file : file_state Collect.document) :
  data_file = Absent ∨ data_file = Unparseable →
  Collect.load_existing data_file = Collect.empty_document ∧
  is_Some (Collect.build_dashboard_json lower batch brand now today data_file).
Proof.
  intros H. split; [by destruct H as [-> | ->] |].
  destruct (Merge.build_dashboard_json_unfold lower batch brand now today data_file)
    as (alerts & _ & ->). eauto.
Qed.

(** The posts mode starts from the empty shape when the file is missing. *)
Lemma posts_load_absent :
  Scorer.main_load lower Absent
  = Some (<["recentPosts" := PList []]> (<["accounts" := PDict ∅]> ∅)).
Proof. reflexivity. Qed.

(** C6, where the code departs from it. A pull file that exists but does
    not decode makes [process_existing] fail, and with it the first block
    of [main]: no default is substituted. *)
Theorem posts_load_malformed_raises :
  Scorer.process_existing lower Unparseable = None ∧
  Scorer.main_load lower Unparseable = None.
Proof. split; reflexivity. Qed.

End WithLower.

End Loading.

(** * Further properties of the code *)

(** ** Stable descending sort *)

Section Sorting.

Context {A : Type} (key : A → Q).

Lemma insert_desc_Permutation (x : A) (l : list A) :
  insert_desc key x l ≡ₚ x :: l.
Proof.
  induction l as [| y l IH]; simpl; [reflexivity |].
  destruct (Qle_bool (key y) (key x)); [reflexivity |].
  rewrite IH. apply Permutation_swap.
Qed.

Lemma sorted_desc_Permutation (l : list A) : sorted_desc key l ≡ₚ l.
Proof.
  induction l as [| x l IH]; simpl; [reflexivity |].
  rewrite insert_desc_Permutation. by rewrite IH.
Qed.

Lemma insert_desc_sorted (x : A) (l : list A) :
  StronglySorted (λ a b, key b <= key a)%Q l →
  StronglySorted (λ a b, key b <= key a)%Q (insert_desc key x l).
Proof.
  induction 1 as [| y l Hs IH Hy]; simpl.
  - repeat constructor.
  - destruct (Qle_bool (key y) (key x)) eqn:E.
    + apply Qle_bool_iff in E.
      constructor; [by constructor |].
      constructor; [exact E |].
      eapply Forall_impl; [exact Hy |]. intros z Hz. simpl in Hz.
      eapply Qle_trans; [exact Hz | exact E].
    + constructor; [exact IH |].
      rewrite insert_desc_Permutation. constructor; [| exact Hy].
      apply Qlt_le_weak, Qnot_le_lt. intros H.
      apply Qle_bool_iff in H. congruence.
Qed.

Lemma sorted_desc_sorted (l : list A) :
  StronglySorted (λ a b, key b <= key a)%Q (sorted_desc key l).
Proof.
  induction l as [| x l IH]; simpl; [constructor |].
  by apply insert_desc_sorted.
Qed.



End Sorting.

(** ** Scoring the collected tweets *)

Module Scoring.

Import Collect.

Lemma pyround_nd_hundredths (n : Z) :
  (pyround_nd (inject_Z n / 100) 2 == inject_Z n / 100)%Q.
Proof.
  unfold pyround_nd. change (inject_Z (10 ^ Z.of_nat 2)) with 100%Q.
  rewrite (pyround_comp (inject_Z n / 100 * 100) (inject_Z n)) by (field).
  rewrite pyround_inject_Z. reflexivity.
Qed.

Section WithLower.

Variable lower : string → string.

(** The magnitude classifier has three labels and a confidence between
    0.5 and 0.95. *)
Lemma score_sentiment_range (text : string) :
  (score_sentiment lower text).1 ∈ ["positive"; "negative"; "neutral"]%string ∧
  (0.5 <= (score_sentiment lower text).2 <= 0.95)%Q.
Proof.
  unfold score_sentiment.
  set (p := Z.of_nat (size (filter _ POSITIVE_WORDS))).
  set (n := Z.of_nat (size (filter _ NEGATIVE_WORDS))).
  assert (0 <= inject_Z p)%Q as Hp
    by (change 0%Q with (inject_Z 0); rewrite <- Zle_Qle; subst p; lia).
  assert (0 <= inject_Z n)%Q as Hn
    by (change 0%Q with (inject_Z 0); rewrite <- Zle_Qle; subst n; lia).
  clearbody p n.
  destruct (n <? p); [| destruct (p <? n)]; simpl.
  - split; [set_solver |].
    destruct (Q.min_spec (0.5 + inject_Z p * 0.15) 0.95) as [[H ->] | [H ->]];
      split; lra.
  - split; [set_solver |].
    destruct (Q.min_spec (0.5 + inject_Z n * 0.15) 0.95) as [[H ->] | [H ->]];
      split; lra.
  - split; [set_solver | split; lra].
Qed.

(** X1. [score_tweets] yields one scored tweet per tweet, in the same order
    and with the same id; each carries one of the three magnitude labels,
    a confidence between 0.5 and 0.95 also after rounding to two decimals,
    and its text is the tweet's text (empty when missing). *)
Theorem score_tweets_shape (tweets : list tweet) (users_map : gmap string user) :
  length (score_tweets lower tweets users_map) = length tweets ∧
  t_id <$> score_tweets lower tweets users_map = tw_id <$> tweets ∧
  t_text <$> score_tweets lower tweets users_map
    = (λ t, default ""%string (tw_text t)) <$> tweets ∧
  Forall (λ t, t_sentiment t ∈ ["positive"; "negative"; "neutral"]%string ∧
               (0.5 <= t_confidence t <= 0.95)%Q)
         (score_tweets lower tweets users_map).
Proof.
  unfold score_tweets.
  split; [by rewrite length_map |].
  assert (∀ t, t_id (score_tweet lower users_map t) = tw_id t ∧
               t_text (score_tweet lower users_map t) = default ""%string (tw_text t) ∧
               t_sentiment (score_tweet lower users_map t)
                 ∈ ["positive"; "negative"; "neutral"]%string ∧
               (0.5 <= t_confidence (score_tweet lower users_map t) <= 0.95)%Q) as Hone.
  { intros t. unfold score_tweet.
    pose proof (score_sentiment_range (default ""%string (tw_text t))) as [Hl [Hlo Hhi]].
    destruct (score_sentiment lower (default ""%string (tw_text t))) as [label c].
    simpl in *. do 3 (split; [done |]).
    split.
    - apply (Qle_trans _ (pyround_nd 0.5 2)); [vm_compute; discriminate |].
      by apply pyround_nd_mono.
    - apply (Qle_trans _ (pyround_nd 0.95 2)); [| vm_compute; discriminate].
      by apply pyround_nd_mono. }
  split; [| split].
  - induction tweets as [| t l IH]; [reflexivity |]. simpl.
    f_equal; [apply Hone | exact IH].
  - induction tweets as [| t l IH]; [reflexivity |]. simpl.
    f_equal; [apply Hone | exact IH].
  - apply Forall_forall. intros s Hs.
    apply list_elem_of_fmap in Hs as (t & -> & _).
    destruct (Hone t) as (_ & _ & H1 & H2). by split.
Qed.

(** X2. When the interaction counts are not negative, the reach of a
    scored tweet is at least the follower count of its author;
    a tweet whose author is not in [users_map] is attributed to
    ["@unknown"] with no followers. *)
Theorem score_tweet_reach (users_map : gmap string user) (t : tweet) :
  (map_Forall (λ _ v, 0 <= v) (default ∅ (tw_public_metrics t)) →
   t_follower_count (score_tweet lower users_map t)
     <= t_reach (score_tweet lower users_map t)) ∧
  (users_map !! default ""%string (tw_author_id t) = None →
   t_username (score_tweet lower users_map t) = "@unknown"%string ∧
   t_follower_count (score_tweet lower users_map t) = 0).
Proof.
  unfold score_tweet.
  destruct (score_sentiment lower (default ""%string (tw_text t))) as [label c].
  simpl. split.
  - intros Hm.
    assert (∀ k, 0 <= default 0 (default ∅ (tw_public_metrics t) !! k)) as Hk.
    { intros k. destruct (default ∅ (tw_public_metrics t) !! k) as [v |] eqn:E;
        simpl; [exact (Hm k v E) | lia]. }
    pose proof (Hk "retweet_count"%string). pose proof (Hk "like_count"%string).
    pose proof (Hk "reply_count"%string). pose proof (Hk "quote_count"%string).
    lia.
  - intros ->. by split.
Qed.

End WithLower.

End Scoring.

Module ScoringWitness.

Import Collect MoreSamples.

Lemma score_tweet_reach_witness :
  (map_Forall (λ _ v, 0 <= v) (default ∅ (tw_public_metrics raw_tweet)) ∧
   t_follower_count (score_tweet ascii_lower users1 raw_tweet)
     <= t_reach (score_tweet ascii_lower users1 raw_tweet)) ∧
  (users1 !! default ""%string (tw_author_id bare_tweet) = None ∧
   t_username (score_tweet ascii_lower users1 bare_tweet) = "@unknown"%string ∧
   t_follower_count (score_tweet ascii_lower users1 bare_tweet) = 0).
Proof.
  assert (map_Forall (λ _ v, 0 <= v) (default ∅ (tw_public_metrics raw_tweet))) as Hm
    by (apply (bool_decide_unpack _); vm_compute; exact I).
  assert (users1 !! default ""%string (tw_author_id bare_tweet) = None) as Hu
    by reflexivity.
  split; (split; [assumption |]).
  - exact (proj1 (Scoring.score_tweet_reach ascii_lower users1 raw_tweet) Hm).
  - exact (proj2 (Scoring.score_tweet_reach ascii_lower users1 bare_tweet) Hu).
Defined.

(** 4 retweets, 10 likes, 3 replies and 250 followers reach 325. *)
Example score_tweet_raw :
  t_reach (score_tweet ascii_lower users1 raw_tweet) = 325 ∧
  t_username (score_tweet ascii_lower users1 raw_tweet) = "@bob"%string ∧
  t_sentiment (score_tweet ascii_lower users1 raw_tweet) = "negative"%string.
Proof. vm_compute. repeat split. Qed.

End ScoringWitness.

(** ** More on the brand score *)

Module BrandMore.

Import Collect MoreSamples.

Lemma filter_all {A} (P : A → Prop) `{!∀ x, Decision (P x)} (l : list A) :
  Forall P l → filter P l = l.
Proof.
  induction 1 as [| x l Hx _ IH]; [reflexivity |].
  rewrite filter_cons_True by exact Hx. by rewrite IH.
Qed.

Lemma count_label_all (label : string) (l : list scored_tweet) :
  Forall (λ t, t_sentiment t = label) l → count_label label l = Z.of_nat (length l).
Proof. intros H. unfold count_label. by rewrite filter_all. Qed.

Lemma count_label_none (label : string) (l : list scored_tweet) :
  Forall (λ t, t_sentiment t ≠ label) l → count_label label l = 0.
Proof.
  intros H. unfold count_label. rewrite filter_none; [reflexivity |].
  intros t Ht. by apply (proj1 (Forall_forall _ _) H).
Qed.

Lemma sum_reach_Permutation (l l' : list scored_tweet) :
  l ≡ₚ l' → sum_reach l = sum_reach l'.
Proof.
  induction 1 as [| x l l' _ IH | x y l | l l' l'' _ IH1 _ IH2]; simpl; lia.
Qed.

Lemma count_label_Permutation (label : string) (l l' : list scored_tweet) :
  l ≡ₚ l' → count_label label l = count_label label l'.
Proof. intros H. unfold count_label. by rewrite H. Qed.

Lemma clamp_round (q : Q) (n : Z) :
  (q == inject_Z n)%Q → 0 <= n <= 100 → Z.max 0 (Z.min 100 (pyround q)) = n.
Proof.
  intros E Hn. rewrite (pyround_comp _ _ E), pyround_inject_Z. lia.
Qed.

Lemma length_pos_Q (l : list scored_tweet) :
  l ≠ [] → ¬ (inject_Z (Z.of_nat (length l)) == 0)%Q.
Proof.
  intros H. apply inject_Z_nonzero. destruct l; [done | simpl; lia].
Qed.

Lemma reach_denominator (s : Z) : ¬ (inject_Z (if s =? 0 then 1 else s) == 0)%Q.
Proof. apply inject_Z_nonzero. destruct (Z.eqb_spec s 0); lia. Qed.

(** X3. The extremes of the scale. A non-empty batch of only positive
    tweets scores 100 when its total reach is not 0 and 70 when it is 0; a
    batch of only negative tweets scores 0, or 30 with zero reach; a batch
    without a positive or a negative tweet scores 50. *)
Theorem compute_brand_score_extremes (batch : list scored_tweet) :
  batch ≠ [] →
  (Forall (λ t, t_sentiment t = "positive"%string) batch →
   compute_brand_score batch = Some (if sum_reach batch =? 0 then 70 else 100)) ∧
  (Forall (λ t, t_sentiment t = "negative"%string) batch →
   compute_brand_score batch = Some (if sum_reach batch =? 0 then 30 else 0)) ∧
  (Forall (λ t, t_sentiment t ≠ "positive"%string ∧ t_sentiment t ≠ "negative"%string)
          batch →
   compute_brand_score batch = Some 50).
Proof.
  intros Hne. rewrite (BrandScore.compute_brand_score_nonempty batch Hne).
  pose proof (length_pos_Q batch Hne) as HT.
  pose proof (reach_denominator (sum_reach batch)) as HR.
  split; [| split].
  - intros Hall.
    assert (Forall (λ t, t_sentiment t ≠ "negative"%string) batch) as Hnone
      by (eapply Forall_impl; [exact Hall | intros t ->; discriminate]).
    rewrite (count_label_all _ _ Hall), (count_label_none _ _ Hnone).
    rewrite (filter_all _ _ Hall), (filter_none _ batch)
      by (intros t Ht; by apply (proj1 (Forall_forall _ _) Hnone)).
    change (sum_reach []) with 0. rewrite !Z.sub_0_r. f_equal.
    destruct (Z.eqb_spec (sum_reach batch) 0) as [E | N].
    + rewrite E. apply clamp_round; [| lia].
      change (inject_Z 70) with 70%Q. change (inject_Z 0) with 0%Q.
      change (inject_Z 1) with 1%Q. field. exact HT.
    + apply clamp_round; [| lia].
      change (inject_Z 100) with 100%Q. field. split; [| exact HT].
      by apply inject_Z_nonzero.
  - intros Hall.
    assert (Forall (λ t, t_sentiment t ≠ "positive"%string) batch) as Hnone
      by (eapply Forall_impl; [exact Hall | intros t ->; discriminate]).
    rewrite (count_label_all _ _ Hall), (count_label_none _ _ Hnone).
    rewrite (filter_all _ _ Hall), (filter_none _ batch)
      by (intros t Ht; by apply (proj1 (Forall_forall _ _) Hnone)).
    change (sum_reach []) with 0. rewrite !Z.sub_0_l, !inject_Z_opp. f_equal.
    destruct (Z.eqb_spec (sum_reach batch) 0) as [E | N].
    + rewrite E. apply clamp_round; [| lia].
      change (inject_Z 30) with 30%Q. change (inject_Z 0) with 0%Q.
      change (inject_Z 1) with 1%Q. field. exact HT.
    + apply clamp_round; [| lia].
      change (inject_Z 0) with 0%Q. field. split; [| exact HT].
      by apply inject_Z_nonzero.
  - intros Hnone.
    assert (Forall (λ t, t_sentiment t ≠ "positive"%string) batch) as Hp
      by (eapply Forall_impl; [exact Hnone | by intros t [? ?]]).
    assert (Forall (λ t, t_sentiment t ≠ "negative"%string) batch) as Hn
      by (eapply Forall_impl; [exact Hnone | by intros t [? ?]]).
    rewrite (count_label_none _ _ Hp), (count_label_none _ _ Hn).
    rewrite !(filter_none _ batch)
      by (intros t Ht; first [by apply (proj1 (Forall_forall _ _) Hp)
                             | by apply (proj1 (Forall_forall _ _) Hn)]).
    change (sum_reach []) with 0. f_equal.
    apply clamp_round; [| lia].
    change (inject_Z 50) with 50%Q. change (inject_Z (0 - 0)) with 0%Q.
    field. split; [exact HR | exact HT].
Qed.

(** X4. The brand score does not depend on the order of the batch. *)
Theorem compute_brand_score_Permutation (batch batch' : list scored_tweet) :
  batch ≡ₚ batch' → compute_brand_score batch = compute_brand_score batch'.
Proof.
  intros H.
  destruct (decide (batch = [])) as [-> | Hne].
  - apply Permutation_nil_l in H. by subst.
  - assert (batch' ≠ []) as Hne'
      by (intros ->; apply Permutation_nil_r in H; contradiction).
    rewrite (BrandScore.compute_brand_score_nonempty batch Hne).
    rewrite (BrandScore.compute_brand_score_nonempty batch' Hne').
    rewrite (count_label_Permutation "positive" _ _ H).
    rewrite (count_label_Permutation "negative" _ _ H).
    rewrite (Permutation_length H).
    rewrite (sum_reach_Permutation batch batch' H).
    rewrite (sum_reach_Permutation
               (filter (λ t, t_sentiment t = "positive"%string) batch)
               (filter (λ t, t_sentiment t = "positive"%string) batch'))
      by (by rewrite H).
    rewrite (sum_reach_Permutation
               (filter (λ t, t_sentiment t = "negative"%string) batch)
               (filter (λ t, t_sentiment t = "negative"%string) batch'))
      by (by rewrite H).
    reflexivity.
Qed.

(** X5. With non-negative reach values, a batch in which positive tweets
    are at least as many as negative ones, and reach at least as far, never
    scores below 50; in the opposite situation it never scores above 50. *)
Theorem compute_brand_score_tilt (batch : list scored_tweet) :
  batch ≠ [] →
  Forall (λ t, 0 <= t_reach t) batch →
  ∃ n,
    compute_brand_score batch = Some n ∧
    (count_label "negative" batch <= count_label "positive" batch →
     sum_reach (filter (λ t, t_sentiment t = "negative"%string) batch)
       <= sum_reach (filter (λ t, t_sentiment t = "positive"%string) batch) →
     50 <= n) ∧
    (count_label "positive" batch <= count_label "negative" batch →
     sum_reach (filter (λ t, t_sentiment t = "positive"%string) batch)
       <= sum_reach (filter (λ t, t_sentiment t = "negative"%string) batch) →
     n <= 50).
Proof.
  intros Hne Hreach.
  rewrite (BrandScore.compute_brand_score_nonempty batch Hne).
  eexists. split; [reflexivity |].
  set (c := count_label "positive" batch - count_label "negative" batch).
  set (r := sum_reach (filter (λ t, t_sentiment t = "positive"%string) batch)
            - sum_reach (filter (λ t, t_sentiment t = "negative"%string) batch)).
  set (T := Z.of_nat (length batch)).
  set (R := if sum_reach batch =? 0 then 1 else sum_reach batch).
  assert (0 < T) as HT by (subst T; destruct batch; [done | simpl; lia]).
  assert (0 < R) as HR.
  { pose proof (BrandScore.sum_reach_nonneg batch Hreach).
    subst R. destruct (Z.eqb_spec (sum_reach batch) 0); lia. }
  assert (0 < / inject_Z T)%Q as HTi
    by (apply Qinv_lt_0_compat; change 0%Q with (inject_Z 0); by rewrite <- Zlt_Qlt).
  assert (0 < / inject_Z R)%Q as HRi
    by (apply Qinv_lt_0_compat; change 0%Q with (inject_Z 0); by rewrite <- Zlt_Qlt).
  assert (pyround 50%Q = 50) as E50 by reflexivity.
  unfold Qdiv.
  split.
  - intros Hc Hr.
    assert (0 <= inject_Z c * / inject_Z T)%Q as H1.
    { apply Qmult_le_0_compat; [| by apply Qlt_le_weak].
      change 0%Q with (inject_Z 0). rewrite <- Zle_Qle. subst c. lia. }
    assert (0 <= inject_Z r * / inject_Z R)%Q as H2.
    { apply Qmult_le_0_compat; [| by apply Qlt_le_weak].
      change 0%Q with (inject_Z 0). rewrite <- Zle_Qle. subst r. lia. }
    assert (50 <= (inject_Z c * / inject_Z T * 50 + 50) * 0.4
                  + (inject_Z r * / inject_Z R * 50 + 50) * 0.6)%Q as Hle by lra.
    apply pyround_mono in Hle. rewrite E50 in Hle. lia.
  - intros Hc Hr.
    assert (inject_Z c * / inject_Z T <= 0)%Q as H1.
    { rewrite <- (Qmult_0_l (/ inject_Z T)).
      apply Qmult_le_compat_r; [| by apply Qlt_le_weak].
      change 0%Q with (inject_Z 0). rewrite <- Zle_Qle. subst c. lia. }
    assert (inject_Z r * / inject_Z R <= 0)%Q as H2.
    { rewrite <- (Qmult_0_l (/ inject_Z R)).
      apply Qmult_le_compat_r; [| by apply Qlt_le_weak].
      change 0%Q with (inject_Z 0). rewrite <- Zle_Qle. subst r. lia. }
    assert ((inject_Z c * / inject_Z T * 50 + 50) * 0.4
            + (inject_Z r * / inject_Z R * 50 + 50) * 0.6 <= 50)%Q as Hle by lra.
    apply pyround_mono in Hle. rewrite E50 in Hle. lia.
Qed.

Lemma compute_brand_score_extremes_witness :
  (batch_fans ≠ [] ∧
   Forall (λ t, t_sentiment t = "positive"%string) batch_fans ∧
   compute_brand_score batch_fans = Some 100) ∧
  (batch_critics ≠ [] ∧
   Forall (λ t, t_sentiment t = "negative"%string) batch_critics ∧
   compute_brand_score batch_critics = Some 30) ∧
  (batch_bystanders ≠ [] ∧
   Forall (λ t, t_sentiment t ≠ "positive"%string ∧ t_sentiment t ≠ "negative"%string)
          batch_bystanders ∧
   compute_brand_score batch_bystanders = Some 50).
Proof.
  assert (batch_fans ≠ []) as N1 by discriminate.
  assert (batch_critics ≠ []) as N2 by discriminate.
  assert (batch_bystanders ≠ []) as N3 by discriminate.
  assert (Forall (λ t, t_sentiment t = "positive"%string) batch_fans) as F1
    by (repeat constructor).
  assert (Forall (λ t, t_sentiment t = "negative"%string) batch_critics) as F2
    by (repeat constructor).
  assert (Forall (λ t, t_sentiment t ≠ "positive"%string
                       ∧ t_sentiment t ≠ "negative"%string) batch_bystanders) as F3
    by (repeat constructor; discriminate).
  split; [| split]; (split; [assumption |]); (split; [assumption |]).
  - exact (proj1 (compute_brand_score_extremes batch_fans N1) F1).
  - exact (proj1 (proj2 (compute_brand_score_extremes batch_critics N2)) F2).
  - exact (proj2 (proj2 (compute_brand_score_extremes batch_bystanders N3)) F3).
Defined.

Lemma compute_brand_score_Permutation_witness :
  reverse Samples.batch3 ≡ₚ Samples.batch3 ∧
  compute_brand_score (reverse Samples.batch3) = compute_brand_score Samples.batch3.
Proof.
  pose proof (reverse_Permutation Samples.batch3) as H.
  split; [exact H |].
  exact (compute_brand_score_Permutation _ _ H).
Defined.

Lemma compute_brand_score_tilt_witness :
  (batch_up ≠ [] ∧ Forall (λ t, 0 <= t_reach t) batch_up ∧
   ∃ n, compute_brand_score batch_up = Some n ∧ 50 <= n) ∧
  (batch_down ≠ [] ∧ Forall (λ t, 0 <= t_reach t) batch_down ∧
   ∃ n, compute_brand_score batch_down = Some n ∧ n <= 50).
Proof.
  assert (batch_up ≠ []) as N1 by discriminate.
  assert (batch_down ≠ []) as N2 by discriminate.
  assert (Forall (λ t, 0 <= t_reach t) batch_up) as R1
    by (repeat constructor; simpl; lia).
  assert (Forall (λ t, 0 <= t_reach t) batch_down) as R2
    by (repeat constructor; simpl; lia).
  split; (split; [assumption |]); (split; [assumption |]).
  - destruct (compute_brand_score_tilt batch_up N1 R1) as (n & Hn & Hup & _).
    exists n. split; [exact Hn |].
    apply Hup; vm_compute; discriminate.
  - destruct (compute_brand_score_tilt batch_down N2 R2) as (n & Hn & _ & Hdown).
    exists n. split; [exact Hn |].
    apply Hdown; vm_compute; discriminate.
Defined.

Example brand_score_tilt_samples :
  compute_brand_score batch_up = Some 90 ∧ compute_brand_score batch_down = Some 19.
Proof. vm_compute. split; reflexivity. Qed.

End BrandMore.

(** ** Top mentions, alert triggers and the run of the collector *)

Module Snapshot.

Import Collect Readings.



Section WithLower.

Variable lower : string → string.


Lemma ratio_above (replies likes : Z) (num den : positive) :
  0 < likes →
  Qltb (Z.pos num # den) (inject_Z replies / inject_Z likes) = true
  ↔ Z.pos num * likes < Z.pos den * replies.
Proof.
  intros Hl. rewrite Sentiment.Qltb_lt.
  destruct likes as [| l | l]; try lia.
  unfold Qlt, Qdiv, Qmult, Qinv, inject_Z. simpl. lia.
Qed.

(** X7. When a tweet raises an alert. [detect_alert] never fails; with
    [likes] and [replies] the two counts read from the metrics (0 when
    missing), a tweet raises an alert exactly when [likes > 0] and
    [20 * replies > 3 * likes], or it is negative with a reach above 50000,
    or a conspiracy keyword occurs in its text; the alert is HIGH exactly
    when [likes > 0] and [4 * replies > likes], or a conspiracy keyword
    occurs, and MEDIUM otherwise. Without likes the replies never count. *)
Theorem detect_alert_triggers (today : string) (t : scored_tweet) :
  ∃ r,
    detect_alert lower today t = Some r ∧
    (is_Some r ↔
       (0 < likes_of t ∧ 3 * likes_of t < 20 * replies_of t)
       ∨ (t_sentiment t = "negative"%string ∧ 50000 < t_reach t)
       ∨ mentions_conspiracy lower t) ∧
    (∀ a, r = Some a →
       (a !! "severity" = Some (PStr "HIGH") ↔
          (0 < likes_of t ∧ likes_of t < 4 * replies_of t)
          ∨ mentions_conspiracy lower t) ∧
       (a !! "severity" ≠ Some (PStr "HIGH") →
        a !! "severity" = Some (PStr "MEDIUM"))).
Proof.
  unfold detect_alert, reply_like_ratio, mentions_conspiracy, likes_of, replies_of.
  set (likes := default 0 (t_metrics t !! "like_count")).
  set (replies := default 0 (t_metrics t !! "reply_count")).
  set (hc := existsb (λ kw, contains kw (lower (t_text t))) conspiracy_keywords).
  assert (hc = true ↔ ∃ kw, kw ∈ conspiracy_keywords
                            ∧ contains kw (lower (t_text t)) = true) as Hhc.
  { subst hc. rewrite existsb_exists. split; intros (kw & H1 & H2); exists kw.
    - split; [by apply list_elem_of_In | done].
    - split; [by apply list_elem_of_In | done]. }
  assert (bool_decide (t_sentiment t = "negative"%string) && (50000 <? t_reach t) = true
          ↔ t_sentiment t = "negative"%string ∧ 50000 < t_reach t) as Hneg.
  { rewrite andb_true_iff, bool_decide_eq_true, Z.ltb_lt. reflexivity. }
  destruct (Z.ltb_spec 0 likes) as [Hl | Hl].
  - rewrite pydiv_Some by lia. cbn [mbind option_bind].
    pose proof (ratio_above replies likes 15 100 Hl) as H15.
    pose proof (ratio_above replies likes 25 100 Hl) as H25.
    change (Z.pos 15 # 100) with 0.15%Q in H15.
    change (Z.pos 25 # 100) with 0.25%Q in H25.
    set (ratio := (inject_Z replies / inject_Z likes)%Q) in *.
    destruct (Qltb 0.15 ratio || _ || hc) eqn:E; eexists; (split; [reflexivity |]).
    + split.
      * split; [intros _ | eauto].
        apply orb_true_iff in E as [E | E]; [apply orb_true_iff in E as [E | E] |].
        -- left. split; [done |]. apply H15 in E. lia.
        -- right. left. by apply Hneg.
        -- right. right. by apply Hhc.
      * intros a [= <-]. unfold make_alert. rewrite lookup_insert_eq.
        split.
        -- destruct (Qltb 0.25 ratio || hc) eqn:E2.
           ++ split; [intros _ | done].
              apply orb_true_iff in E2 as [E2 | E2].
              ** left. split; [done |]. apply H25 in E2. lia.
              ** right. by apply Hhc.
           ++ split; [discriminate |].
              apply orb_false_iff in E2 as [E2 E3].
              intros [[_ H] | H].
              ** assert (Qltb 0.25 ratio = true) by (apply H25; lia). congruence.
              ** apply Hhc in H. congruence.
        -- by destruct (Qltb 0.25 ratio || hc).
    + split; [| discriminate].
      apply orb_false_iff in E as [E E3]. apply orb_false_iff in E as [E1 E2].
      split; [intros [? [=]] |].
      intros [[_ H] | [H | H]].
      * assert (Qltb 0.15 ratio = true) by (apply H15; lia). congruence.
      * apply Hneg in H. congruence.
      * apply Hhc in H. congruence.
  - cbn [mbind option_bind].
    change (Qltb 0.15 0) with false. change (Qltb 0.25 0) with false.
    cbn [orb].
    destruct (_ && _ || hc) eqn:E; eexists; (split; [reflexivity |]).
    + split.
      * split; [intros _ | eauto].
        apply orb_true_iff in E as [E | E].
        -- right. left. by apply Hneg.
        -- right. right. by apply Hhc.
      * intros a [= <-]. unfold make_alert. rewrite lookup_insert_eq. cbn [orb].
        split.
        -- destruct hc eqn:E2.
           ++ split; [intros _ | done]. right. by apply Hhc.
           ++ split; [discriminate |]. intros [[H _] | H]; [lia |].
              apply Hhc in H. congruence.
        -- by destruct hc.
    + split; [| discriminate].
      apply orb_false_iff in E as [E1 E2].
      split; [intros [? [=]] |].
      intros [[H _] | [H | H]]; [lia | |].
      * apply Hneg in H. congruence.
      * apply Hhc in H. congruence.
Qed.

End WithLower.

End Snapshot.

Module Run.

Import Collect MoreSamples.

Section WithLower.

Variable lower : string → string.

Lemma scan_alerts_length (today : string) (batch : list scored_tweet)
    (prior merged : list (gmap string pyval)) :
  scan_alerts lower today batch prior = Some merged →
  (length merged ≤ length prior + length batch)%nat.
Proof.
  revert prior. induction batch as [| t rest IH]; intros prior; simpl.
  - intros [= <-]. lia.
  - destruct (detect_alert lower today t) as [[alert |] |]; simpl; [| | discriminate].
    + intros H. apply IH in H. unfold append_alert in H.
      destruct (existsb _ prior); [lia |]. rewrite length_app in H. simpl in H. lia.
    + intros H. apply IH in H. lia.
Qed.

(** X8. Alerts are only ever dropped by the cap. A batch that raises no
    alert leaves the last 50 persisted alerts; and when the persisted
    alerts and the tweets of the batch together are at most 50, the
    persisted alerts stay in front, in order, and the key of every alert
    raised by the batch is in the list. *)
Theorem risk_alerts_kept (batch : list scored_tweet) (brand : Z)
    (now today : string) (data_file : file_state document) :
  ∃ d,
    build_dashboard_json lower batch brand now today data_file = Some d ∧
    ((∀ t, t ∈ batch → detect_alert lower today t = Some None) →
     d_riskAlerts d
       = last_n 50 (default [] (doc_riskAlerts (load_existing data_file)))) ∧
    ((length (default [] (doc_riskAlerts (load_existing data_file)))
      + length batch ≤ 50)%nat →
     default [] (doc_riskAlerts (load_existing data_file))
       `prefix_of` d_riskAlerts d ∧
     ∀ t a, t ∈ batch → detect_alert lower today t = Some (Some a) →
            alert_post t ∈ Spec.alert_keys (d_riskAlerts d)).
Proof.
  destruct (Merge.build_dashboard_json_unfold lower batch brand now today data_file)
    as (alerts & Hscan & Hd).
  pose proof (scan_alerts_length _ _ _ _ Hscan) as Hlen.
  destruct (Merge.scan_alerts_spec lower today batch _ alerts Hscan)
    as (added & -> & Hadd & _ & Hall).
  eexists. split; [exact Hd |]. simpl. split.
  - intros Hnone. destruct added as [| a added]; [by rewrite app_nil_r |].
    destruct (Hadd a) as (t & Ht & Hdet & _); [by left |].
    rewrite (Hnone t Ht) in Hdet. discriminate.
  - intros Hcap. rewrite last_n_all by lia.
    split; [by apply prefix_app_r |]. exact Hall.
Qed.


End WithLower.

Lemma risk_alerts_kept_witness :
  ∃ d,
    build_dashboard_json ascii_lower Samples.batch_alerts 47 "t1" "2026-01-02"
      (Parsed Samples.doc2) = Some d ∧
    (length (default [] (doc_riskAlerts (load_existing (Parsed Samples.doc2))))
     + length Samples.batch_alerts ≤ 50)%nat ∧
    default [] (doc_riskAlerts (load_existing (Parsed Samples.doc2)))
      `prefix_of` d_riskAlerts d ∧
    (∀ t, t ∈ Samples.batch3 → detect_alert ascii_lower "2026-01-02" t = Some None) ∧
    d_riskAlerts <$> build_dashboard_json ascii_lower Samples.batch3 59 "t1"
                       "2026-01-02" (Parsed Samples.doc2)
      = Some (last_n 50 (default [] (doc_riskAlerts
                                       (load_existing (Parsed Samples.doc2))))).
Proof.
  assert ((length (default [] (doc_riskAlerts (load_existing (Parsed Samples.doc2))))
           + length Samples.batch_alerts ≤ 50)%nat) as Hcap by (simpl; lia).
  assert (∀ t, t ∈ Samples.batch3 →
               detect_alert ascii_lower "2026-01-02" t = Some None) as Hnone.
  { intros t Ht. unfold Samples.batch3 in Ht.
    repeat (apply elem_of_cons in Ht as [-> | Ht]); [.. | by apply elem_of_nil in Ht];
      vm_compute; reflexivity. }
  destruct (risk_alerts_kept ascii_lower Samples.batch_alerts 47 "t1" "2026-01-02"
              (Parsed Samples.doc2)) as (d & Hd & _ & Hkeep).
  exists d. split; [exact Hd |]. split; [exact Hcap |].
  split; [exact (proj1 (Hkeep Hcap)) |]. split; [exact Hnone |].
  destruct (risk_alerts_kept ascii_lower Samples.batch3 59 "t1" "2026-01-02"
              (Parsed Samples.doc2)) as (d' & -> & Hquiet & _).
  simpl. f_equal. exact (Hquiet Hnone).
Defined.


End Run.

(** ** Collecting tweets and loading the token *)

Module Collection.

Import Collect Collector MoreSamples.

(** The tweets found by a query, tagged with it. *)
Lemma collect_step_tweets (search : string → option search_result)
    (qs : list string) (acc : list (string * tweet) * gmap string user) :
  ∀ q t, (q, t) ∈ (foldl (collect_step search) acc qs).1 ↔
         (q, t) ∈ acc.1 ∨
         (q ∈ qs ∧ ∃ r, search q = Some r ∧ t ∈ default [] (sr_data r)).
Proof.
  revert acc. induction qs as [| q0 qs IH]; intros acc q t; simpl.
  - split; [by left |]. intros [H | [H _]]; [done | by apply elem_of_nil in H].
  - rewrite IH. unfold collect_step.
    destruct (search q0) as [r0 |] eqn:E0; simpl.
    + rewrite elem_of_app, list_elem_of_fmap. split.
      * intros [[H | (t' & [= -> ->] & Ht')] | (Hq & r & Hr & Ht)].
        -- by left.
        -- right. split; [by left |]. by exists r0.
        -- right. split; [by right |]. by exists r.
      * intros [H | (Hq & r & Hr & Ht)]; [by left; left |].
        apply elem_of_cons in Hq as [-> | Hq].
        -- left. right. exists t. split; [done |]. congruence.
        -- right. split; [done |]. by exists r.
    + split.
      * intros [H | (Hq & r & Hr & Ht)]; [by left |].
        right. split; [by right |]. by exists r.
      * intros [H | (Hq & r & Hr & Ht)]; [by left |].
        apply elem_of_cons in Hq as [-> | Hq]; [congruence |].
        right. split; [done |]. by exists r.
Qed.

(** What the loop over [all_tweets] keeps. *)
Lemma dedupe_spec (seen : gset string) (l : list (string * tweet)) :
  NoDup ((λ x, tw_id x.2) <$> dedupe seen l) ∧
  dedupe seen l `sublist_of` l ∧
  (∀ x, x ∈ dedupe seen l →
        (tw_id x.2 ∉ seen) ∧
        ∃ l1 l2, l = l1 ++ x :: l2 ∧ tw_id x.2 ∉ ((λ y, tw_id y.2) <$> l1)) ∧
  (∀ x, x ∈ l → tw_id x.2 ∈ seen ∨ tw_id x.2 ∈ ((λ y, tw_id y.2) <$> dedupe seen l)).
Proof.
  revert seen. induction l as [| t rest IH]; intros seen; simpl.
  - split; [constructor |]. split; [constructor |].
    split; intros x Hx; by apply elem_of_nil in Hx.
  - destruct (decide (tw_id t.2 ∈ seen)) as [Hin | Hnin].
    + destruct (IH seen) as (Hnd & Hsub & Hfirst & Hall).
      split; [exact Hnd |]. split; [by apply sublist_cons |].
      split.
      * intros x Hx. destruct (Hfirst x Hx) as (Hns & l1 & l2 & -> & Hl1).
        split; [exact Hns |]. exists (t :: l1), l2. split; [reflexivity |].
        rewrite fmap_cons, not_elem_of_cons. split; [congruence | exact Hl1].
      * intros x Hx. apply elem_of_cons in Hx as [-> | Hx]; [by left | by apply Hall].
    + destruct (IH ({[tw_id t.2]} ∪ seen)) as (Hnd & Hsub & Hfirst & Hall).
      split.
      { rewrite fmap_cons. constructor; [| exact Hnd].
        intros Hdup. apply list_elem_of_fmap in Hdup as (y & Hid & Hy).
        destruct (Hfirst y Hy) as (Hns & _). apply Hns. rewrite Hid.
        apply elem_of_union. left. by apply elem_of_singleton. }
      split; [by apply sublist_skip |].
      split.
      * intros x Hx. apply elem_of_cons in Hx as [-> | Hx].
        -- split; [exact Hnin |]. exists [], rest. split; [reflexivity |].
           apply not_elem_of_nil.
        -- destruct (Hfirst x Hx) as (Hns & l1 & l2 & -> & Hl1).
           split; [intros H; apply Hns, elem_of_union; by right |].
           exists (t :: l1), l2. split; [reflexivity |].
           rewrite fmap_cons, not_elem_of_cons. split; [| exact Hl1].
           intros H. apply Hns, elem_of_union. left. by apply elem_of_singleton.
      * intros x Hx. rewrite fmap_cons.
        apply elem_of_cons in Hx as [-> | Hx]; [right; by left |].
        destruct (Hall x Hx) as [H | H]; [| right; by right].
        apply elem_of_union in H as [H | H]; [| by left].
        apply elem_of_singleton in H. right. rewrite H. by left.
Qed.

Lemma collected_from_search (search : string → option search_result) :
  ∀ q t, (q, t) ∈ (collect_all search).1 →
         q ∈ queries ∧ ∃ r, search q = Some r ∧ t ∈ default [] (sr_data r).
Proof.
  intros q t Hqt. unfold collect_all in Hqt. simpl in Hqt.
  destruct (dedupe_spec ∅ (foldl (collect_step search) ([], ∅) queries).1)
    as (_ & Hsub & _).
  pose proof (elem_of_sublist _ _ _ Hqt Hsub) as Hin.
  apply collect_step_tweets in Hin as [Hin | Hin]; [by apply elem_of_nil in Hin | done].
Qed.

(** X10. [collect_all] returns every collected tweet once: a tweet is
    returned only if some query that succeeded lists it, tagged with that
    query; every id some query lists is returned; no id is returned twice;
    the order of collection is kept, and of several tweets with the same
    id the first one collected is the one returned. *)
Theorem collect_all_unique (search : string → option search_result) :
  (∀ q t, (q, t) ∈ (collect_all search).1 →
          q ∈ queries ∧ ∃ r, search q = Some r ∧ t ∈ default [] (sr_data r)) ∧
  (∀ q r t, q ∈ queries → search q = Some r → t ∈ default [] (sr_data r) →
            tw_id t ∈ ((λ x, tw_id x.2) <$> (collect_all search).1)) ∧
  NoDup ((λ x, tw_id x.2) <$> (collect_all search).1) ∧
  (collect_all search).1 `sublist_of` (foldl (collect_step search) ([], ∅) queries).1 ∧
  (∀ x, x ∈ (collect_all search).1 →
        ∃ l1 l2, (foldl (collect_step search) ([], ∅) queries).1 = l1 ++ x :: l2 ∧
                 tw_id x.2 ∉ ((λ y, tw_id y.2) <$> l1)).
Proof.
  pose proof (collected_from_search search) as Hfrom.
  unfold collect_all in *. simpl in *.
  set (all := (foldl (collect_step search) ([], ∅) queries).1) in *.
  destruct (dedupe_spec ∅ all) as (Hnd & Hsub & Hfirst & Hall).
  split; [exact Hfrom |].
  split; [| split; [exact Hnd | split; [exact Hsub |]]].
  - intros q r t Hq Hr Ht.
    assert ((q, t) ∈ all) as Hin
      by (apply collect_step_tweets; right; split; [done | by exists r]).
    destruct (Hall _ Hin) as [H | H]; [by apply not_elem_of_empty in H | exact H].
  - intros x Hx. by destruct (Hfirst x Hx) as (_ & H).
Qed.

(** X11. When every query fails or comes back without tweets, nothing is
    collected and the run leaves the data file as it is. *)
Theorem collect_nothing_writes_nothing (lower : string → string)
    (search : string → option search_result) (now today : string)
    (data_file : file_state document) :
  (∀ q, q ∈ queries →
        search q = None ∨ ∃ r, search q = Some r ∧ default [] (sr_data r) = []) →
  (collect_all search).1 = [] ∧
  main lower ((collect_all search).1.*2) (collect_all search).2 now today data_file
    = Some data_file.
Proof.
  intros Hq.
  assert ((collect_all search).1 = []) as E.
  { destruct ((collect_all search).1) as [| [q t] l] eqn:E; [reflexivity | exfalso].
    destruct (collected_from_search search q t) as (Hin & r & Hr & Ht).
    - rewrite E. by left.
    - destruct (Hq q Hin) as [Hn | (r' & Hr' & He)]; [congruence |].
      assert (r' = r) as -> by congruence. rewrite He in Ht.
      by apply elem_of_nil in Ht. }
  split; [exact E |]. by rewrite E.
Qed.

Lemma collect_nothing_writes_nothing_witness :
  (∀ q, q ∈ queries →
        search_down q = None
        ∨ ∃ r, search_down q = Some r ∧ default [] (sr_data r) = []) ∧
  (collect_all search_down).1 = [] ∧
  main ascii_lower ((collect_all search_down).1.*2) (collect_all search_down).2
       "t1" "2026-01-02" (Parsed Samples.doc2)
    = Some (Parsed Samples.doc2).
Proof.
  assert (∀ q, q ∈ queries →
               search_down q = None
               ∨ ∃ r, search_down q = Some r ∧ default [] (sr_data r) = []) as H
    by (intros q _; by left).
  split; [exact H |].
  exact (collect_nothing_writes_nothing ascii_lower search_down "t1" "2026-01-02"
           (Parsed Samples.doc2) H).
Defined.

(** Tweet 1001 is found by the first and the third query and kept once,
    under the first. *)
Example collect_all_search1 :
  (λ x, (x.1, tw_id x.2)) <$> (collect_all search1).1
  = [("@rainmakercorp -is:retweet", "1001"); ("@rainmakercorp -is:retweet", "1002");
     (dq +:+ "rain maker" +:+ dq +:+ " OR " +:+ dq +:+ "rainmaker corp" +:+ dq
         +:+ " OR " +:+ dq +:+ "cloud seeding" +:+ dq +:+ " -is:retweet", "1003")]%string.
Proof. vm_compute. reflexivity. Qed.

Lemma insert_users (l : list (string * user)) (m : gmap string user) (id : string) :
  (∀ u, foldl (λ m u, <[u.1 := u.2]> m) m l !! id = Some u →
        m !! id = Some u ∨ (id, u) ∈ l) ∧
  (is_Some (m !! id) ∨ (∃ u, (id, u) ∈ l) →
   is_Some (foldl (λ m u, <[u.1 := u.2]> m) m l !! id)).
Proof.
  revert m. induction l as [| [i v] l IH]; intros m; simpl.
  - split; [by left |]. intros [H | [u H]]; [done | by apply elem_of_nil in H].
  - destruct (IH (<[i := v]> m)) as [IH1 IH2]. split.
    + intros u Hu. destruct (IH1 u Hu) as [H | H]; [| right; by right].
      destruct (decide (i = id)) as [-> | Hne].
      * rewrite lookup_insert_eq in H. injection H as ->. right. by left.
      * rewrite lookup_insert_ne in H by done. by left.
    + intros H. apply IH2.
      destruct (decide (i = id)) as [-> | Hne].
      * left. rewrite lookup_insert_eq. eauto.
      * rewrite lookup_insert_ne by done.
        destruct H as [H | [u H]]; [by left | right].
        apply elem_of_cons in H as [[= ? ?] | H]; [congruence | by exists u].
Qed.

Lemma collect_step_users (search : string → option search_result)
    (qs : list string) (acc : list (string * tweet) * gmap string user) (id : string) :
  (∀ u, (foldl (collect_step search) acc qs).2 !! id = Some u →
        acc.2 !! id = Some u ∨
        ∃ q r, q ∈ qs ∧ search q = Some r ∧ (id, u) ∈ default [] (sr_users r)) ∧
  (is_Some (acc.2 !! id)
   ∨ (∃ q r u, q ∈ qs ∧ search q = Some r ∧ (id, u) ∈ default [] (sr_users r)) →
   is_Some ((foldl (collect_step search) acc qs).2 !! id)).
Proof.
  revert acc. induction qs as [| q0 qs IH]; intros acc; simpl.
  - split; [by left |].
    intros [H | (q & r & u & H & _)]; [done | by apply elem_of_nil in H].
  - destruct (IH (collect_step search acc q0)) as [IH1 IH2].
    destruct (search q0) as [r0 |] eqn:E0.
    + assert ((collect_step search acc q0).2
              = foldl (λ m u, <[u.1 := u.2]> m) acc.2 (default [] (sr_users r0))) as Es
        by (unfold collect_step; by rewrite E0).
      rewrite Es in IH1, IH2.
      destruct (insert_users (default [] (sr_users r0)) acc.2 id) as [I1 I2]. split.
      * intros u Hu. destruct (IH1 u Hu) as [H | (q & r & Hq & Hr & Hin)].
        -- destruct (I1 u H) as [H' | H']; [by left | right].
           exists q0, r0. split; [by left | done].
        -- right. exists q, r. split; [by right | done].
      * intros H. apply IH2.
        destruct H as [H | (q & r & u & Hq & Hr & Hin)].
        -- left. apply I2. by left.
        -- apply elem_of_cons in Hq as [-> | Hq].
           ++ left. apply I2. right. exists u. congruence.
           ++ right. by exists q, r, u.
    + assert (collect_step search acc q0 = acc) as Es
        by (unfold collect_step; by rewrite E0).
      rewrite Es in IH1, IH2 |- *. split.
      * intros u Hu. destruct (IH1 u Hu) as [H | (q & r & Hq & Hr & Hin)]; [by left |].
        right. exists q, r. split; [by right | done].
      * intros H. apply IH2.
        destruct H as [H | (q & r & u & Hq & Hr & Hin)]; [by left |].
        apply elem_of_cons in Hq as [-> | Hq]; [congruence |].
        right. by exists q, r, u.
Qed.

(** X12. The users map returned by [collect_all] holds exactly the users
    that the successful queries included: every entry is a user some query
    listed under that id, and every listed id has an entry. *)
Theorem collect_all_users (search : string → option search_result) (id : string) :
  (∀ u, (collect_all search).2 !! id = Some u →
        ∃ q r, q ∈ queries ∧ search q = Some r ∧ (id, u) ∈ default [] (sr_users r)) ∧
  (∀ q r u, q ∈ queries → search q = Some r → (id, u) ∈ default [] (sr_users r) →
            is_Some ((collect_all search).2 !! id)).
Proof.
  unfold collect_all. simpl.
  destruct (collect_step_users search queries ([], ∅) id) as [H1 H2]. split.
  - intros u Hu. destruct (H1 u Hu) as [H | H]; [| exact H].
    simpl in H. by rewrite lookup_empty in H.
  - intros q r u Hq Hr Hin. apply H2. right. by exists q, r, u.
Qed.

(** *** The token *)

Lemma find_first (P : string → bool) (pre post : list string) (line : string) :
  Forall (λ l, P l = false) pre → P line = true →
  List.find P (pre ++ line :: post) = Some line.
Proof.
  intros Hpre Hline. induction Hpre as [| l pre Hl _ IH]; simpl.
  - by rewrite Hline.
  - by rewrite Hl.
Qed.

Lemma find_none (P : string → bool) (lines : list string) :
  Forall (λ l, P l = false) lines → List.find P lines = None.
Proof.
  induction 1 as [| l lines Hl _ IH]; simpl; [reflexivity |]. by rewrite Hl.
Qed.

Section Token.

Variable strip : string → string.

(** X13. The token is the stripped text after the key on the first line of
    [.env] that starts with the key, whatever the environment holds; the
    environment variable is used only when there is no file or no such
    line. So a line with the key and nothing after it makes the script
    refuse to start even when the environment variable is set. *)
Theorem load_token_precedence (environ : option string) :
  (∀ pre post value,
     Forall (λ l, String.prefix "TWITTER_BEARER_TOKEN=" l = false) pre →
     load_token strip (Some (pre ++ ("TWITTER_BEARER_TOKEN=" +:+ value) :: post)) environ
       = Some (strip value)) ∧
  (∀ lines,
     Forall (λ l, String.prefix "TWITTER_BEARER_TOKEN=" l = false) lines →
     load_token strip (Some lines) environ = environ) ∧
  load_token strip None environ = environ ∧
  (strip "" = ""%string →
   ∀ pre post,
     Forall (λ l, String.prefix "TWITTER_BEARER_TOKEN=" l = false) pre →
     token_accepted strip (Some (pre ++ "TWITTER_BEARER_TOKEN="%string :: post)) environ
       = false).
Proof.
  assert (∀ value, String.prefix "TWITTER_BEARER_TOKEN="
                     ("TWITTER_BEARER_TOKEN=" +:+ value) = true) as Hkey
    by (intros value; by destruct value).
  assert (∀ pre post value,
            Forall (λ l, String.prefix "TWITTER_BEARER_TOKEN=" l = false) pre →
            load_token strip
              (Some (pre ++ ("TWITTER_BEARER_TOKEN=" +:+ value) :: post)) environ
            = Some (strip value)) as Hfirst.
  { intros pre post value Hpre. unfold load_token. simpl.
    rewrite (find_first _ pre post _ Hpre (Hkey value)). reflexivity. }
  split; [exact Hfirst |]. split; [| split].
  - intros lines Hl. unfold load_token. simpl. by rewrite (find_none _ _ Hl).
  - reflexivity.
  - intros Hstrip pre post Hpre. unfold token_accepted.
    pose proof (Hfirst pre post ""%string Hpre) as H.
    change ("TWITTER_BEARER_TOKEN=" +:+ "") with "TWITTER_BEARER_TOKEN="%string in H.
    rewrite H. by rewrite Hstrip.
Qed.

End Token.

Lemma load_token_precedence_witness :
  Forall (λ l, String.prefix "TWITTER_BEARER_TOKEN=" l = false) env_head ∧
  load_token ascii_strip
    (Some (env_head ++ "TWITTER_BEARER_TOKEN=  abc=def "%string :: env_tail))
    (Some "from-env"%string) = Some (ascii_strip "  abc=def ") ∧
  load_token ascii_strip (Some env_head) (Some "from-env"%string)
    = Some "from-env"%string ∧
  ascii_strip "" = ""%string ∧
  token_accepted ascii_strip
    (Some (env_head ++ "TWITTER_BEARER_TOKEN="%string :: env_tail))
    (Some "from-env"%string) = false.
Proof.
  assert (Forall (λ l, String.prefix "TWITTER_BEARER_TOKEN=" l = false) env_head)
    as Hpre by (repeat constructor).
  assert (ascii_strip "" = ""%string) as Hstrip by reflexivity.
  destruct (load_token_precedence ascii_strip (Some "from-env"%string))
    as (Hfirst & Hnone & _ & Hempty).
  split; [exact Hpre |].
  split; [exact (Hfirst _ env_tail "  abc=def "%string Hpre) |].
  split; [exact (Hnone _ Hpre) |].
  split; [exact Hstrip |].
  exact (Hempty Hstrip _ env_tail Hpre).
Defined.

Example ascii_strip_samples :
  ascii_strip "  abc=def " = "abc=def"%string ∧
  after_equals "TWITTER_BEARER_TOKEN=a=b" = "a=b"%string.
Proof. split; reflexivity. Qed.

End Collection.

(** ** Reach, risk keywords and engagement in scorer.py *)

Module ScorerMore.

Import Scorer Mentions.

(** X14. The reach multiplier is one of 1, 1.5, 2 and 3, steps up at 1000,
    10000 and 100000 followers and never goes down as followers grow; on
    an integer the dynamically typed reading agrees with it. *)
Theorem score_reach_steps (a b : Z) :
  (a <= b → (score_reach a <= score_reach b)%Q) ∧
  score_reach a ∈ [1%Q; 1.5%Q; 2%Q; 3%Q] ∧
  (score_reach a = 1%Q ↔ a < 1000) ∧
  (score_reach a = 1.5%Q ↔ 1000 <= a < 10000) ∧
  (score_reach a = 2%Q ↔ 10000 <= a < 100000) ∧
  (score_reach a = 3%Q ↔ 100000 <= a) ∧
  score_reach_of (PInt a) = Some (score_reach a).
Proof.
  split; [| split; [| split; [| split; [| split; [| split]]]]].
  - intros Hab. unfold score_reach.
    destruct (Z.leb_spec 100000 a), (Z.leb_spec 10000 a), (Z.leb_spec 1000 a),
      (Z.leb_spec 100000 b), (Z.leb_spec 10000 b), (Z.leb_spec 1000 b);
      try lia; vm_compute; discriminate.
  - unfold score_reach.
    destruct (100000 <=? a); [set_solver |].
    destruct (10000 <=? a); [set_solver |].
    destruct (1000 <=? a); set_solver.
  - unfold score_reach.
    destruct (Z.leb_spec 100000 a), (Z.leb_spec 10000 a), (Z.leb_spec 1000 a);
      split; try lia; try discriminate; reflexivity.
  - unfold score_reach.
    destruct (Z.leb_spec 100000 a), (Z.leb_spec 10000 a), (Z.leb_spec 1000 a);
      split; try lia; try discriminate; reflexivity.
  - unfold score_reach.
    destruct (Z.leb_spec 100000 a), (Z.leb_spec 10000 a), (Z.leb_spec 1000 a);
      split; try lia; try discriminate; reflexivity.
  - unfold score_reach.
    destruct (Z.leb_spec 100000 a), (Z.leb_spec 10000 a), (Z.leb_spec 1000 a);
      split; try lia; try discriminate; reflexivity.
  - unfold score_reach_of, score_reach. simpl.
    assert (∀ k : Z, Qle_bool (inject_Z k) (inject_Z a) = (k <=? a)) as H.
    { intros k. apply eq_true_iff_eq. rewrite Qle_bool_iff, <- Zle_Qle.
      symmetry. apply Z.leb_le. }
    change 100000%Q with (inject_Z 100000). change 10000%Q with (inject_Z 10000).
    change 1000%Q with (inject_Z 1000). by rewrite !H.
Qed.

Lemma score_reach_steps_witness :
  999 <= 1000 ∧ (score_reach 999 <= score_reach 1000)%Q ∧
  score_reach 999 = 1%Q ∧ score_reach 1000 = 1.5%Q.
Proof.
  assert (999 <= 1000) as H by lia.
  assert (999 < 1000) as H1 by lia.
  assert (1000 <= 1000 < 10000) as H2 by lia.
  split; [exact H |].
  split; [exact (proj1 (score_reach_steps 999 1000) H) |].
  split.
  - exact (proj2 (proj1 (proj2 (proj2 (score_reach_steps 999 0)))) H1).
  - exact (proj2 (proj1 (proj2 (proj2 (proj2 (score_reach_steps 1000 0))))) H2).
Defined.

Section WithLower.

Variable lower : string → string.

(** X15. [detect_risk] lists exactly the negative keywords that occur in
    the lower-cased text, each once and in the order of the configured
    list; and a text with a risk keyword is never classified neutral by
    the ratio policy. *)
Theorem detect_risk_keywords (text : string) :
  (∀ kw, kw ∈ detect_risk lower text ↔
         kw ∈ RISK_KEYWORDS !!! "negative" ∧
         ∃ pre post, lower text = pre +:+ (kw +:+ post)) ∧
  NoDup (detect_risk lower text) ∧
  detect_risk lower text `sublist_of` RISK_KEYWORDS !!! "negative" ∧
  Z.of_nat (length (detect_risk lower text))
    = Spec.hits (RISK_KEYWORDS !!! "negative") (lower text) ∧
  (detect_risk lower text ≠ [] →
   ∃ label score, score_sentiment lower text = Some (label, score) ∧
                  label ≠ "neutral"%string ∧
                  label ∈ ["positive"; "negative"; "mixed"]%string).
Proof.
  unfold detect_risk. split; [| split; [| split; [| split]]].
  - intros kw. rewrite list_elem_of_filter, Sentiment.contains_spec. tauto.
  - eapply sublist_NoDup; [| apply sublist_filter].
    apply (bool_decide_unpack _). vm_compute. exact I.
  - apply sublist_filter.
  - reflexivity.
  - intros Hne.
    unfold score_sentiment. rewrite Sentiment.score_sentiment_with_cases.
    assert (0 < Spec.hits (RISK_KEYWORDS !!! "negative") (lower text)) as Hn.
    { unfold Spec.hits.
      destruct (filter _ (RISK_KEYWORDS !!! "negative")); [done | simpl; lia]. }
    pose proof (Sentiment.hits_nonneg (RISK_KEYWORDS !!! "positive") (lower text)) as Hp.
    destruct (Z.eqb_spec (Spec.hits (RISK_KEYWORDS !!! "positive") (lower text)
                          + Spec.hits (RISK_KEYWORDS !!! "negative") (lower text)) 0)
      as [E | _]; [lia |].
    cbv zeta.
    destruct (Qltb 0.2 _); [| destruct (Qltb _ (-0.2))];
      (eexists _, _; split; [reflexivity |]; split; [discriminate | set_solver]).
Qed.

End WithLower.

Lemma detect_risk_keywords_witness :
  detect_risk ascii_lower Samples.text_complaint ≠ [] ∧
  ∃ label score,
    score_sentiment ascii_lower Samples.text_complaint = Some (label, score) ∧
    label ≠ "neutral"%string ∧
    label ∈ ["positive"; "negative"; "mixed"]%string.
Proof.
  assert (detect_risk ascii_lower Samples.text_complaint ≠ []) as H
    by (vm_compute; discriminate).
  split; [exact H |].
  exact (proj2 (proj2 (proj2 (proj2
           (detect_risk_keywords ascii_lower Samples.text_complaint)))) H).
Defined.



Lemma pyround_nd_idem (q : Q) (n : nat) :
  (pyround_nd (pyround_nd q n) n == pyround_nd q n)%Q.
Proof.
  unfold pyround_nd at 1.
  assert (0 < 10 ^ Z.of_nat n)%Z as Hp by (apply Z.pow_pos_nonneg; lia).
  assert (¬ (inject_Z (10 ^ Z.of_nat n) == 0)%Q) as Hk
    by (apply inject_Z_nonzero; lia).
  rewrite (pyround_comp (pyround_nd q n * inject_Z (10 ^ Z.of_nat n))
                        (inject_Z (pyround (q * inject_Z (10 ^ Z.of_nat n)))))
    by (unfold pyround_nd; field; exact Hk).
  rewrite pyround_inject_Z. reflexivity.
Qed.

Lemma score_engagement_rounded (metrics : gmap string pyval) (e : Q) :
  score_engagement metrics = Some e → ∃ total, e = pyround_nd total 2.
Proof.
  unfold score_engagement. destruct (foldl _ _ _) as [total |]; [| discriminate].
  intros [= <-]. by exists total.
Qed.

Lemma label_truthy (label : string) (score : Q) (lower : string → string)
    (text : string) :
  score_sentiment lower text = Some (label, score) → truthy (PStr label) = true.
Proof.
  unfold score_sentiment. rewrite Sentiment.score_sentiment_with_cases.
  destruct (_ =? 0); [by intros [= <- _] |]. cbv zeta.
  destruct (Qltb 0.2 _); [by intros [= <- _] |].
  destruct (Qltb _ (-0.2)); by intros [= <- _].
Qed.

Section WithLower.

Variable lower : string → string.

(** X17. Scoring is idempotent on existing posts: a post that
    [score_existing_post] returned is returned unchanged when scored
    again, so running the scorer repeatedly over its own output file does
    not drift. The first scoring touches only the keys sentiment,
    engagement_score, risk_keywords and risk_flag. *)
Theorem score_existing_post_idempotent (post out : gmap string pyval) :
  score_existing_post lower post = Some out →
  score_existing_post lower out = Some out ∧
  (∀ k, k ∉ ["sentiment"; "engagement_score"; "risk_keywords"; "risk_flag"]%string →
        out !! k = post !! k).
Proof.
  intros H. pose proof H as H0. unfold score_existing_post in H.
  destruct (as_str _) as [text |] eqn:Ht; [| discriminate]. cbn [mbind option_bind] in H.
  destruct (as_dict _) as [metrics |] eqn:Hm; [| discriminate].
  cbn [mbind option_bind] in H.
  destruct (score_sentiment lower text) as [[label score] |] eqn:Hs; [| discriminate].
  cbn [mbind option_bind] in H.
  destruct (score_engagement metrics) as [e |] eqn:He; [| discriminate].
  cbn [mbind option_bind] in H.
  set (sv := if negb (truthy (default PNone (post !! "sentiment")))
             then PStr label else default PNone (post !! "sentiment")) in H.
  set (rf := default (PBool (bool_decide (0 < length (detect_risk lower text))%nat))
                     (post !! "risk_flag")) in H.
  injection H as Hout.
  assert (truthy sv = true) as Hsv.
  { unfold sv. destruct (truthy (default PNone (post !! "sentiment"))) eqn:T.
    - exact T.
    - cbn [negb]. exact (label_truthy _ _ _ _ Hs). }
  assert (∀ k, k ∉ ["sentiment"; "engagement_score"; "risk_keywords"; "risk_flag"]%string →
               out !! k = post !! k) as Hframe.
  { intros k Hk. rewrite <- Hout.
    apply not_elem_of_cons in Hk as [? Hk]. apply not_elem_of_cons in Hk as [? Hk].
    apply not_elem_of_cons in Hk as [? Hk]. apply not_elem_of_cons in Hk as [? Hk].
    by rewrite !lookup_insert_ne. }
  split; [| exact Hframe].
  assert (out !! "sentiment" = Some sv) as L1
    by (rewrite <- Hout; rewrite ?lookup_insert_ne by discriminate;
        apply lookup_insert_eq).
  assert (out !! "engagement_score" = Some (PFloat e)) as L2
    by (rewrite <- Hout; rewrite ?lookup_insert_ne by discriminate;
        apply lookup_insert_eq).
  assert (out !! "risk_keywords" = Some (PList (PStr <$> detect_risk lower text))) as L3
    by (rewrite <- Hout; rewrite ?lookup_insert_ne by discriminate;
        apply lookup_insert_eq).
  assert (out !! "risk_flag" = Some rf) as L4
    by (rewrite <- Hout; apply lookup_insert_eq).
  unfold score_existing_post.
  rewrite (Hframe "content"), (Hframe "metrics"), Ht, Hm
    by (repeat (apply not_elem_of_cons; split; [discriminate |]);
        apply not_elem_of_nil).
  cbn [mbind option_bind]. rewrite Hs. cbn [mbind option_bind].
  rewrite He. cbn [mbind option_bind].
  rewrite L1, L4. cbn [default from_option id]. rewrite Hsv. cbn [negb].
  rewrite (insert_id out "sentiment" sv L1).
  rewrite (insert_id out "engagement_score" _ L2).
  rewrite (insert_id out "risk_keywords" _ L3).
  rewrite (insert_id out "risk_flag" _ L4). reflexivity.
Qed.

(** X18. A scored mention always carries the classifier's label (a
    sentiment the mention came with is overwritten, unlike for existing
    posts), is flagged exactly when a risk keyword occurs in its text, has
    a reach multiplier among 1, 1.5, 2 and 3, and a composite score that
    is not below a non-negative engagement score. Keys the function does
    not read, among them views and reposts, are carried over and have no
    influence on any score. *)
Theorem score_mention_fields (mention out : gmap string pyval) :
  score_mention lower mention = Some out →
  ∃ text label score e r,
    as_str (default (PStr "") (mention !! "text")) = Some text ∧
    score_sentiment lower text = Some (label, score) ∧
    out !! "sentiment" = Some (PStr label) ∧
    (out !! "risk_flag" = Some (PBool true) ↔ detect_risk lower text ≠ []) ∧
    out !! "risk_keywords" = Some (PList (PStr <$> detect_risk lower text)) ∧
    out !! "engagement_score" = Some (PFloat e) ∧
    out !! "reach_multiplier" = Some (PFloat r) ∧
    out !! "composite_score" = Some (PFloat (pyround_nd (e * r) 2)) ∧
    r ∈ [1%Q; 1.5%Q; 2%Q; 3%Q] ∧
    (0 <= e → e <= pyround_nd (e * r) 2)%Q ∧
    (∀ k v,
       k ∉ ["text"; "likes"; "retweets"; "replies"; "author_followers";
            "sentiment"; "sentiment_score"; "engagement_score";
            "reach_multiplier"; "composite_score"; "risk_keywords";
            "risk_flag"]%string →
       score_mention lower (<[k := v]> mention) = Some (<[k := v]> out)).
Proof.
  intros H. unfold score_mention in H.
  destruct (as_str _) as [text |] eqn:Ht; [| discriminate]. cbn [mbind option_bind] in H.
  destruct (score_sentiment lower text) as [[label score] |] eqn:Hs; [| discriminate].
  cbn [mbind option_bind] in H.
  destruct (score_engagement _) as [e |] eqn:He; [| discriminate].
  cbn [mbind option_bind] in H.
  destruct (score_reach_of _) as [r |] eqn:Hr; [| discriminate].
  cbn [mbind option_bind] in H.
  injection H as Hout.
  exists text, label, score, e, r.
  assert (r ∈ [1%Q; 1.5%Q; 2%Q; 3%Q]) as Hrange.
  { unfold score_reach_of in Hr.
    destruct (as_num _) as [f |]; [| discriminate]. cbn [mbind option_bind] in Hr.
    injection Hr as <-.
    destruct (Qle_bool 100000 f); [set_solver |].
    destruct (Qle_bool 10000 f); [set_solver |].
    destruct (Qle_bool 1000 f); set_solver. }
  split; [first [reflexivity | exact Ht] |].
  split; [first [reflexivity | exact Hs] |].
  split; [rewrite <- Hout; apply lookup_insert_eq |].
  split.
  { assert (out !! "risk_flag"
            = Some (PBool (bool_decide (0 < length (detect_risk lower text))%nat)))
      as -> by (rewrite <- Hout; rewrite ?lookup_insert_ne by discriminate;
                apply lookup_insert_eq).
    destruct (detect_risk lower text) as [| kw risks].
    - split; [| done]. intros E. discriminate E.
    - split; [done |]. intros _. reflexivity. }
  split; [rewrite <- Hout; rewrite ?lookup_insert_ne by discriminate;
          apply lookup_insert_eq |].
  split; [rewrite <- Hout; rewrite ?lookup_insert_ne by discriminate;
          apply lookup_insert_eq |].
  split; [rewrite <- Hout; rewrite ?lookup_insert_ne by discriminate;
          apply lookup_insert_eq |].
  split; [rewrite <- Hout; rewrite ?lookup_insert_ne by discriminate;
          apply lookup_insert_eq |].
  split; [exact Hrange |].
  split.
  { intros He0. destruct (score_engagement_rounded _ _ He) as [total Etot].
    apply (Qle_trans _ (pyround_nd e 2)).
    - rewrite Etot, pyround_nd_idem. apply Qle_refl.
    - apply pyround_nd_mono.
      assert (1 <= r)%Q as Hr1.
      { apply elem_of_cons in Hrange as [-> | Hrange]; [vm_compute; discriminate |].
        apply elem_of_cons in Hrange as [-> | Hrange]; [vm_compute; discriminate |].
        apply elem_of_cons in Hrange as [-> | Hrange]; [vm_compute; discriminate |].
        apply list_elem_of_singleton in Hrange as ->. vm_compute; discriminate. }
      clear - He0 Hr1. nra. }
  intros k v Hk.
  repeat (apply not_elem_of_cons in Hk as [? Hk]).
  unfold score_mention.
  rewrite !(lookup_insert_ne _ k) by done.
  rewrite Ht. cbn [mbind option_bind]. rewrite Hs. cbn [mbind option_bind].
  rewrite He. cbn [mbind option_bind]. rewrite Hr. cbn [mbind option_bind].
  rewrite <- Hout. f_equal.
  rewrite (insert_insert_ne _ "risk_flag" k) by done.
  rewrite (insert_insert_ne _ "risk_keywords" k) by done.
  rewrite (insert_insert_ne _ "composite_score" k) by done.
  rewrite (insert_insert_ne _ "reach_multiplier" k) by done.
  rewrite (insert_insert_ne _ "engagement_score" k) by done.
  rewrite (insert_insert_ne _ "sentiment_score" k) by done.
  rewrite (insert_insert_ne _ "sentiment" k) by done.
  reflexivity.
Qed.

End WithLower.


Lemma score_existing_post_idempotent_witness :
  ∃ out, score_existing_post ascii_lower Samples.post_flagged = Some out ∧
         score_existing_post ascii_lower out = Some out.
Proof.
  destruct (score_existing_post ascii_lower Samples.post_flagged) as [out |] eqn:E;
    [| vm_compute in E; discriminate].
  exists out. split; [reflexivity |].
  exact (proj1 (score_existing_post_idempotent ascii_lower Samples.post_flagged out E)).
Defined.

Lemma score_mention_fields_witness :
  ∃ out, score_mention ascii_lower MoreSamples.mention_risky = Some out ∧
         out !! "sentiment" = Some (PStr "negative") ∧
         score_mention ascii_lower (<["views" := PNone]> MoreSamples.mention_risky)
           = Some (<["views" := PNone]> out).
Proof.
  destruct (score_mention ascii_lower MoreSamples.mention_risky) as [out |] eqn:E;
    [| vm_compute in E; discriminate].
  exists out. split; [reflexivity |].
  destruct (score_mention_fields ascii_lower MoreSamples.mention_risky out E)
    as (text & label & score & e & r & Ht & Hs & Hsent & _ & _ & _ & _ & _ & _ & _ & Hk).
  split.
  - rewrite Hsent. injection Ht as <-. vm_compute in Hs. by injection Hs as <- _.
  - apply Hk. repeat (apply not_elem_of_cons; split; [discriminate |]).
    apply not_elem_of_nil.
Defined.

(** ** The document passes of scorer.py *)

Lemma gather_risks_spec (scored_posts : list (gmap string pyval))
    (all_risks result : gset string) :
  gather_risks scored_posts all_risks = Some result →
  ∀ s, s ∈ result ↔
       s ∈ all_risks ∨
       ∃ p ks, p ∈ scored_posts ∧
               truthy (default PNone (p !! "risk_flag")) = true ∧
               (iter_strs (default (PList []) (p !! "risk_keywords")) = Some ks ∨
                iter_strs (default (PList []) (p !! "topics")) = Some ks) ∧
               s ∈ ks.
Proof.
  revert all_risks. induction scored_posts as [| p l IH]; intros S H s.
  - injection H as <-. split; [by left |].
    intros [Hs | (p & ks & Hp & _)]; [exact Hs | by apply elem_of_nil in Hp].
  - cbn [gather_risks] in H.
    destruct (truthy (default PNone (p !! "risk_flag"))) eqn:Hflag.
    + destruct (iter_strs (default (PList []) (p !! "risk_keywords")))
        as [kws |] eqn:Hk; [| discriminate].
      cbn [mbind option_bind] in H.
      destruct (iter_strs (default (PList []) (p !! "topics")))
        as [tps |] eqn:Ht; [| discriminate].
      cbn [mbind option_bind] in H.
      rewrite (IH _ H s), !elem_of_union, !elem_of_list_to_set. split.
      * intros [[[Hs | Hs] | Hs] | (p' & ks & Hp & Hf & Hi & Hs)].
        -- by left.
        -- right. exists p, kws. rewrite elem_of_cons. eauto 6.
        -- right. exists p, tps. rewrite elem_of_cons. eauto 6.
        -- right. exists p', ks. rewrite elem_of_cons. eauto 6.
      * intros [Hs | (p' & ks & Hp & Hf & Hi & Hs)]; [by left; left; left |].
        apply elem_of_cons in Hp as [-> | Hp].
        -- destruct Hi as [Hi | Hi].
           ++ rewrite Hk in Hi. injection Hi as <-. by left; left; right.
           ++ rewrite Ht in Hi. injection Hi as <-. by left; right.
        -- right. exists p', ks. eauto.
    + rewrite (IH _ H s). split.
      * intros [Hs | (p' & ks & Hp & Hrest)]; [by left |].
        right. exists p', ks. rewrite elem_of_cons. eauto.
      * intros [Hs | (p' & ks & Hp & Hf & Hrest)]; [by left |].
        apply elem_of_cons in Hp as [-> | Hp]; [congruence |].
        right. exists p', ks. eauto.
Qed.

Lemma iter_strs_signals (l : list string) : iter_strs (PList (PStr <$> l)) = Some l.
Proof.
  unfold iter_strs. cbn [iter_values mbind option_bind].
  apply mapM_fmap_Forall_Some, Forall_forall. reflexivity.
Qed.

Section WithLower.

Variable lower : string → string.

(** X19. [process_existing] scores every post of the file and drops or
    adds none; the posts come out ordered by engagement score, highest
    first; the risk signals come out without duplicates and are exactly
    the signals the file had together with the risk keywords and topics
    of the flagged posts; every other key of the document is left as it
    was. *)
Theorem process_existing_result (data out : gmap string pyval) :
  process_existing lower (Parsed (PDict data)) = Some out →
  ∃ posts scored0 scored signals risks,
    iter_values (default (PList []) (data !! "recentPosts")) = Some posts ∧
    mapM (λ p, post ← as_dict p; score_existing_post lower post) posts
      = Some scored0 ∧
    scored ≡ₚ scored0 ∧
    length scored = length posts ∧
    StronglySorted (λ a b, engagement_key b <= engagement_key a)%Q scored ∧
    out !! "recentPosts" = Some (PList (PDict <$> scored)) ∧
    iter_strs (default (PList []) (data !! "riskSignals")) = Some signals ∧
    out !! "riskSignals" = Some (PList (PStr <$> risks)) ∧
    NoDup risks ∧
    (∀ s, s ∈ risks ↔
          s ∈ signals ∨
          ∃ p ks, p ∈ scored ∧
                  truthy (default PNone (p !! "risk_flag")) = true ∧
                  (iter_strs (default (PList []) (p !! "risk_keywords")) = Some ks ∨
                   iter_strs (default (PList []) (p !! "topics")) = Some ks) ∧
                  s ∈ ks) ∧
    (∀ k, k ∉ ["recentPosts"; "riskSignals"]%string → out !! k = data !! k).
Proof.
  unfold process_existing. cbn [as_dict mbind option_bind].
  destruct (iter_values _) as [posts |] eqn:Hp; [| discriminate].
  cbn [mbind option_bind].
  destruct (mapM _ posts) as [scored0 |] eqn:Hm; [| discriminate].
  cbn [mbind option_bind]. cbv zeta.
  rewrite lookup_insert_ne by discriminate.
  destruct (iter_strs _) as [signals |] eqn:Hs; [| discriminate].
  cbn [mbind option_bind].
  destruct (gather_risks _ _) as [all_risks |] eqn:Hg; [| discriminate].
  cbn [mbind option_bind]. intros [= <-].
  exists posts, scored0, (sorted_desc engagement_key scored0), signals,
         (elements all_risks).
  split; [first [reflexivity | exact Hp] |].
  split; [first [reflexivity | exact Hm] |].
  split; [apply sorted_desc_Permutation |].
  split.
  { rewrite sorted_desc_Permutation. symmetry. exact (length_mapM _ _ _ Hm). }
  split; [apply sorted_desc_sorted |].
  split; [rewrite lookup_insert_ne by discriminate; apply lookup_insert_eq |].
  split; [first [reflexivity | exact Hs] |].
  split; [apply lookup_insert_eq |].
  split; [apply NoDup_elements |].
  split.
  { intros s. rewrite elem_of_elements, (gather_risks_spec _ _ _ Hg s),
      elem_of_list_to_set. reflexivity. }
  intros k Hk.
  apply not_elem_of_cons in Hk as [? Hk]. apply not_elem_of_cons in Hk as [? Hk].
  by rewrite !lookup_insert_ne.
Qed.

End WithLower.

Lemma process_existing_result_witness :
  ∃ out, process_existing ascii_lower (Parsed (PDict MoreSamples.pull_two)) = Some out ∧
         length (Readings.posts_of out) = 2%nat ∧
         out !! "accounts" = Some (PDict ∅).
Proof.
  destruct (process_existing ascii_lower (Parsed (PDict MoreSamples.pull_two)))
    as [out |] eqn:E; [| vm_compute in E; discriminate].
  exists out. split; [reflexivity |].
  destruct (process_existing_result ascii_lower MoreSamples.pull_two out E)
    as (posts & scored0 & scored & signals & risks & Hp & _ & _ & Hlen & _ & Hout
        & _ & _ & _ & _ & Hframe).
  split.
  - unfold Readings.posts_of. rewrite Hout. cbn [mbind option_bind as_list default
      from_option id]. rewrite length_fmap, Hlen. by injection Hp as <-.
  - rewrite Hframe; [reflexivity |].
    repeat (apply not_elem_of_cons; split; [discriminate |]). apply not_elem_of_nil.
Defined.

Lemma mapM_as_dict (posts : list pyval) (dicts : list (gmap string pyval)) :
  mapM as_dict posts = Some dicts → posts = PDict <$> dicts.
Proof.
  intros H. apply mapM_Some_1 in H.
  induction H as [| v d posts dicts Hv _ IH]; [reflexivity |].
  destruct v; try discriminate. injection Hv as ->. cbn [fmap list_fmap].
  f_equal. exact IH.
Qed.

Lemma append_posts_spec (scored_mentions : list (gmap string pyval))
    (existing result : gmap string pyval) :
  append_posts existing scored_mentions = Some result →
  ∃ new, mapM mention_post scored_mentions = Some new ∧
         (scored_mentions = [] → result = existing) ∧
         (scored_mentions ≠ [] →
          ∃ old, as_list (default (PList []) (existing !! "recentPosts")) = Some old ∧
                 result = <["recentPosts" := PList (old ++ (PDict <$> new))]> existing).
Proof.
  revert existing. induction scored_mentions as [| m rest IH]; intros existing H.
  - injection H as <-. exists []. split; [reflexivity |]. split; [done | done].
  - cbn [append_posts] in H.
    destruct (mention_post m) as [post |] eqn:Hpost; [| discriminate].
    cbn [mbind option_bind] in H.
    destruct (as_list _) as [old |] eqn:Hold; [| discriminate].
    cbn [mbind option_bind] in H.
    destruct (IH _ H) as (new & Hnew & Hnil & Hcons).
    exists (post :: new). split.
    { apply mapM_Some. constructor; [exact Hpost | by apply mapM_Some]. }
    split; [done |]. intros _. exists old. split; [reflexivity |].
    destruct rest as [| m' rest].
    + rewrite (Hnil eq_refl). injection Hnew as <-. reflexivity.
    + destruct (Hcons ltac:(done)) as (old' & Hold' & ->).
      rewrite lookup_insert_eq in Hold'. injection Hold' as <-.
      rewrite insert_insert_eq, <- app_assoc. reflexivity.
Qed.

(** The document [merge_mentions] returns, as a function of the posts the
    document had and the posts made from the mentions. *)
Lemma merge_mentions_unfold (existing out : gmap string pyval)
    (scored_mentions : list (gmap string pyval)) (now : string) :
  merge_mentions existing scored_mentions now = Some out →
  ∃ old new dicts,
    as_list (default (PList []) (existing !! "recentPosts")) = Some old ∧
    mapM mention_post scored_mentions = Some new ∧
    old ++ (PDict <$> new) = PDict <$> dicts ∧
    out = <["pulled_at" := PStr now]>
          (<["recentPosts" := PList (PDict <$> sorted_desc engagement_key dicts)]>
             existing).
Proof.
  unfold merge_mentions.
  destruct (append_posts existing scored_mentions) as [result |] eqn:Ha; [| discriminate].
  cbn [mbind option_bind].
  destruct (result !! "recentPosts") as [v |] eqn:Hv; [| discriminate].
  cbn [mbind option_bind].
  destruct (as_list v) as [all |] eqn:Hall; [| discriminate].
  cbn [mbind option_bind]. unfold sort_posts.
  destruct (mapM as_dict all) as [dicts |] eqn:Hd; [| discriminate].
  cbn [mbind option_bind].
  destruct (_ || _); [| discriminate]. intros [= <-].
  destruct (append_posts_spec _ _ _ Ha) as (new & Hnew & Hnil & Hcons).
  pose proof (mapM_as_dict _ _ Hd) as Edicts.
  destruct scored_mentions as [| m rest].
  - rewrite (Hnil eq_refl) in Hv |- *. injection Hnew as <-.
    exists all, [], dicts. rewrite Hv. cbn [default from_option id].
    split; [exact Hall |]. split; [reflexivity |].
    split; [by rewrite app_nil_r |]. reflexivity.
  - destruct (Hcons ltac:(done)) as (old & Hold & ->).
    rewrite lookup_insert_eq in Hv. injection Hv as <-.
    injection Hall as <-. exists old, new, dicts.
    split; [exact Hold |]. split; [exact Hnew |]. split; [exact Edicts |].
    by rewrite insert_insert_eq.
Qed.

(** X20. [merge_mentions] appends one post per scored mention to the
    posts the document has, without removing or de-duplicating any, so a
    mention merged twice appears twice; the posts come out ordered by
    engagement score, highest first; [pulled_at] is the clock reading;
    every other key is left as it was. *)
Theorem merge_mentions_result (existing out : gmap string pyval)
    (scored_mentions : list (gmap string pyval)) (now : string) :
  merge_mentions existing scored_mentions now = Some out →
  ∃ old new sorted,
    as_list (default (PList []) (existing !! "recentPosts")) = Some old ∧
    mapM mention_post scored_mentions = Some new ∧
    out !! "recentPosts" = Some (PList (PDict <$> sorted)) ∧
    PDict <$> sorted ≡ₚ old ++ (PDict <$> new) ∧
    length sorted = (length old + length scored_mentions)%nat ∧
    StronglySorted (λ a b, engagement_key b <= engagement_key a)%Q sorted ∧
    out !! "pulled_at" = Some (PStr now) ∧
    (∀ k, k ∉ ["recentPosts"; "pulled_at"]%string → out !! k = existing !! k).
Proof.
  intros H.
  destruct (merge_mentions_unfold _ _ _ _ H) as (old & new & dicts & Hold & Hnew & E & ->).
  exists old, new, (sorted_desc engagement_key dicts).
  split; [exact Hold |]. split; [exact Hnew |].
  split; [rewrite lookup_insert_ne by discriminate; apply lookup_insert_eq |].
  split; [by rewrite sorted_desc_Permutation, E |].
  split.
  { rewrite sorted_desc_Permutation.
    rewrite <- (length_fmap PDict dicts), <- E, length_app, length_fmap.
    f_equal. symmetry. exact (length_mapM _ _ _ Hnew). }
  split; [apply sorted_desc_sorted |].
  split; [apply lookup_insert_eq |].
  intros k Hk.
  apply not_elem_of_cons in Hk as [? Hk]. apply not_elem_of_cons in Hk as [? Hk].
  by rewrite !lookup_insert_ne.
Qed.

Lemma merge_mentions_result_witness :
  ∃ out, merge_mentions MoreSamples.pull_two
           [MoreSamples.mention_quiet; MoreSamples.mention_quiet] "t" = Some out ∧
         length (Readings.posts_of out) = 4%nat ∧
         out !! "pulled_at" = Some (PStr "t").
Proof.
  destruct (merge_mentions MoreSamples.pull_two
              [MoreSamples.mention_quiet; MoreSamples.mention_quiet] "t")
    as [out |] eqn:E; [| vm_compute in E; discriminate].
  exists out. split; [reflexivity |].
  destruct (merge_mentions_result _ _ _ _ E)
    as (old & new & sorted & Hold & _ & Hout & _ & Hlen & _ & Hnow & _).
  split; [| exact Hnow].
  unfold Readings.posts_of. rewrite Hout.
  cbn [mbind option_bind as_list default from_option id].
  rewrite length_fmap, Hlen. by injection Hold as <-.
Defined.

(** X21. On a document without the [recentPosts] key, [merge_mentions]
    raises (a [KeyError] at the sort) when there is no mention to merge,
    and creates the key when there is one. *)
Theorem merge_mentions_without_posts_key (existing : gmap string pyval)
    (now : string) :
  existing !! "recentPosts" = None →
  merge_mentions existing [] now = None ∧
  ∀ m post, mention_post m = Some post →
    merge_mentions existing [m] now
    = Some (<["pulled_at" := PStr now]>
           (<["recentPosts" := PList [PDict post]]> existing)).
Proof.
  intros H. split.
  - unfold merge_mentions. cbn [append_posts mbind option_bind]. by rewrite H.
  - intros m post Hpost. unfold merge_mentions. cbn [append_posts].
    rewrite Hpost. cbn [mbind option_bind]. rewrite H.
    cbn [default from_option id as_list mbind option_bind app].
    rewrite lookup_insert_eq. cbn [mbind option_bind as_list].
    change (sort_posts [PDict post]) with (Some [PDict post]).
    cbn [mbind option_bind]. rewrite insert_insert_eq. reflexivity.
Qed.

Lemma merge_mentions_without_posts_key_witness :
  MoreSamples.no_posts !! "recentPosts" = None ∧
  merge_mentions MoreSamples.no_posts [] "t" = None.
Proof.
  assert (MoreSamples.no_posts !! "recentPosts" = None) as H by reflexivity.
  split; [exact H |].
  exact (proj1 (merge_mentions_without_posts_key MoreSamples.no_posts "t" H)).
Defined.

(** Retweets weigh as much as reposts, so the metrics of the post made
    from a mention score as the mention did. *)
Lemma score_engagement_reposts (likes retweets replies : pyval) :
  score_engagement (<["replies" := replies]> (<["reposts" := retweets]>
                     (<["likes" := likes]> ∅)))
  = score_engagement (<["likes" := likes]> (<["retweets" := retweets]>
                     (<["replies" := replies]> ∅))).
Proof.
  set (M1 := <["likes" := likes]> (<["retweets" := retweets]>
             (<["replies" := replies]> (∅ : gmap string pyval)))).
  set (M2 := <["replies" := replies]> (<["reposts" := retweets]>
             (<["likes" := likes]> (∅ : gmap string pyval)))).
  assert (M1 !! "likes" = Some likes) as A1 by apply lookup_insert_eq.
  assert (M1 !! "retweets" = Some retweets) as A2
    by (unfold M1; rewrite lookup_insert_ne by discriminate; apply lookup_insert_eq).
  assert (M1 !! "reposts" = None) as A3
    by (unfold M1; rewrite !lookup_insert_ne by discriminate; apply lookup_empty).
  assert (M1 !! "replies" = Some replies) as A4
    by (unfold M1; rewrite !lookup_insert_ne by discriminate; apply lookup_insert_eq).
  assert (M1 !! "views" = None) as A5
    by (unfold M1; rewrite !lookup_insert_ne by discriminate; apply lookup_empty).
  assert (M2 !! "likes" = Some likes) as B1
    by (unfold M2; rewrite !lookup_insert_ne by discriminate; apply lookup_insert_eq).
  assert (M2 !! "retweets" = None) as B2
    by (unfold M2; rewrite !lookup_insert_ne by discriminate; apply lookup_empty).
  assert (M2 !! "reposts" = Some retweets) as B3
    by (unfold M2; rewrite lookup_insert_ne by discriminate; apply lookup_insert_eq).
  assert (M2 !! "replies" = Some replies) as B4 by apply lookup_insert_eq.
  assert (M2 !! "views" = None) as B5
    by (unfold M2; rewrite !lookup_insert_ne by discriminate; apply lookup_empty).
  unfold score_engagement, ENGAGEMENT_WEIGHTS. cbn [foldl fst snd].
  rewrite A1, A2, A3, A4, A5, B1, B2, B3, B4, B5.
  cbn [default from_option id as_num mbind option_bind].
  destruct (as_num likes) as [l |]; [| reflexivity].
  destruct (as_num retweets) as [r |];
    [| cbn [mbind option_bind]; by destruct (as_num replies)].
  destruct (as_num replies) as [p |]; [| reflexivity].
  cbn [mbind option_bind]. f_equal. apply pyround_nd_comp.
  change (inject_Z 0) with 0%Q. ring.
Qed.

Lemma foldl_failed {A B} (f : option A → B → option A) (l : list B) :
  (∀ b, f None b = None) → foldl f None l = None.
Proof. intros H. induction l as [| b l IH]; [reflexivity |]. simpl. by rewrite H. Qed.

Lemma posts_of_old (data : gmap string pyval) (old : list pyval) :
  as_list (default (PList []) (data !! "recentPosts")) = Some old →
  Readings.posts_of data = old.
Proof.
  unfold Readings.posts_of. destruct (data !! "recentPosts") as [v |]; simpl.
  - by intros ->.
  - by intros [= <-].
Qed.

Section WithLower.

Variable lower : string → string.

(** X22. The post that [merge_mentions] makes from a scored mention is a
    fixed point of [score_existing_post]: when the scorer runs again over
    the file it wrote, a merged mention keeps its sentiment, engagement
    score, risk keywords and risk flag. *)
Theorem merged_mention_stable (mention scored post : gmap string pyval) :
  score_mention lower mention = Some scored →
  mention_post scored = Some post →
  score_existing_post lower post = Some post.
Proof.
  intros H1 H2. unfold score_mention in H1.
  destruct (as_str _) as [text |] eqn:Ht; [| discriminate].
  cbn [mbind option_bind] in H1.
  destruct (score_sentiment lower text) as [[label score] |] eqn:Hs; [| discriminate].
  cbn [mbind option_bind] in H1.
  destruct (score_engagement _) as [e |] eqn:He; [| discriminate].
  cbn [mbind option_bind] in H1.
  destruct (score_reach_of _) as [r |] eqn:Hr; [| discriminate].
  cbn [mbind option_bind] in H1. injection H1 as Hsc.
  assert (∀ k, k ∉ ["sentiment"; "sentiment_score"; "engagement_score";
                    "reach_multiplier"; "composite_score"; "risk_keywords";
                    "risk_flag"]%string → scored !! k = mention !! k) as Hframe.
  { intros k Hk. rewrite <- Hsc.
    repeat (apply not_elem_of_cons in Hk as [? Hk]). by rewrite !lookup_insert_ne. }
  assert (scored !! "sentiment" = Some (PStr label)) as S1
    by (rewrite <- Hsc; apply lookup_insert_eq).
  assert (scored !! "engagement_score" = Some (PFloat e)) as S2
    by (rewrite <- Hsc; rewrite ?lookup_insert_ne by discriminate;
        apply lookup_insert_eq).
  assert (scored !! "risk_keywords" = Some (PList (PStr <$> detect_risk lower text)))
    as S3 by (rewrite <- Hsc; rewrite ?lookup_insert_ne by discriminate;
              apply lookup_insert_eq).
  assert (scored !! "risk_flag"
          = Some (PBool (bool_decide (0 < length (detect_risk lower text))%nat)))
    as S4 by (rewrite <- Hsc; rewrite ?lookup_insert_ne by discriminate;
              apply lookup_insert_eq).
  unfold mention_post in H2.
  destruct (if truthy _ then _ else _) as [date |]; [| discriminate].
  cbn [mbind option_bind] in H2.
  rewrite S1, S2, S3, S4 in H2.
  rewrite (Hframe "text"), (Hframe "likes"), (Hframe "retweets"), (Hframe "replies")
    in H2 by (repeat (apply not_elem_of_cons; split; [discriminate |]);
              apply not_elem_of_nil).
  cbn [default from_option id] in H2. injection H2 as Hpost.
  assert (post !! "content" = Some (default (PStr "") (mention !! "text"))) as P1
    by (rewrite <- Hpost; rewrite ?lookup_insert_ne by discriminate;
        apply lookup_insert_eq).
  assert (post !! "metrics"
          = Some (PDict (<["replies" := default (PInt 0) (mention !! "replies")]>
                        (<["reposts" := default (PInt 0) (mention !! "retweets")]>
                        (<["likes" := default (PInt 0) (mention !! "likes")]> ∅)))))
    as P2 by (rewrite <- Hpost; rewrite ?lookup_insert_ne by discriminate;
              apply lookup_insert_eq).
  assert (post !! "sentiment" = Some (PStr label)) as P3
    by (rewrite <- Hpost; rewrite ?lookup_insert_ne by discriminate;
        apply lookup_insert_eq).
  assert (post !! "engagement_score" = Some (PFloat e)) as P4
    by (rewrite <- Hpost; rewrite ?lookup_insert_ne by discriminate;
        apply lookup_insert_eq).
  assert (post !! "risk_flag"
          = Some (PBool (bool_decide (0 < length (detect_risk lower text))%nat)))
    as P5 by (rewrite <- Hpost; rewrite ?lookup_insert_ne by discriminate;
              apply lookup_insert_eq).
  assert (post !! "risk_keywords" = Some (PList (PStr <$> detect_risk lower text)))
    as P6 by (rewrite <- Hpost; rewrite ?lookup_insert_ne by discriminate;
              apply lookup_insert_eq).
  clear Hpost Hsc.
  unfold score_existing_post. rewrite P1, P2, P3, P5.
  cbn [default from_option id as_dict]. rewrite Ht.
  cbn [mbind option_bind]. rewrite Hs. cbn [mbind option_bind].
  rewrite score_engagement_reposts, He. cbn [mbind option_bind].
  rewrite (label_truthy _ _ _ _ Hs). cbn [negb].
  rewrite (insert_id post "sentiment" _ P3).
  rewrite (insert_id post "engagement_score" _ P4).
  rewrite (insert_id post "risk_keywords" _ P6).
  rewrite (insert_id post "risk_flag" _ P5). reflexivity.
Qed.

Lemma ingest_raw_length (raw_file : file_state pyval)
    (scored : list (gmap string pyval)) :
  ingest_raw lower raw_file = Some scored →
  length scored = length (Readings.mentions_of raw_file).
Proof.
  unfold ingest_raw, Readings.mentions_of.
  destruct raw_file as [| | v]; try discriminate. cbn [mbind option_bind].
  destruct v; try discriminate. cbn [as_dict mbind option_bind].
  destruct (iter_values _) as [mentions |]; [| discriminate].
  cbn [mbind option_bind default from_option id].
  intros H. symmetry. exact (length_mapM _ _ _ H).
Qed.

Lemma merge_mentions_count (existing out : gmap string pyval)
    (scored_mentions : list (gmap string pyval)) (now : string) :
  merge_mentions existing scored_mentions now = Some out →
  length (Readings.posts_of out)
  = (length (Readings.posts_of existing) + length scored_mentions)%nat.
Proof.
  intros H.
  destruct (merge_mentions_unfold _ _ _ _ H) as (old & new & dicts & Hold & Hnew & E & ->).
  rewrite (posts_of_old _ _ Hold). unfold Readings.posts_of.
  rewrite lookup_insert_ne by discriminate. rewrite lookup_insert_eq.
  cbn [mbind option_bind as_list default from_option id].
  rewrite length_fmap, sorted_desc_Permutation.
  rewrite <- (length_fmap PDict dicts), <- E, length_app, length_fmap.
  f_equal. symmetry. exact (length_mapM _ _ _ Hnew).
Qed.

Lemma main_fold_count (files : list (file_state pyval * string))
    (data out : gmap string pyval) :
  foldl (λ acc raw,
           data ← acc;
           scored ← ingest_raw lower raw.1;
           merge_mentions data scored raw.2)
        (Some data) files = Some out →
  length (Readings.posts_of out)
  = (length (Readings.posts_of data)
     + sum_list ((λ raw, length (Readings.mentions_of raw.1)) <$> files))%nat ∧
  Forall (λ raw, is_Some (ingest_raw lower raw.1)) files.
Proof.
  revert data. induction files as [| raw files IH]; intros data H.
  - injection H as <-. simpl. split; [lia | constructor].
  - cbn [foldl] in H. cbn [mbind option_bind] in H.
    destruct (ingest_raw lower raw.1) as [scored |] eqn:Hi;
      [| cbn [mbind option_bind] in H; by rewrite foldl_failed in H].
    cbn [mbind option_bind] in H.
    destruct (merge_mentions data scored raw.2) as [data' |] eqn:Hm;
      [| by rewrite foldl_failed in H].
    destruct (IH _ H) as [Hcount Hall].
    split; [| constructor; [by rewrite Hi | exact Hall]].
    rewrite Hcount, (merge_mentions_count _ _ _ _ Hm), (ingest_raw_length _ _ Hi).
    rewrite fmap_cons. cbn [sum_list sum_list_with]. unfold id. lia.
Qed.

(** X23. A run of the scorer that completes writes as many posts as the
    scored pull file held plus one per mention of every raw file, in
    whatever order the files come; with no pull file the posts are the
    mentions alone. Every raw file of such a run was readable. *)
Theorem main_post_count (pull_file : file_state pyval)
    (raw_files : option (list (file_state pyval * string)))
    (out : gmap string pyval) :
  Mentions.main lower pull_file raw_files = Some out →
  ∃ data,
    main_load lower pull_file = Some data ∧
    length (Readings.posts_of out)
    = (length (Readings.posts_of data)
       + sum_list ((λ raw, length (Readings.mentions_of raw.1))
                   <$> default [] raw_files))%nat ∧
    (pull_file = Absent → Readings.posts_of data = []) ∧
    Forall (λ raw, is_Some (ingest_raw lower raw.1)) (default [] raw_files).
Proof.
  unfold Mentions.main.
  destruct (main_load lower pull_file) as [data |] eqn:Hl; [| discriminate].
  cbn [mbind option_bind]. intros H.
  destruct (main_fold_count _ _ _ H) as [Hcount Hall].
  exists data. split; [reflexivity |]. split; [exact Hcount |].
  split; [| exact Hall].
  intros ->. by injection Hl as <-.
Qed.

(** X24. One raw file that is missing or does not decode stops the whole
    run with an exception: nothing is written, whatever the other files
    and the pull file hold. *)
Theorem main_stops_on_bad_raw_file (pull_file : file_state pyval)
    (files : list (file_state pyval * string)) (raw : file_state pyval * string) :
  raw ∈ files → raw.1 = Unparseable ∨ raw.1 = Absent →
  Mentions.main lower pull_file (Some files) = None.
Proof.
  intros Hin Hbad. unfold Mentions.main.
  destruct (main_load lower pull_file) as [data |]; [| reflexivity].
  cbn [mbind option_bind default from_option id].
  assert (ingest_raw lower raw.1 = None) as Hi
    by (destruct Hbad as [-> | ->]; reflexivity).
  generalize (Some data). induction files as [| raw' files IH]; intros acc.
  - by apply elem_of_nil in Hin.
  - apply elem_of_cons in Hin as [<- | Hin].
    + cbn [foldl]. rewrite Hi.
      replace (acc ≫= _) with (@None (gmap string pyval))
        by (by destruct acc).
      by apply foldl_failed.
    + cbn [foldl]. by apply IH.
Qed.

End WithLower.

Lemma merged_mention_stable_witness :
  ∃ scored post,
    score_mention ascii_lower MoreSamples.mention_risky = Some scored ∧
    mention_post scored = Some post ∧
    score_existing_post ascii_lower post = Some post.
Proof.
  destruct (score_mention ascii_lower MoreSamples.mention_risky) as [scored |] eqn:E1;
    [| vm_compute in E1; discriminate].
  destruct (mention_post scored) as [post |] eqn:E2.
  - exists scored, post. split; [reflexivity |]. split; [exact E2 |].
    exact (merged_mention_stable ascii_lower _ _ _ E1 E2).
  - assert (score_mention ascii_lower MoreSamples.mention_risky ≫= mention_post = None)
      as H by (rewrite E1; exact E2).
    vm_compute in H. discriminate H.
Defined.

Lemma main_post_count_witness :
  ∃ out,
    Mentions.main ascii_lower (Parsed (PDict MoreSamples.pull_two))
      (Some [(MoreSamples.raw_two, "t1"%string); (MoreSamples.raw_none, "t2"%string)])
    = Some out ∧
    length (Readings.posts_of out) = 4%nat.
Proof.
  destruct (Mentions.main ascii_lower (Parsed (PDict MoreSamples.pull_two))
              (Some [(MoreSamples.raw_two, "t1"%string);
                     (MoreSamples.raw_none, "t2"%string)]))
    as [out |] eqn:E; [| vm_compute in E; discriminate].
  exists out. split; [reflexivity |].
  destruct (main_post_count ascii_lower _ _ _ E) as (data & Hl & Hcount & _).
  assert ((λ d, length (Readings.posts_of d))
            <$> main_load ascii_lower (Parsed (PDict MoreSamples.pull_two))
          = Some 2%nat) as H2 by (vm_compute; reflexivity).
  rewrite Hl in H2. injection H2 as H2.
  rewrite Hcount, H2. reflexivity.
Defined.

Lemma main_stops_on_bad_raw_file_witness :
  Mentions.main ascii_lower (Parsed (PDict MoreSamples.pull_two))
    (Some [(MoreSamples.raw_two, "t1"%string); (Unparseable, "t2"%string)]) = None.
Proof.
  apply (main_stops_on_bad_raw_file ascii_lower _ _ (Unparseable, "t2"%string)).
  - apply elem_of_cons. right. apply elem_of_cons. by left.
  - by left.
Defined.

End ScorerMore.
